(** * scpdocgen: rendering a document record to an HTML page

    A shallow embedding of [scpdocgen.py] and the properties its
    specification states about it.

    Modelling conventions.
    - A Python [str] is the [string] of its UTF-8 bytes.  Every text
      operation the program performs either touches ASCII characters only
      ([html.escape], the templates) or whole code points ([str.strip],
      [str.lower]), so it is written here on the encoded bytes.
    - A value produced by [json.loads] is a [value].
    - A Python expression that may raise is a [result]; evaluation order is
      the order of the binds. *)

From Stdlib Require Import String Ascii List ZArith Bool Lia DecimalString.
Import ListNotations.
Open Scope list_scope.
Open Scope string_scope.
Set Warnings "-register-all".

(** ** Python strings *)

Module Py.

Definition byte_is (n : N) (c : ascii) : bool := N.eqb (N_of_ascii c) n.

Definition byte_in (lo hi : N) (c : ascii) : bool :=
  (N.leb lo (N_of_ascii c) && N.leb (N_of_ascii c) hi)%bool.

(** The double quote, which the templates below write as a backquote. *)
Definition dquote : ascii := "034"%char.

Fixpoint lit (s : string) : string :=
  match s with
  | EmptyString => EmptyString
  | String c r => String (if Ascii.eqb c "`" then dquote else c) (lit r)
  end.

(** [str.isspace] on a one-byte code point: TAB..CR, FS..US and the space. *)
Definition space1 (a : ascii) : bool :=
  byte_in 9 13 a || byte_in 28 31 a || byte_is 32 a.

(** U+0085 and U+00A0, encoded [C2 85] and [C2 A0]. *)
Definition space2 (a b : ascii) : bool :=
  byte_is 194 a && (byte_is 133 b || byte_is 160 b).

(** U+1680; U+2000..U+200A, U+2028, U+2029, U+202F; U+205F; U+3000. *)
Definition space3 (a b c : ascii) : bool :=
  (byte_is 225 a && byte_is 154 b && byte_is 128 c)
  || (byte_is 226 a && byte_is 128 b
      && (byte_in 128 138 c || byte_is 168 c || byte_is 169 c || byte_is 175 c))
  || (byte_is 226 a && byte_is 129 b && byte_is 159 c)
  || (byte_is 227 a && byte_is 128 b && byte_is 128 c).

(** First bytes of the encodings listed in [space2] and [space3]. *)
Definition space_lead (a : ascii) : bool :=
  byte_is 194 a || byte_is 225 a || byte_is 226 a || byte_is 227 a.

(** Last bytes of the same encodings. *)
Definition space_last (a : ascii) : bool := byte_in 128 175 a.

Fixpoint lstrip (s : string) : string :=
  match s with
  | EmptyString => s
  | String a t =>
      if space1 a then lstrip t
      else if space_lead a then
        match t with
        | String b u =>
            if space2 a b then lstrip u
            else match u with
                 | String c v => if space3 a b c then lstrip v else s
                 | EmptyString => s
                 end
        | EmptyString => s
        end
      else s
  end.

Fixpoint rev (s : string) : string :=
  match s with
  | EmptyString => EmptyString
  | String c r => rev r ++ String c EmptyString
  end.

(** [lstrip] on the reversed bytes: the encodings are met last byte first. *)
Fixpoint lstrip_rev (s : string) : string :=
  match s with
  | EmptyString => s
  | String a t =>
      if space1 a then lstrip_rev t
      else if space_last a then
        match t with
        | String b u =>
            if space2 b a then lstrip_rev u
            else match u with
                 | String c v => if space3 c b a then lstrip_rev v else s
                 | EmptyString => s
                 end
        | EmptyString => s
        end
      else s
  end.

Definition rstrip (s : string) : string := rev (lstrip_rev (rev s)).

(** [str.strip()] *)
Definition strip (s : string) : string := rstrip (lstrip s).

Definition lower_ascii (c : ascii) : ascii :=
  if byte_in 65 90 c then ascii_of_N (N_of_ascii c + 32) else c.

(** [str.lower()].  The program only uses the result as a key of a table
    whose keys are ASCII, so what matters is which strings lower-case to an
    ASCII string: beside A..Z, the one code point whose lower case is an ASCII
    letter is the Kelvin sign U+212A ([E2 84 AA]), which becomes [k].  Other
    code points outside ASCII are kept as they are. *)
Fixpoint lower (s : string) : string :=
  match s with
  | EmptyString => EmptyString
  | String a t =>
      if byte_is 226 a then
        match t with
        | String b (String c r) =>
            if byte_is 132 b && byte_is 170 c then String "k" (lower r)
            else String a (lower t)
        | _ => String a (lower t)
        end
      else String (lower_ascii a) (lower t)
  end.

(** [html.escape(s, quote=True)]: the ampersand, the two angle brackets and
    the two quote characters become character references. *)
Definition escape_char (c : ascii) : string :=
  if Ascii.eqb c "&" then "&amp;"
  else if Ascii.eqb c "<" then "&lt;"
  else if Ascii.eqb c ">" then "&gt;"
  else if Ascii.eqb c dquote then "&quot;"
  else if Ascii.eqb c "'" then "&#x27;"
  else String c EmptyString.

Fixpoint html_escape (s : string) : string :=
  match s with
  | EmptyString => EmptyString
  | String c r => escape_char c ++ html_escape r
  end.

(** An f-string, given as the list of its parts in order: the literal text
    between the replacement fields and the formatted value of each field. *)
Definition fstring (parts : list string) : string := fold_right append EmptyString parts.

(** [sep.join(ls)] *)
Definition join (sep : string) (ls : list string) : string := String.concat sep ls.

Fixpoint contains_char (c : ascii) (s : string) : bool :=
  match s with
  | EmptyString => false
  | String d r => Ascii.eqb c d || contains_char c r
  end.

Definition hex_digit (n : N) : ascii :=
  if N.ltb n 10 then ascii_of_N (48 + n) else ascii_of_N (87 + n).

(** One character of [repr] of a [str] quoted with [quote], for a code
    point of one byte. *)
Definition repr_char (quote c : ascii) : string :=
  if Ascii.eqb c quote || Ascii.eqb c "\" then String "\" (String c EmptyString)
  else if byte_is 9 c then "\t"
  else if byte_is 10 c then "\n"
  else if byte_is 13 c then "\r"
  else if byte_in 0 31 c || byte_is 127 c then
    String "\" (String "x" (String (hex_digit (N_of_ascii c / 16))
                              (String (hex_digit (N_of_ascii c mod 16)) EmptyString)))
  else String c EmptyString.

(** The code points from U+0080 up that [str.isprintable] refuses, as
    inclusive ranges: those of the categories Cc, Cf, Cs, Co, Cn, Zl, Zp and
    Zs in Unicode 14.0, the tables of CPython 3.11. *)
Definition unprintable : list (N * N) :=
  [(128, 160); (173, 173); (888, 889); (896, 899); (907, 907); (909, 909);
   (930, 930); (1328, 1328); (1367, 1368); (1419, 1420); (1424, 1424);
   (1480, 1487); (1515, 1518); (1525, 1541); (1564, 1564); (1757, 1757);
   (1806, 1807); (1867, 1868); (1970, 1983); (2043, 2044); (2094, 2095);
   (2111, 2111); (2140, 2141); (2143, 2143); (2155, 2159); (2191, 2199);
   (2274, 2274); (2436, 2436); (2445, 2446); (2449, 2450); (2473, 2473);
   (2481, 2481); (2483, 2485); (2490, 2491); (2501, 2502); (2505, 2506);
   (2511, 2518); (2520, 2523); (2526, 2526); (2532, 2533); (2559, 2560);
   (2564, 2564); (2571, 2574); (2577, 2578); (2601, 2601); (2609, 2609);
   (2612, 2612); (2615, 2615); (2618, 2619); (2621, 2621); (2627, 2630);
   (2633, 2634); (2638, 2640); (2642, 2648); (2653, 2653); (2655, 2661);
   (2679, 2688); (2692, 2692); (2702, 2702); (2706, 2706); (2729, 2729);
   (2737, 2737); (2740, 2740); (2746, 2747); (2758, 2758); (2762, 2762);
   (2766, 2767); (2769, 2783); (2788, 2789); (2802, 2808); (2816, 2816);
   (2820, 2820); (2829, 2830); (2833, 2834); (2857, 2857); (2865, 2865);
   (2868, 2868); (2874, 2875); (2885, 2886); (2889, 2890); (2894, 2900);
   (2904, 2907); (2910, 2910); (2916, 2917); (2936, 2945); (2948, 2948);
   (2955, 2957); (2961, 2961); (2966, 2968); (2971, 2971); (2973, 2973);
   (2976, 2978); (2981, 2983); (2987, 2989); (3002, 3005); (3011, 3013);
   (3017, 3017); (3022, 3023); (3025, 3030); (3032, 3045); (3067, 3071);
   (3085, 3085); (3089, 3089); (3113, 3113); (3130, 3131); (3141, 3141);
   (3145, 3145); (3150, 3156); (3159, 3159); (3163, 3164); (3166, 3167);
   (3172, 3173); (3184, 3190); (3213, 3213); (3217, 3217); (3241, 3241);
   (3252, 3252); (3258, 3259); (3269, 3269); (3273, 3273); (3278, 3284);
   (3287, 3292); (3295, 3295); (3300, 3301); (3312, 3312); (3315, 3327);
   (3341, 3341); (3345, 3345); (3397, 3397); (3401, 3401); (3408, 3411);
   (3428, 3429); (3456, 3456); (3460, 3460); (3479, 3481); (3506, 3506);
   (3516, 3516); (3518, 3519); (3527, 3529); (3531, 3534); (3541, 3541);
   (3543, 3543); (3552, 3557); (3568, 3569); (3573, 3584); (3643, 3646);
   (3676, 3712); (3715, 3715); (3717, 3717); (3723, 3723); (3748, 3748);
   (3750, 3750); (3774, 3775); (3781, 3781); (3783, 3783); (3790, 3791);
   (3802, 3803); (3808, 3839); (3912, 3912); (3949, 3952); (3992, 3992);
   (4029, 4029); (4045, 4045); (4059, 4095); (4294, 4294); (4296, 4300);
   (4302, 4303); (4681, 4681); (4686, 4687); (4695, 4695); (4697, 4697);
   (4702, 4703); (4745, 4745); (4750, 4751); (4785, 4785); (4790, 4791);
   (4799, 4799); (4801, 4801); (4806, 4807); (4823, 4823); (4881, 4881);
   (4886, 4887); (4955, 4956); (4989, 4991); (5018, 5023); (5110, 5111);
   (5118, 5119); (5760, 5760); (5789, 5791); (5881, 5887); (5910, 5918);
   (5943, 5951); (5972, 5983); (5997, 5997); (6001, 6001); (6004, 6015);
   (6110, 6111); (6122, 6127); (6138, 6143); (6158, 6158); (6170, 6175);
   (6265, 6271); (6315, 6319); (6390, 6399); (6431, 6431); (6444, 6447);
   (6460, 6463); (6465, 6467); (6510, 6511); (6517, 6527); (6572, 6575);
   (6602, 6607); (6619, 6621); (6684, 6685); (6751, 6751); (6781, 6782);
   (6794, 6799); (6810, 6815); (6830, 6831); (6863, 6911); (6989, 6991);
   (7039, 7039); (7156, 7163); (7224, 7226); (7242, 7244); (7305, 7311);
   (7355, 7356); (7368, 7375); (7419, 7423); (7958, 7959); (7966, 7967);
   (8006, 8007); (8014, 8015); (8024, 8024); (8026, 8026); (8028, 8028);
   (8030, 8030); (8062, 8063); (8117, 8117); (8133, 8133); (8148, 8149);
   (8156, 8156); (8176, 8177); (8181, 8181); (8191, 8207); (8232, 8239);
   (8287, 8303); (8306, 8307); (8335, 8335); (8349, 8351); (8385, 8399);
   (8433, 8447); (8588, 8591); (9255, 9279); (9291, 9311); (11124, 11125);
   (11158, 11158); (11508, 11512); (11558, 11558); (11560, 11564);
   (11566, 11567); (11624, 11630); (11633, 11646); (11671, 11679);
   (11687, 11687); (11695, 11695); (11703, 11703); (11711, 11711);
   (11719, 11719); (11727, 11727); (11735, 11735); (11743, 11743);
   (11870, 11903); (11930, 11930); (12020, 12031); (12246, 12271);
   (12284, 12288); (12352, 12352); (12439, 12440); (12544, 12548);
   (12592, 12592); (12687, 12687); (12772, 12783); (12831, 12831);
   (42125, 42127); (42183, 42191); (42540, 42559); (42744, 42751);
   (42955, 42959); (42962, 42962); (42964, 42964); (42970, 42993);
   (43053, 43055); (43066, 43071); (43128, 43135); (43206, 43213);
   (43226, 43231); (43348, 43358); (43389, 43391); (43470, 43470);
   (43482, 43485); (43519, 43519); (43575, 43583); (43598, 43599);
   (43610, 43611); (43715, 43738); (43767, 43776); (43783, 43784);
   (43791, 43792); (43799, 43807); (43815, 43815); (43823, 43823);
   (43884, 43887); (44014, 44015); (44026, 44031); (55204, 55215);
   (55239, 55242); (55292, 63743); (64110, 64111); (64218, 64255);
   (64263, 64274); (64280, 64284); (64311, 64311); (64317, 64317);
   (64319, 64319); (64322, 64322); (64325, 64325); (64451, 64466);
   (64912, 64913); (64968, 64974); (64976, 65007); (65050, 65055);
   (65107, 65107); (65127, 65127); (65132, 65135); (65141, 65141);
   (65277, 65280); (65471, 65473); (65480, 65481); (65488, 65489);
   (65496, 65497); (65501, 65503); (65511, 65511); (65519, 65531);
   (65534, 65535); (65548, 65548); (65575, 65575); (65595, 65595);
   (65598, 65598); (65614, 65615); (65630, 65663); (65787, 65791);
   (65795, 65798); (65844, 65846); (65935, 65935); (65949, 65951);
   (65953, 65999); (66046, 66175); (66205, 66207); (66257, 66271);
   (66300, 66303); (66340, 66348); (66379, 66383); (66427, 66431);
   (66462, 66462); (66500, 66503); (66518, 66559); (66718, 66719);
   (66730, 66735); (66772, 66775); (66812, 66815); (66856, 66863);
   (66916, 66926); (66939, 66939); (66955, 66955); (66963, 66963);
   (66966, 66966); (66978, 66978); (66994, 66994); (67002, 67002);
   (67005, 67071); (67383, 67391); (67414, 67423); (67432, 67455);
   (67462, 67462); (67505, 67505); (67515, 67583); (67590, 67591);
   (67593, 67593); (67638, 67638); (67641, 67643); (67645, 67646);
   (67670, 67670); (67743, 67750); (67760, 67807); (67827, 67827);
   (67830, 67834); (67868, 67870); (67898, 67902); (67904, 67967);
   (68024, 68027); (68048, 68049); (68100, 68100); (68103, 68107);
   (68116, 68116); (68120, 68120); (68150, 68151); (68155, 68158);
   (68169, 68175); (68185, 68191); (68256, 68287); (68327, 68330);
   (68343, 68351); (68406, 68408); (68438, 68439); (68467, 68471);
   (68498, 68504); (68509, 68520); (68528, 68607); (68681, 68735);
   (68787, 68799); (68851, 68857); (68904, 68911); (68922, 69215);
   (69247, 69247); (69290, 69290); (69294, 69295); (69298, 69375);
   (69416, 69423); (69466, 69487); (69514, 69551); (69580, 69599);
   (69623, 69631); (69710, 69713); (69750, 69758); (69821, 69821);
   (69827, 69839); (69865, 69871); (69882, 69887); (69941, 69941);
   (69960, 69967); (70007, 70015); (70112, 70112); (70133, 70143);
   (70162, 70162); (70207, 70271); (70279, 70279); (70281, 70281);
   (70286, 70286); (70302, 70302); (70314, 70319); (70379, 70383);
   (70394, 70399); (70404, 70404); (70413, 70414); (70417, 70418);
   (70441, 70441); (70449, 70449); (70452, 70452); (70458, 70458);
   (70469, 70470); (70473, 70474); (70478, 70479); (70481, 70486);
   (70488, 70492); (70500, 70501); (70509, 70511); (70517, 70655);
   (70748, 70748); (70754, 70783); (70856, 70863); (70874, 71039);
   (71094, 71095); (71134, 71167); (71237, 71247); (71258, 71263);
   (71277, 71295); (71354, 71359); (71370, 71423); (71451, 71452);
   (71468, 71471); (71495, 71679); (71740, 71839); (71923, 71934);
   (71943, 71944); (71946, 71947); (71956, 71956); (71959, 71959);
   (71990, 71990); (71993, 71994); (72007, 72015); (72026, 72095);
   (72104, 72105); (72152, 72153); (72165, 72191); (72264, 72271);
   (72355, 72367); (72441, 72703); (72713, 72713); (72759, 72759);
   (72774, 72783); (72813, 72815); (72848, 72849); (72872, 72872);
   (72887, 72959); (72967, 72967); (72970, 72970); (73015, 73017);
   (73019, 73019); (73022, 73022); (73032, 73039); (73050, 73055);
   (73062, 73062); (73065, 73065); (73103, 73103); (73106, 73106);
   (73113, 73119); (73130, 73439); (73465, 73647); (73649, 73663);
   (73714, 73726); (74650, 74751); (74863, 74863); (74869, 74879);
   (75076, 77711); (77811, 77823); (78895, 82943); (83527, 92159);
   (92729, 92735); (92767, 92767); (92778, 92781); (92863, 92863);
   (92874, 92879); (92910, 92911); (92918, 92927); (92998, 93007);
   (93018, 93018); (93026, 93026); (93048, 93052); (93072, 93759);
   (93851, 93951); (94027, 94030); (94088, 94094); (94112, 94175);
   (94181, 94191); (94194, 94207); (100344, 100351); (101590, 101631);
   (101641, 110575); (110580, 110580); (110588, 110588); (110591, 110591);
   (110883, 110927); (110931, 110947); (110952, 110959); (111356, 113663);
   (113771, 113775); (113789, 113791); (113801, 113807); (113818, 113819);
   (113824, 118527); (118574, 118575); (118599, 118607); (118724, 118783);
   (119030, 119039); (119079, 119080); (119155, 119162); (119275, 119295);
   (119366, 119519); (119540, 119551); (119639, 119647); (119673, 119807);
   (119893, 119893); (119965, 119965); (119968, 119969); (119971, 119972);
   (119975, 119976); (119981, 119981); (119994, 119994); (119996, 119996);
   (120004, 120004); (120070, 120070); (120075, 120076); (120085, 120085);
   (120093, 120093); (120122, 120122); (120127, 120127); (120133, 120133);
   (120135, 120137); (120145, 120145); (120486, 120487); (120780, 120781);
   (121484, 121498); (121504, 121504); (121520, 122623); (122655, 122879);
   (122887, 122887); (122905, 122906); (122914, 122914); (122917, 122917);
   (122923, 123135); (123181, 123183); (123198, 123199); (123210, 123213);
   (123216, 123535); (123567, 123583); (123642, 123646); (123648, 124895);
   (124903, 124903); (124908, 124908); (124911, 124911); (124927, 124927);
   (125125, 125126); (125143, 125183); (125260, 125263); (125274, 125277);
   (125280, 126064); (126133, 126208); (126270, 126463); (126468, 126468);
   (126496, 126496); (126499, 126499); (126501, 126502); (126504, 126504);
   (126515, 126515); (126520, 126520); (126522, 126522); (126524, 126529);
   (126531, 126534); (126536, 126536); (126538, 126538); (126540, 126540);
   (126544, 126544); (126547, 126547); (126549, 126550); (126552, 126552);
   (126554, 126554); (126556, 126556); (126558, 126558); (126560, 126560);
   (126563, 126563); (126565, 126566); (126571, 126571); (126579, 126579);
   (126584, 126584); (126589, 126589); (126591, 126591); (126602, 126602);
   (126620, 126624); (126628, 126628); (126634, 126634); (126652, 126703);
   (126706, 126975); (127020, 127023); (127124, 127135); (127151, 127152);
   (127168, 127168); (127184, 127184); (127222, 127231); (127406, 127461);
   (127491, 127503); (127548, 127551); (127561, 127567); (127570, 127583);
   (127590, 127743); (128728, 128732); (128749, 128751); (128765, 128767);
   (128884, 128895); (128985, 128991); (129004, 129007); (129009, 129023);
   (129036, 129039); (129096, 129103); (129114, 129119); (129160, 129167);
   (129198, 129199); (129202, 129279); (129620, 129631); (129646, 129647);
   (129653, 129655); (129661, 129663); (129671, 129679); (129709, 129711);
   (129723, 129727); (129734, 129743); (129754, 129759); (129768, 129775);
   (129783, 129791); (129939, 129939); (129995, 130031); (130042, 131071);
   (173792, 173823); (177977, 177983); (178206, 178207); (183970, 183983);
   (191457, 194559); (195102, 196607); (201547, 917759); (918000, 1114111)]%N.

Definition printable (cp : N) : bool :=
  negb (existsb (fun r => N.leb (fst r) cp && N.leb cp (snd r)) unprintable).

(** The last [digits] hexadecimal digits of [n]. *)
Fixpoint hex (digits : nat) (n : N) : string :=
  match digits with
  | O => EmptyString
  | S d => hex d (n / 16) ++ String (hex_digit (n mod 16)) EmptyString
  end.

(** The escape [repr] writes for a code point that is not printable. *)
Definition escape_point (cp : N) : string :=
  if N.ltb cp 256 then String "\" (String "x" (hex 2 cp))
  else if N.ltb cp 65536 then String "\" (String "u" (hex 4 cp))
  else String "\" (String "U" (hex 8 cp)).

(** [repr] of the code point [cp] from U+0080 up, encoded as [bytes]. *)
Definition repr_point (cp : N) (bytes : string) : string :=
  if printable cp then bytes else escape_point cp.

Definition continuation (c : ascii) : bool := byte_in 128 191 c.

(** The bits a byte of an encoding carries: its value modulo [m]. *)
Definition payload (m : N) (c : ascii) : N := N_of_ascii c mod m.

(** The text between the quotes: the encodings of two, three and four bytes
    are decoded, and the code point written as it is or as its escape.  A
    byte from 128 up that starts no encoding, which no [str] gives, is
    kept. *)
Fixpoint repr_chars (quote : ascii) (s : string) : string :=
  match s with
  | EmptyString => EmptyString
  | String a t =>
      match t with
      | String b u =>
          if byte_in 194 223 a && continuation b then
            repr_point (payload 32 a * 64 + payload 64 b)
              (String a (String b EmptyString))
            ++ repr_chars quote u
          else
            match u with
            | String c v =>
                if byte_in 224 239 a && continuation b && continuation c then
                  repr_point ((payload 16 a * 64 + payload 64 b) * 64 + payload 64 c)
                    (String a (String b (String c EmptyString)))
                  ++ repr_chars quote v
                else
                  match v with
                  | String d w =>
                      if byte_in 240 244 a && continuation b && continuation c
                         && continuation d then
                        repr_point (((payload 8 a * 64 + payload 64 b) * 64
                                     + payload 64 c) * 64 + payload 64 d)
                          (String a (String b (String c (String d EmptyString))))
                        ++ repr_chars quote w
                      else repr_char quote a ++ repr_chars quote t
                  | EmptyString => repr_char quote a ++ repr_chars quote t
                  end
            | EmptyString => repr_char quote a ++ repr_chars quote t
            end
      | EmptyString => repr_char quote a
      end
  end.

(** [repr] of a [str]: single quotes, unless the text has a single quote and
    no double quote. *)
Definition repr_str (s : string) : string :=
  let quote := if contains_char "'" s && negb (contains_char dquote s)
               then dquote else "'"%char in
  String quote (repr_chars quote s ++ String quote EmptyString).

(** [str] of an [int] *)
Definition str_int (n : Z) : string := NilZero.string_of_int (Z.to_int n).

End Py.

(** ** Values and exceptions *)

(** What [json.loads] returns.  A [float] is carried as the text [repr]
    gives for it, the only thing beside truth the program observes of one.
    The entries of a [dict] are in insertion order and their keys differ. *)
Inductive value : Type :=
| VNone
| VBool (b : bool)
| VInt (n : Z)
| VFloat (text : string)
| VStr (s : string)
| VList (items : list value)
| VDict (entries : list (string * value)).

Inductive exn : Type := AttributeError | TypeError | KeyError.

Inductive result (A : Type) : Type :=
| Ok (a : A)
| Raise (e : exn).
Arguments Ok {A} a.
Arguments Raise {A} e.

Definition bind {A B : Type} (m : result A) (k : A -> result B) : result B :=
  match m with
  | Ok a => k a
  | Raise e => Raise e
  end.

Notation "x <- m ;; k" := (bind m (fun x => k))
  (at level 61, m at next level, right associativity).

(** [repr(v)] *)
Fixpoint repr (v : value) : string :=
  match v with
  | VNone => "None"
  | VBool true => "True"
  | VBool false => "False"
  | VInt n => Py.str_int n
  | VFloat text => text
  | VStr s => Py.repr_str s
  | VList items => "[" ++ Py.join ", " (map repr items) ++ "]"
  | VDict entries =>
      "{" ++ Py.join ", " (map (fun kv => Py.repr_str (fst kv) ++ ": " ++ repr (snd kv))
                               entries) ++ "}"
  end.

(** [str(v)], which is also what a replacement field [{v}] of an f-string
    formats [v] to. *)
Definition str (v : value) : string :=
  match v with
  | VStr s => s
  | _ => repr v
  end.

(** Truth value of [v], as [if v] and [not v] test it. *)
Definition truthy (v : value) : bool :=
  match v with
  | VNone => false
  | VBool b => b
  | VInt n => negb (Z.eqb n 0)
  | VFloat text => negb (String.eqb text "0.0" || String.eqb text "-0.0")
  | VStr s => negb (String.eqb s "")
  | VList items => match items with [] => false | _ => true end
  | VDict entries => match entries with [] => false | _ => true end
  end.

Fixpoint lookup {A : Type} (k : string) (entries : list (string * A)) : option A :=
  match entries with
  | [] => None
  | (k', v) :: rest => if String.eqb k k' then Some v else lookup k rest
  end.

(** [d.get(k, default)]; only a [dict] has the method. *)
Definition get (d : value) (k : string) (default : value) : result value :=
  match d with
  | VDict entries =>
      Ok (match lookup k entries with Some v => v | None => default end)
  | _ => Raise AttributeError
  end.

(** [d[k]] for a [str] key [k]. *)
Definition getitem (d : value) (k : string) : result value :=
  match d with
  | VDict entries =>
      match lookup k entries with Some v => Ok v | None => Raise KeyError end
  | _ => Raise TypeError
  end.

(** [v == s] for a [str] literal [s]. *)
Definition eq_str (v : value) (s : string) : bool :=
  match v with
  | VStr t => String.eqb t s
  | _ => false
  end.

(** [v.lower()] and [v.strip()]; only a [str] has the methods. *)
Definition lower (v : value) : result string :=
  match v with
  | VStr s => Ok (Py.lower s)
  | _ => Raise AttributeError
  end.

Definition strip (v : value) : result string :=
  match v with
  | VStr s => Ok (Py.strip s)
  | _ => Raise AttributeError
  end.

Fixpoint chars (s : string) : list value :=
  match s with
  | EmptyString => []
  | String c r => VStr (String c EmptyString) :: chars r
  end.

(** The elements [for x in v] visits: those of a [list], the keys of a
    [dict], the characters of a [str] (here its bytes: the program fails on
    the first of them, whatever it is). *)
Definition iter (v : value) : result (list value) :=
  match v with
  | VList items => Ok items
  | VDict entries => Ok (map (fun kv => VStr (fst kv)) entries)
  | VStr s => Ok (chars s)
  | _ => Raise TypeError
  end.

(** ** The program *)

Import Py (fstring).

Definition ACS_ICON_BASE : string :=
  "https://scp-wiki.wdfiles.com/local--files/" ++
  "component:anomaly-class-bar".

Definition ACS_ICON_MAP : list (string * string) :=
  [ (* Containment *)
    ("safe", "safe-icon.svg");
    ("euclid", "euclid-icon.svg");
    ("keter", "keter-icon.svg");
    ("neutralized", "neutralized-icon.svg");
    ("pending", "pending-icon.svg");
    ("explained", "explained-icon.svg");
    ("esoteric", "esoteric-icon.svg");
    (* Secondary / Esoteric *)
    ("thaumiel", "thaumiel-icon.svg");
    ("apollyon", "apollyon-icon.svg");
    ("archon", "archon-icon.svg");
    ("cernunnos", "cernunnos-icon.svg");
    ("decommissioned", "decommissioned-icon.svg");
    ("hiemal", "hiemal-icon.svg");
    ("tiamat", "tiamat-icon.svg");
    ("ticonderoga", "ticonderoga-icon.svg");
    ("uncontained", "uncontained-icon.svg");
    (* Disruption *)
    ("dark", "dark-icon.svg");
    ("vlam", "vlam-icon.svg");
    ("keneq", "keneq-icon.svg");
    ("ekhi", "ekhi-icon.svg");
    ("amida", "amida-icon.svg");
    (* Risk *)
    ("none", "notice-icon.svg");
    ("notice", "notice-icon.svg");
    ("caution", "caution-icon.svg");
    ("warning", "warning-icon.svg");
    ("danger", "danger-icon.svg");
    ("critical", "critical-icon.svg") ].

Definition acs_icon_url (value : value) : result (option string) :=
  value <- lower value ;;
  match lookup value ACS_ICON_MAP with
  | None => Ok None
  | Some filename =>
      if String.eqb filename "" then Ok None
      else Ok (Some (fstring [ACS_ICON_BASE; "/"; filename]))
  end.

Definition esc (s : value) : string := Py.html_escape (str s).

(** The elements of the generator expression in [to_paragraphs]. *)
Fixpoint paragraphs (items : list value) : result (list string) :=
  match items with
  | [] => Ok []
  | p :: rest =>
      if String.eqb (Py.strip (str p)) "" then paragraphs rest
      else
        stripped <- strip p ;;
        more <- paragraphs rest ;;
        Ok (fstring ["<p>"; esc (VStr stripped); "</p>"] :: more)
  end.

Definition to_paragraphs (body : value) : result string :=
  match body with
  | VNone => Ok ""
  | _ =>
      let items :=
        match body with
        | VStr _ => [body]
        | VList items => items
        | _ => [VStr (str body)]
        end in
      ps <- paragraphs items ;;
      Ok (Py.join "
" ps)
  end.

(** The subtitle line, written the same way in both headers. *)
Definition subtitle_line (data : value) : result string :=
  subtitle <- get data "subtitle" VNone ;;
  if truthy subtitle then
    subtitle <- getitem data "subtitle" ;;
    Ok ("<div class='doc-subtitle'>" ++ esc subtitle ++ "</div>")
  else Ok "".

Definition render_classic_header (data : value) : result string :=
  classic <- get data "classic" (VDict []) ;;
  title <- get data "title" (VStr "SCP-XXXX") ;;
  item_number <- get classic "item_number" title ;;
  object_class <- get classic "object_class" (VStr "Euclid") ;;
  title <- get data "title" item_number ;;
  subtitle <- subtitle_line data ;;
  Ok (Py.strip (fstring [Py.lit "
<section class=`doc-header`>
  <div class=`doc-title`>"; esc title; "</div>
  "; subtitle; Py.lit "
  <div class=`meta-lines`>
    <div><span class=`meta-key`>Item #:</span> "; esc item_number; Py.lit "</div>
    <div><span class=`meta-key`>Object Class:</span> "; esc object_class; "</div>
  </div>
</section>
"])).

Definition acs_badge (label : string) (value : value) : result string :=
  icon <- acs_icon_url value ;;
  match icon with
  | None => Ok ""
  | Some icon =>
      if String.eqb icon "" then Ok ""
      else
        Ok (Py.strip (fstring [Py.lit "
<div class=`badge badge--acs`>
  <img
    src=`"; icon; Py.lit "`
    alt=`"; esc (VStr label); ": "; esc value; Py.lit "`
    class=`badge__icon`
    loading=`lazy`
    referrerpolicy=`no-referrer`
  >
  <div class=`badge__text`>
    <div class=`badge__label`>"; esc (VStr label); Py.lit "</div>
    <div class=`badge__value`>"; esc value; "</div>
  </div>
</div>
"]))
  end.

(** The text of the clearance line and the memo markup, as
    [render_acs_header] computes them. *)
Definition clearance_text (clearance_level clearance_label : value) : string :=
  fstring ["Level "; str clearance_level] ++
  (if truthy clearance_label then fstring [": "; str clearance_label] else "").

Definition memo_markup (memo_url : value) : string :=
  if truthy memo_url
  then fstring ["<a class='memo-link' href='"; esc memo_url; "'>Link to memo</a>"]
  else "".

Definition render_acs_header (data : value) : result string :=
  acs <- get data "acs" (VDict []) ;;
  title <- get data "title" (VStr "SCP-XXXX") ;;
  item_number <- get acs "item_number" title ;;
  clearance_level <- get acs "clearance_level" (VInt 2) ;;
  clearance_label <- get acs "clearance_label" (VStr "") ;;
  let clearance := clearance_text clearance_level clearance_label in
  containment <- get acs "containment_class" (VStr "euclid") ;;
  secondary <- get acs "secondary_class" (VStr "none") ;;
  disruption <- get acs "disruption_class" (VStr "none") ;;
  risk <- get acs "risk_class" (VStr "notice") ;;
  memo_url <- get acs "memo_url" VNone ;;
  subtitle <- subtitle_line data ;;
  badge1 <- acs_badge "Containment" containment ;;
  badge2 <- acs_badge "Secondary" secondary ;;
  badge3 <- acs_badge "Disruption" disruption ;;
  badge4 <- acs_badge "Risk" risk ;;
  Ok (Py.strip (fstring [Py.lit "
<section class=`doc-header`>
  <div class=`doc-title`>"; esc title; "</div>
  "; subtitle; Py.lit "
  <div class=`acs-bar`>
    <div class=`acs-top`>
      <div class=`acs-item`><span class=`acs-k`>Item #</span>"; esc item_number; Py.lit "</div>
      <div class=`acs-item`><span class=`acs-k`>Clearance</span>"; esc (VStr clearance); "</div>
      <!-- "; memo_markup memo_url; Py.lit " -->
    </div>
    <div class=`acs-badges`>
      "; badge1; "
      "; badge2; "
      "; badge3; "
      "; badge4; "
    </div>
  </div>
</section>
"])).

(** The body of the loop of [render_sections]: the block of one section. *)
Definition render_section (sec : value) : result string :=
  kind <- get sec "kind" VNone ;;
  let cls := if eq_str kind "log" then "section" ++ " section--log" else "section" in
  heading <- get sec "heading" (VStr "Section") ;;
  body <- get sec "body" VNone ;;
  body <- to_paragraphs body ;;
  Ok (Py.strip (fstring [Py.lit "
<section class=`"; cls; Py.lit "`>
  <h2>"; esc heading; "</h2>
  "; body; "
</section>
"])).

Fixpoint render_each (secs : list value) : result (list string) :=
  match secs with
  | [] => Ok []
  | sec :: rest =>
      block <- render_section sec ;;
      out <- render_each rest ;;
      Ok (block :: out)
  end.

Definition render_sections (data : value) : result string :=
  sections <- get data "sections" (VList []) ;;
  secs <- iter sections ;;
  out <- render_each secs ;;
  Ok (Py.join "
" out).

Definition render_footer (data : value) : result string :=
  foot <- get data "footer" (VDict []) ;;
  left <- get foot "left" (VStr "«") ;;
  title <- get data "title" (VStr "SCP") ;;
  center <- get foot "center" title ;;
  right <- get foot "right" (VStr "»") ;;
  Ok (Py.strip (fstring [Py.lit "
<footer class=`doc-footer`>
  <span>"; esc left; "</span>
  <span>"; esc center; "</span>
  <span>"; esc right; "</span>
</footer>
"])).

(** The style sheet, literal text of the page template. *)
Definition STYLE : string := "<style>
body { background:#0c0d10; color:#e8e8ee; font:15px/1.5 system-ui,sans-serif; }
.doc { max-width:960px; margin:40px auto; padding:24px; background:#121420; border-radius:16px; }
.doc-title { font-size:26px; font-weight:800; }
.meta-key { color:#b7b7c8; font-weight:700; }
.acs-bar { margin-top:14px; padding:12px; border:1px solid rgba(255,255,255,.15); border-radius:12px; }
.acs-badges { display:grid; grid-template-columns:repeat(4,1fr); gap:10px; }
.badge--acs { display:flex; gap:10px; align-items:center; border:1px solid rgba(255,255,255,.15); padding:8px; border-radius:10px; }
.badge__icon { width:28px; height:28px; }
.section { margin-top:20px; }
.section--log p { font-family:monospace; background:rgba(0,0,0,.25); padding:8px; border-radius:8px; }
.doc-footer { display:flex; justify-content:space-between; margin-top:30px; color:#b7b7c8; font-size:12px; }
</style>".

(** The header [build_html] selects. *)
Definition header_of (data : value) : result string :=
  header_mode <- get data "header_mode" VNone ;;
  if eq_str header_mode "acs"
  then render_acs_header data
  else render_classic_header data.

Definition build_html (data : value) : result string :=
  header <- header_of data ;;
  title <- get data "title" (VStr "SCP Document") ;;
  sections <- render_sections data ;;
  footer <- render_footer data ;;
  Ok (fstring [Py.lit "<!doctype html>
<html lang=`en`>
<head>
<meta charset=`utf-8`>
<title>"; esc title; "</title>
"; STYLE; Py.lit "
</head>
<body>
<article class=`doc`>
"; header; "
"; sections; "
"; footer; "
</article>
</body>
</html>
"]).

(** ** Where each character of the output comes from

    The same program, returning the output as a list of pieces: [Lit] for
    text of the templates and [Dat s] for a value [s] that goes through
    [esc].  [flatten] gives back the text. *)

Inductive piece : Type :=
| Lit (s : string)
| Dat (s : string).

Definition text (p : piece) : string :=
  match p with
  | Lit s => s
  | Dat s => Py.html_escape s
  end.

Definition flatten (ps : list piece) : string :=
  fold_right (fun p acc => text p ++ acc) "" ps.

(** [sep.join] on lists of pieces. *)
Fixpoint join_pieces (sep : string) (ls : list (list piece)) : list piece :=
  match ls with
  | [] => []
  | [x] => x
  | x :: xs => x ++ Lit sep :: join_pieces sep xs
  end.

(** The literal text of the templates, after [strip()] where the program
    strips, cut at the replacement fields. *)
Module Chunk.

Definition nl : string := "
".
Definition p_open : string := "<p>".
Definition p_close : string := "</p>".
Definition subtitle_open : string := "<div class='doc-subtitle'>".
Definition subtitle_close : string := "</div>".
Definition header_open : string := Py.lit "<section class=`doc-header`>
  <div class=`doc-title`>".
Definition header_title_close : string := "</div>
  ".
Definition classic_item : string := Py.lit "
  <div class=`meta-lines`>
    <div><span class=`meta-key`>Item #:</span> ".
Definition classic_class : string := Py.lit "</div>
    <div><span class=`meta-key`>Object Class:</span> ".
Definition classic_close : string := "</div>
  </div>
</section>".
Definition badge_open : string := Py.lit "<div class=`badge badge--acs`>
  <img
    src=`".
Definition badge_alt : string := Py.lit "`
    alt=`".
Definition badge_colon : string := ": ".
Definition badge_label : string := Py.lit "`
    class=`badge__icon`
    loading=`lazy`
    referrerpolicy=`no-referrer`
  >
  <div class=`badge__text`>
    <div class=`badge__label`>".
Definition badge_value : string := Py.lit "</div>
    <div class=`badge__value`>".
Definition badge_close : string := "</div>
  </div>
</div>".
Definition acs_item : string := Py.lit "
  <div class=`acs-bar`>
    <div class=`acs-top`>
      <div class=`acs-item`><span class=`acs-k`>Item #</span>".
Definition acs_clearance : string := Py.lit "</div>
      <div class=`acs-item`><span class=`acs-k`>Clearance</span>".
Definition acs_clearance_close : string := "</div>
      ".
Definition comment_open : string := "<!-- ".
Definition memo_open : string := "<a class='memo-link' href='".
Definition memo_close : string := "'>Link to memo</a>".
Definition comment_close : string := " -->".
Definition acs_badges : string := Py.lit "
    </div>
    <div class=`acs-badges`>
      ".
Definition acs_next_badge : string := "
      ".
Definition acs_close : string := "
    </div>
  </div>
</section>".
Definition section_open : string := Py.lit "<section class=`".
Definition section_plain : string := "section".
Definition section_log : string := "section section--log".
Definition section_heading : string := Py.lit "`>
  <h2>".
Definition section_body : string := "</h2>
  ".
Definition section_close : string := "
</section>".
Definition footer_open : string := Py.lit "<footer class=`doc-footer`>
  <span>".
Definition footer_next : string := "</span>
  <span>".
Definition footer_close : string := "</span>
</footer>".
Definition page_open : string := Py.lit "<!doctype html>
<html lang=`en`>
<head>
<meta charset=`utf-8`>
<title>".
Definition page_title_close : string := "</title>
".
Definition page_body : string := Py.lit "
</head>
<body>
<article class=`doc`>
".
Definition page_close : string := "
</article>
</body>
</html>
".

(** The address of every icon of the table. *)
Definition icons : list string :=
  map (fun kv => fstring [ACS_ICON_BASE; "/"; snd kv]) ACS_ICON_MAP.

End Chunk.

(** The chunks by the fragment that writes them. *)
Definition paragraph_text : list string :=
  [Chunk.nl; Chunk.p_open; Chunk.p_close].

Definition subtitle_text : list string :=
  [Chunk.subtitle_open; Chunk.subtitle_close].

Definition classic_text : list string :=
  [Chunk.header_open; Chunk.header_title_close; Chunk.classic_item;
   Chunk.classic_class; Chunk.classic_close] ++ subtitle_text.

Definition badge_text : list string :=
  [Chunk.badge_open; Chunk.badge_alt; Chunk.badge_colon; Chunk.badge_label;
   Chunk.badge_value; Chunk.badge_close] ++ Chunk.icons.

Definition memo_text : list string := [Chunk.memo_open; Chunk.memo_close].

(** The ACS header: around the comment, and all of it. *)
Definition acs_around_text : list string :=
  [Chunk.header_open; Chunk.header_title_close; Chunk.acs_item;
   Chunk.acs_clearance; Chunk.acs_clearance_close; Chunk.acs_badges;
   Chunk.acs_next_badge; Chunk.acs_close]
  ++ subtitle_text ++ badge_text.

Definition acs_text : list string :=
  [Chunk.comment_open; Chunk.comment_close] ++ memo_text ++ acs_around_text.

Definition section_text : list string :=
  [Chunk.section_open; Chunk.section_plain; Chunk.section_log;
   Chunk.section_heading; Chunk.section_body; Chunk.section_close]
  ++ paragraph_text.

Definition footer_text : list string :=
  [Chunk.footer_open; Chunk.footer_next; Chunk.footer_close].

Definition page_text : list string :=
  [Chunk.page_open; Chunk.page_title_close; STYLE; Chunk.page_body; Chunk.nl;
   Chunk.page_close].

(** All of it: the text an output can hold that did not go through [esc]. *)
Definition template_text : list string :=
  page_text ++ classic_text ++ acs_text ++ section_text ++ footer_text.

Module Trace.

Fixpoint paragraphs (items : list value) : result (list (list piece)) :=
  match items with
  | [] => Ok []
  | p :: rest =>
      if String.eqb (Py.strip (str p)) "" then paragraphs rest
      else
        stripped <- strip p ;;
        more <- paragraphs rest ;;
        Ok ([Lit Chunk.p_open; Dat stripped; Lit Chunk.p_close] :: more)
  end.

Definition to_paragraphs (body : value) : result (list piece) :=
  match body with
  | VNone => Ok []
  | _ =>
      let items :=
        match body with
        | VStr _ => [body]
        | VList items => items
        | _ => [VStr (str body)]
        end in
      ps <- paragraphs items ;;
      Ok (join_pieces Chunk.nl ps)
  end.

Definition subtitle_line (data : value) : result (list piece) :=
  subtitle <- get data "subtitle" VNone ;;
  if truthy subtitle then
    subtitle <- getitem data "subtitle" ;;
    Ok [Lit Chunk.subtitle_open; Dat (str subtitle); Lit Chunk.subtitle_close]
  else Ok [].

Definition render_classic_header (data : value) : result (list piece) :=
  classic <- get data "classic" (VDict []) ;;
  title <- get data "title" (VStr "SCP-XXXX") ;;
  item_number <- get classic "item_number" title ;;
  object_class <- get classic "object_class" (VStr "Euclid") ;;
  title <- get data "title" item_number ;;
  subtitle <- subtitle_line data ;;
  Ok ([Lit Chunk.header_open; Dat (str title); Lit Chunk.header_title_close]
      ++ subtitle
      ++ [Lit Chunk.classic_item; Dat (str item_number);
          Lit Chunk.classic_class; Dat (str object_class);
          Lit Chunk.classic_close])%list.

(** A badge: the icon at [icon], the label and the value as shown. *)
Definition badge (icon label shown : string) : list piece :=
  [Lit Chunk.badge_open; Lit icon; Lit Chunk.badge_alt;
   Dat label; Lit Chunk.badge_colon; Dat shown;
   Lit Chunk.badge_label; Dat label;
   Lit Chunk.badge_value; Dat shown;
   Lit Chunk.badge_close].

Definition acs_badge (label : string) (value : value) : result (list piece) :=
  icon <- acs_icon_url value ;;
  match icon with
  | None => Ok []
  | Some icon =>
      if String.eqb icon "" then Ok []
      else Ok (badge icon label (str value))
  end.

Definition memo_markup (memo_url : value) : list piece :=
  if truthy memo_url
  then [Lit Chunk.memo_open; Dat (str memo_url); Lit Chunk.memo_close]
  else [].

(** The header up to the comment, and from the comment on. *)
Definition acs_before (title : value) (subtitle : list piece)
    (item_number : value) (clearance : string) : list piece :=
  ([Lit Chunk.header_open; Dat (str title); Lit Chunk.header_title_close]
   ++ subtitle
   ++ [Lit Chunk.acs_item; Dat (str item_number);
       Lit Chunk.acs_clearance; Dat clearance;
       Lit Chunk.acs_clearance_close])%list.

Definition acs_after (badge1 badge2 badge3 badge4 : list piece) : list piece :=
  (Lit Chunk.acs_badges :: badge1
   ++ Lit Chunk.acs_next_badge :: badge2
   ++ Lit Chunk.acs_next_badge :: badge3
   ++ Lit Chunk.acs_next_badge :: badge4
   ++ [Lit Chunk.acs_close])%list.

Definition render_acs_header (data : value) : result (list piece) :=
  acs <- get data "acs" (VDict []) ;;
  title <- get data "title" (VStr "SCP-XXXX") ;;
  item_number <- get acs "item_number" title ;;
  clearance_level <- get acs "clearance_level" (VInt 2) ;;
  clearance_label <- get acs "clearance_label" (VStr "") ;;
  let clearance := clearance_text clearance_level clearance_label in
  containment <- get acs "containment_class" (VStr "euclid") ;;
  secondary <- get acs "secondary_class" (VStr "none") ;;
  disruption <- get acs "disruption_class" (VStr "none") ;;
  risk <- get acs "risk_class" (VStr "notice") ;;
  memo_url <- get acs "memo_url" VNone ;;
  subtitle <- subtitle_line data ;;
  badge1 <- acs_badge "Containment" containment ;;
  badge2 <- acs_badge "Secondary" secondary ;;
  badge3 <- acs_badge "Disruption" disruption ;;
  badge4 <- acs_badge "Risk" risk ;;
  Ok (acs_before title subtitle item_number clearance
      ++ Lit Chunk.comment_open :: memo_markup memo_url
      ++ Lit Chunk.comment_close :: acs_after badge1 badge2 badge3 badge4)%list.

Definition render_section (sec : value) : result (list piece) :=
  kind <- get sec "kind" VNone ;;
  let cls := if eq_str kind "log" then Chunk.section_log else Chunk.section_plain in
  heading <- get sec "heading" (VStr "Section") ;;
  body <- get sec "body" VNone ;;
  body <- to_paragraphs body ;;
  Ok ([Lit Chunk.section_open; Lit cls; Lit Chunk.section_heading;
       Dat (str heading); Lit Chunk.section_body]
      ++ body ++ [Lit Chunk.section_close])%list.

Fixpoint render_each (secs : list value) : result (list (list piece)) :=
  match secs with
  | [] => Ok []
  | sec :: rest =>
      block <- render_section sec ;;
      out <- render_each rest ;;
      Ok (block :: out)
  end.

Definition render_sections (data : value) : result (list piece) :=
  sections <- get data "sections" (VList []) ;;
  secs <- iter sections ;;
  out <- render_each secs ;;
  Ok (join_pieces Chunk.nl out).

Definition render_footer (data : value) : result (list piece) :=
  foot <- get data "footer" (VDict []) ;;
  left <- get foot "left" (VStr "«") ;;
  title <- get data "title" (VStr "SCP") ;;
  center <- get foot "center" title ;;
  right <- get foot "right" (VStr "»") ;;
  Ok [Lit Chunk.footer_open; Dat (str left); Lit Chunk.footer_next;
      Dat (str center); Lit Chunk.footer_next; Dat (str right);
      Lit Chunk.footer_close].

Definition header_of (data : value) : result (list piece) :=
  header_mode <- get data "header_mode" VNone ;;
  if eq_str header_mode "acs"
  then render_acs_header data
  else render_classic_header data.

(** The page around the header. *)
Definition page_before (title : value) : list piece :=
  [Lit Chunk.page_open; Dat (str title); Lit Chunk.page_title_close;
   Lit STYLE; Lit Chunk.page_body].

Definition page_after (sections footer : list piece) : list piece :=
  (Lit Chunk.nl :: sections ++ Lit Chunk.nl :: footer ++ [Lit Chunk.page_close])%list.

Definition build_html (data : value) : result (list piece) :=
  header <- header_of data ;;
  title <- get data "title" (VStr "SCP Document") ;;
  sections <- render_sections data ;;
  footer <- render_footer data ;;
  Ok (page_before title ++ header ++ page_after sections footer)%list.

End Trace.

Definition fmap {A B : Type} (f : A -> B) (m : result A) : result B :=
  match m with
  | Ok a => Ok (f a)
  | Raise e => Raise e
  end.

(** ** Notions the statements use *)

(** Characters at which [lstrip], resp. [lstrip_rev], stops without looking
    further. *)
Definition stops_left (c : ascii) : bool :=
  negb (Py.space1 c) && negb (Py.space_lead c).

Definition stops_right (c : ascii) : bool :=
  negb (Py.space1 c) && negb (Py.space_last c).

Definition head_is (f : ascii -> bool) (s : string) : bool :=
  match s with
  | String c _ => f c
  | EmptyString => false
  end.

(** [strip()] of an f-string whose first and last parts are literal text. *)
Definition lstrip_first (parts : list string) : list string :=
  match parts with
  | [] => []
  | f :: rest => Py.lstrip f :: rest
  end.

Fixpoint rstrip_last (parts : list string) : list string :=
  match parts with
  | [] => []
  | [l] => [Py.rstrip l]
  | x :: rest => x :: rstrip_last rest
  end.

Definition framed (parts : list string) : bool :=
  head_is stops_left (Py.lstrip (hd "" parts))
  && head_is stops_right (Py.rev (Py.rstrip (last (tl parts) ""))).

(** [s.startswith(m)] *)
Fixpoint startswith (m s : string) {struct m} : bool :=
  match m with
  | EmptyString => true
  | String a m' =>
      match s with
      | String b s' => Ascii.eqb a b && startswith m' s'
      | EmptyString => false
      end
  end.

(** [s] holds none of the four characters [esc] replaces by a reference, and
    each ampersand in it starts one of the five references [esc] writes. *)
Fixpoint well_escaped (s : string) : bool :=
  match s with
  | EmptyString => true
  | String c r =>
      (if Ascii.eqb c "&" then
         startswith "amp;" r || startswith "lt;" r || startswith "gt;" r
         || startswith "quot;" r || startswith "#x27;" r
       else negb (Ascii.eqb c "<" || Ascii.eqb c ">"
                  || Ascii.eqb c Py.dquote || Ascii.eqb c "'"))
      && well_escaped r
  end.

(** A piece is a chunk of [chunks] or escaped text. *)
Definition drawn_from (chunks : list string) (p : piece) : bool :=
  match p with
  | Lit s => existsb (String.eqb s) chunks
  | Dat _ => true
  end.

Definition subset (chunks chunks' : list string) : bool :=
  forallb (fun s => existsb (String.eqb s) chunks') chunks.

Definition piece_safe (p : piece) : Prop :=
  match p with
  | Lit s => In s template_text
  | Dat s => well_escaped (text p) = true
  end.

(** The number of places of [s] at which [m] starts. *)
Fixpoint occurrences (m s : string) : nat :=
  match s with
  | EmptyString => 0
  | String _ r => (if startswith m s then 1 else 0) + occurrences m r
  end.

(** [m] and [t] differ at a place both have. *)
Fixpoint differ (m t : string) : bool :=
  match m, t with
  | String a m', String b t' => negb (Ascii.eqb a b) || differ m' t'
  | _, _ => false
  end.

(** No occurrence of [m] can start in [x] and end after it: from each place
    of [x], either [m] is there in full or it is ruled out within [x]. *)
Fixpoint tight (m x : string) : bool :=
  match x with
  | EmptyString => true
  | String _ r => (startswith m x || differ m x) && tight m r
  end.

(** [m] starts with one of the characters [esc] replaces. *)
Definition markup_head (m : string) : bool :=
  match m with
  | String c _ =>
      Ascii.eqb c "<" || Ascii.eqb c ">" || Ascii.eqb c Py.dquote || Ascii.eqb c "'"
  | EmptyString => false
  end.

(** Occurrences of [m] within the template text of [ps]. *)
Definition lit_occurrences (m : string) (ps : list piece) : nat :=
  list_sum (map (fun p => match p with
                          | Lit s => occurrences m s
                          | Dat _ => 0
                          end) ps).

Definition free_of (m : string) (chunks : list string) : bool :=
  forallb (fun s => Nat.eqb (occurrences m s) 0) chunks.

(** The text a render gives, empty if it raised. *)
Definition text_of (r : result string) : string :=
  match r with
  | Ok s => s
  | Raise _ => ""
  end.

(** *** The shape of a record the renderer accepts *)

Definition is_str (v : value) : bool :=
  match v with VStr _ => true | _ => false end.

Definition is_dict (v : value) : bool :=
  match v with VDict _ => true | _ => false end.

(** The key [k] is missing, or its value passes [ok]. *)
Definition absent_or (ok : value -> bool) (k : string)
    (entries : list (string * value)) : bool :=
  match lookup k entries with
  | None => true
  | Some v => ok v
  end.

Definition acs_shaped (acs : value) : bool :=
  match acs with
  | VDict entries =>
      absent_or is_str "containment_class" entries
      && absent_or is_str "secondary_class" entries
      && absent_or is_str "disruption_class" entries
      && absent_or is_str "risk_class" entries
  | _ => false
  end.

(** A body that is a list holds strings only. *)
Definition body_shaped (body : value) : bool :=
  match body with
  | VList items => forallb is_str items
  | _ => true
  end.

Definition section_shaped (sec : value) : bool :=
  match sec with
  | VDict entries => absent_or body_shaped "body" entries
  | _ => false
  end.

Definition sections_shaped (sections : value) : bool :=
  match sections with
  | VList secs => forallb section_shaped secs
  | _ => false
  end.

(** A [dict] whose sub-record for the selected header and whose footer are
    missing or dicts, whose axis values are missing or strings, and whose
    sections are missing or a list of dicts with bodies as above. *)
Definition well_shaped (data : value) : bool :=
  match data with
  | VDict entries =>
      (if eq_str (match lookup "header_mode" entries with
                  | Some v => v
                  | None => VNone
                  end) "acs"
       then absent_or acs_shaped "acs" entries
       else absent_or is_dict "classic" entries)
      && absent_or sections_shaped "sections" entries
      && absent_or is_dict "footer" entries
  | _ => false
  end.

(** *** Records used as examples *)

Definition hostile_record : value :=
  VDict [("title", VStr "<script>alert('x')</script>");
         ("subtitle", VStr (Py.lit "`><img src=x onerror=alert(1)>"));
         ("header_mode", VStr "acs");
         ("acs", VDict [("item_number", VStr "A&B");
                        ("clearance_label", VStr "<b>O5</b>");
                        ("memo_url", VStr "x' --><script>alert(2)</script><!--");
                        ("containment_class", VStr "Keter")]);
         ("sections", VList [VDict [("heading", VStr "<h1>");
                                    ("kind", VStr "log");
                                    ("body", VList [VStr "1 < 2 && 3 > 2"])]]);
         ("footer", VDict [("left", VStr "'")])].

Definition classic_not_a_dict : value := VDict [("classic", VStr "oops")].
Definition acs_not_a_dict : value :=
  VDict [("header_mode", VStr "acs"); ("acs", VList [])].
Definition footer_not_a_dict : value := VDict [("footer", VInt 7)].
Definition body_with_a_number : value :=
  VDict [("sections", VList [VDict [("body", VList [VStr "one"; VInt 2])]])].

(** *** Fields and badges *)

(** The value the key [k] resolves to: the one present, else [default]. *)
Definition field (k : string) (default : value)
    (entries : list (string * value)) : value :=
  match lookup k entries with
  | Some v => v
  | None => default
  end.

(** The four axis values of an [acs] sub-record, in the order of the badges. *)
Definition axes (acs : list (string * value)) : list value :=
  [ field "containment_class" (VStr "euclid") acs;
    field "secondary_class" (VStr "none") acs;
    field "disruption_class" (VStr "none") acs;
    field "risk_class" (VStr "notice") acs ].

(** The value has an icon. *)
Definition resolves (v : value) : bool :=
  match acs_icon_url v with
  | Ok (Some _) => true
  | _ => false
  end.

(** How a badge, the memo link, a comment, the classification bar and the
    lines of the classic header start. *)
Definition badge_marker : string := Py.lit "<div class=`badge badge--acs`>".
Definition memo_marker : string := "<a class='memo-link'".
Definition comment_marker : string := "<!--".
Definition acs_marker : string := Py.lit "<div class=`acs-bar`>".
Definition classic_marker : string := Py.lit "<div class=`meta-lines`>".
Definition paragraph_marker : string := "<p>".

Definition icon_url (filename : string) : string :=
  fstring [ACS_ICON_BASE; "/"; filename].

(** *** More records used as examples *)

Definition unknown_containment : value :=
  VDict [("header_mode", VStr "acs");
         ("acs", VDict [("containment_class", VStr "unknown-value");
                        ("secondary_class", VStr "Thaumiel");
                        ("disruption_class", VStr "vlam");
                        ("risk_class", VStr "DANGER")])].

Definition no_axes : value :=
  VDict [("title", VStr "SCP-173"); ("header_mode", VStr "acs");
         ("acs", VDict [("clearance_level", VInt 4)])].

(** The text of the page outside the comment of the ACS header. *)
Definition around_comment_text : list string :=
  page_text ++ acs_around_text ++ section_text ++ footer_text.

Definition with_memo : value :=
  VDict [("title", VStr "SCP-049"); ("header_mode", VStr "acs");
         ("acs", VDict [("memo_url", VStr "https://example.org/memo?id=49&x='-->")])].

(** *** Section bodies, in the specification's words *)

(** The strings of a list whose elements are all strings. *)
Fixpoint strings (items : list value) : option (list string) :=
  match items with
  | [] => Some []
  | VStr s :: rest => option_map (cons s) (strings rest)
  | _ :: _ => None
  end.

(** The body as a sequence of strings: a string is a sequence of one, a
    sequence of strings is itself, a missing body is the empty sequence, and
    anything else is the sequence of its one string conversion. *)
Definition body_sequence (body : value) : option (list string) :=
  match body with
  | VNone => Some []
  | VStr s => Some [s]
  | VList items => strings items
  | _ => Some [str body]
  end.

Definition paragraph (s : string) : string := "<p>" ++ Py.html_escape s ++ "</p>".

(** Strip each entry, drop those left blank, wrap each of the others in its
    own escaped paragraph, in order. *)
Definition spec_paragraphs (entries : list string) : string :=
  Py.join Chunk.nl
    (map paragraph
       (filter (fun s => negb (String.eqb s "")) (map Py.strip entries))).

(** The record of the specification's example. *)
Definition scp_999 : value :=
  VDict [("title", VStr "SCP-999"); ("header_mode", VStr "acs");
         ("acs", VDict [("clearance_level", VInt 3);
                        ("clearance_label", VStr "Site Director")]);
         ("sections",
          VList [VDict [("heading", VStr "Description");
                        ("body", VList [VStr "Line one."; VStr ""; VStr " ";
                                        VStr "Line two."])]])].

Definition empty_object_class : value :=
  VDict [("title", VStr ""); ("classic", VDict [("object_class", VStr "")]);
         ("footer", VDict [("left", VStr ""); ("center", VInt 0)])].

(** ** More notions: when a render returns, what it reads, what it holds *)

Definition is_ok {A : Type} (r : result A) : bool :=
  match r with
  | Ok _ => true
  | Raise _ => false
  end.

(** An element of a list body the generator of [to_paragraphs] gets past: a
    string, or a value whose string conversion is blank. *)
Definition element_ok (p : value) : bool :=
  is_str p || String.eqb (Py.strip (str p)) "".

Definition body_ok (body : value) : bool :=
  match body with
  | VList items => forallb element_ok items
  | _ => true
  end.

Definition section_ok (sec : value) : bool :=
  match sec with
  | VDict entries => body_ok (field "body" VNone entries)
  | _ => false
  end.

Definition sections_ok (sections : value) : bool :=
  match iter sections with
  | Ok secs => forallb section_ok secs
  | Raise _ => false
  end.

Definition acs_ok (acs : value) : bool :=
  match acs with
  | VDict entries => forallb is_str (axes entries)
  | _ => false
  end.

Definition acs_mode (entries : list (string * value)) : bool :=
  eq_str (field "header_mode" VNone entries) "acs".

(** The records [build_html] returns on. *)
Definition renderable (data : value) : bool :=
  match data with
  | VDict entries =>
      (if acs_mode entries
       then acs_ok (field "acs" (VDict []) entries)
       else is_dict (field "classic" (VDict []) entries))
      && sections_ok (field "sections" (VList []) entries)
      && is_dict (field "footer" (VDict []) entries)
  | _ => false
  end.

(** The keys of the record a render reads. *)
Definition keys_read (entries : list (string * value)) : list string :=
  [ "header_mode"; "title"; "subtitle"; "sections"; "footer";
    if acs_mode entries then "acs" else "classic" ].

Definition subtitle_marker : string := "<div class='doc-subtitle'>".
Definition section_marker : string := "<section class=".
Definition heading_marker : string := "<h2>".
Definition footer_marker : string := "<footer".
Definition log_marker : string := Py.lit "<section class=`section section--log`>".

(** The section is styled as a log. *)
Definition is_log (sec : value) : bool :=
  match sec with
  | VDict entries => eq_str (field "kind" VNone entries) "log"
  | _ => false
  end.

(** No string of the list comes twice. *)
Fixpoint distinct (l : list string) : bool :=
  match l with
  | [] => true
  | x :: rest => negb (existsb (String.eqb x) rest) && distinct rest
  end.

(** None of the five characters [esc] replaces. *)
Fixpoint plain (s : string) : bool :=
  match s with
  | EmptyString => true
  | String c r =>
      negb (Ascii.eqb c "&" || Ascii.eqb c "<" || Ascii.eqb c ">"
            || Ascii.eqb c Py.dquote || Ascii.eqb c "'")
      && plain r
  end.

(** ** The command line

    [main], over a file system of any kind.  [read_text] and [loads] return
    [None] when the call raises; [write_text] returns the file system it
    leaves and whether it returned.  Printing adds a line to a stream. *)

Inductive uncaught : Type :=
| ReadFailed
| ParseFailed
| RenderFailed (e : exn)
| WriteFailed.

Inductive outcome : Type :=
| Return (code : Z)
| Uncaught (u : uncaught).

Section Main.

Variable fs : Type.
Variable read_text : fs -> string -> option string.
Variable write_text : fs -> string -> string -> fs * bool.
Variable loads : string -> option value.

Record process : Type := Process {
  files : fs;
  stdout : list string;
  stderr : list string
}.

Definition main (argv : list string) (p : process) : outcome * process :=
  match argv with
  | [_; input; output] =>
      match read_text (files p) input with
      | None => (Uncaught ReadFailed, p)
      | Some text =>
          match loads text with
          | None => (Uncaught ParseFailed, p)
          | Some data =>
              match build_html data with
              | Raise e => (Uncaught (RenderFailed e), p)
              | Ok html =>
                  let (files', returned) := write_text (files p) output html in
                  if returned
                  then (Return 0,
                        Process files' (stdout p ++ ["HTML generated."]) (stderr p))
                  else (Uncaught WriteFailed,
                        Process files' (stdout p) (stderr p))
              end
          end
      end
  | _ =>
      (Return 1,
       Process (files p) (stdout p)
         (stderr p ++ ["Usage: python scpdocgen.py SCPDOC.json output.html"]))
  end.

End Main.

Arguments files {fs} p.
Arguments stdout {fs} p.
Arguments stderr {fs} p.
Arguments Process {fs} files stdout stderr.

(** A file system to run [main] on: files by path, a parser that knows the
    empty object, a write that puts the file first. *)
Definition toy_read (f : list (string * string)) (path : string) : option string :=
  lookup path f.

Definition toy_write (f : list (string * string)) (path text : string)
    : list (string * string) * bool :=
  ((path, text) :: f, true).

Definition toy_loads (text : string) : option value :=
  if String.eqb text "{}" then Some (VDict [])
  else if String.eqb text "[]" then Some (VList [])
  else None.

Definition toy_main : list string -> process (list (string * string))
                      -> outcome * process (list (string * string)) :=
  main (list (string * string)) toy_read toy_write toy_loads.

Definition toy_process : process (list (string * string)) :=
  Process [("doc.json", "{}"); ("list.json", "[]"); ("bad.json", "{")] [] [].

(** * Facts *)

(** ** Strings *)

Lemma append_nil_r (s : string) : s ++ "" = s.
Proof. induction s as [|c s IH]; simpl; [reflexivity | now rewrite IH]. Qed.

Lemma append_assoc (a b c : string) : (a ++ b) ++ c = a ++ b ++ c.
Proof. induction a as [|x a IH]; simpl; [reflexivity | now rewrite IH]. Qed.

Lemma rev_append (a b : string) : Py.rev (a ++ b) = Py.rev b ++ Py.rev a.
Proof.
  induction a as [|x a IH]; simpl.
  - now rewrite append_nil_r.
  - now rewrite IH, append_assoc.
Qed.

Lemma rev_involutive (s : string) : Py.rev (Py.rev s) = s.
Proof.
  induction s as [|c s IH]; simpl; [reflexivity|].
  now rewrite rev_append, IH.
Qed.

Lemma fstring_cons (x : string) (parts : list string) :
  fstring (x :: parts) = x ++ fstring parts.
Proof. reflexivity. Qed.

Lemma fstring_app (xs ys : list string) :
  fstring (xs ++ ys) = fstring xs ++ fstring ys.
Proof.
  induction xs as [|x xs IH]; simpl; [reflexivity|].
  now rewrite IH, append_assoc.
Qed.

(** ** [strip] leaves the inside of a template alone *)

Lemma lstrip_append_aux (n : nat) :
  forall s x, String.length s <= n ->
    head_is stops_left (Py.lstrip s) = true ->
    Py.lstrip (s ++ x) = Py.lstrip s ++ x.
Proof.
  induction n as [|n IH]; intros s x Hn Hs.
  - destruct s; simpl in *; [discriminate | lia].
  - destruct s as [|a t]; [discriminate|].
    simpl in Hn. simpl in Hs |- *.
    destruct (Py.space1 a) eqn:E1.
    { apply IH; [lia | exact Hs]. }
    destruct (Py.space_lead a) eqn:E2.
    2:{ reflexivity. }
    assert (Hstop : stops_left a = false) by (unfold stops_left; now rewrite E1, E2).
    destruct t as [|b u]; simpl in *; [congruence|].
    destruct (Py.space2 a b).
    { apply IH; [lia | exact Hs]. }
    destruct u as [|c v]; simpl in *; [congruence|].
    destruct (Py.space3 a b c).
    { apply IH; [lia | exact Hs]. }
    simpl in Hs. congruence.
Qed.

Lemma lstrip_append (s x : string) :
  head_is stops_left (Py.lstrip s) = true ->
  Py.lstrip (s ++ x) = Py.lstrip s ++ x.
Proof. apply (lstrip_append_aux (String.length s)); lia. Qed.

Lemma lstrip_rev_append_aux (n : nat) :
  forall s x, String.length s <= n ->
    head_is stops_right (Py.lstrip_rev s) = true ->
    Py.lstrip_rev (s ++ x) = Py.lstrip_rev s ++ x.
Proof.
  induction n as [|n IH]; intros s x Hn Hs.
  - destruct s; simpl in *; [discriminate | lia].
  - destruct s as [|a t]; [discriminate|].
    simpl in Hn. simpl in Hs |- *.
    destruct (Py.space1 a) eqn:E1.
    { apply IH; [lia | exact Hs]. }
    destruct (Py.space_last a) eqn:E2.
    2:{ reflexivity. }
    assert (Hstop : stops_right a = false) by (unfold stops_right; now rewrite E1, E2).
    destruct t as [|b u]; simpl in *; [congruence|].
    destruct (Py.space2 b a).
    { apply IH; [lia | exact Hs]. }
    destruct u as [|c v]; simpl in *; [congruence|].
    destruct (Py.space3 c b a).
    { apply IH; [lia | exact Hs]. }
    simpl in Hs. congruence.
Qed.

Lemma rstrip_append (x s : string) :
  head_is stops_right (Py.rev (Py.rstrip s)) = true ->
  Py.rstrip (x ++ s) = x ++ Py.rstrip s.
Proof.
  unfold Py.rstrip. rewrite rev_involutive. intros Hs.
  rewrite rev_append.
  rewrite (lstrip_rev_append_aux (String.length (Py.rev s))) by (auto; lia).
  now rewrite rev_append, rev_involutive.
Qed.

Lemma rstrip_last_fstring (parts : list string) :
  head_is stops_right (Py.rev (Py.rstrip (last parts ""))) = true ->
  Py.rstrip (fstring parts) = fstring (rstrip_last parts).
Proof.
  induction parts as [|x rest IH]; intros H.
  - discriminate.
  - destruct rest as [|y rest].
    + simpl in *. now rewrite !append_nil_r.
    + change (last (x :: y :: rest) "") with (last (y :: rest) "") in H.
      change (rstrip_last (x :: y :: rest)) with (x :: rstrip_last (y :: rest)).
      rewrite !fstring_cons, <- (fstring_cons y), <- IH by exact H.
      apply rstrip_append.
      rewrite IH by exact H.
      clear IH. revert y H. induction rest as [|z rest IHr]; intros y H.
      * simpl in *. now rewrite append_nil_r.
      * change (last (y :: z :: rest) "") with (last (z :: rest) "") in H.
        change (rstrip_last (y :: z :: rest)) with (y :: rstrip_last (z :: rest)).
        rewrite fstring_cons, rev_append.
        specialize (IHr z H).
        destruct (Py.rev (fstring (rstrip_last (z :: rest)))); [discriminate|].
        exact IHr.
Qed.

(** [strip()] of a template only strips its first and last part. *)
Lemma strip_fstring (parts : list string) :
  framed parts = true ->
  Py.strip (fstring parts) = fstring (rstrip_last (lstrip_first parts)).
Proof.
  unfold framed, Py.strip. intros H. apply andb_prop in H as [Hl Hr].
  destruct parts as [|f rest]; [discriminate|].
  simpl hd in Hl. simpl tl in Hr.
  rewrite fstring_cons, lstrip_append by exact Hl.
  rewrite <- fstring_cons. apply rstrip_last_fstring.
  simpl lstrip_first. destruct rest as [|y rest]; [discriminate|].
  exact Hr.
Qed.

(** ** The pieces spell the output *)

Lemma flatten_cons (p : piece) (ps : list piece) :
  flatten (p :: ps) = text p ++ flatten ps.
Proof. reflexivity. Qed.

Lemma flatten_app (xs ys : list piece) :
  flatten (xs ++ ys) = flatten xs ++ flatten ys.
Proof.
  induction xs as [|x xs IH]; simpl; [reflexivity|].
  now rewrite IH, append_assoc.
Qed.

Lemma flatten_join (sep : string) (ls : list (list piece)) :
  flatten (join_pieces sep ls) = Py.join sep (map flatten ls).
Proof.
  induction ls as [|x [|y ls] IH]; try reflexivity.
  change (join_pieces sep (x :: y :: ls))
    with (x ++ Lit sep :: join_pieces sep (y :: ls))%list.
  rewrite flatten_app, flatten_cons, IH. reflexivity.
Qed.

Lemma fmap_Ok {A B : Type} (f : A -> B) (a : A) : fmap f (Ok a) = Ok (f a).
Proof. reflexivity. Qed.

Lemma fmap_Raise {A B : Type} (f : A -> B) (e : exn) : fmap f (Raise e) = Raise e.
Proof. reflexivity. Qed.

Create Rewrite HintDb trace.

(** Runs both programs through their common binds. *)
Ltac step_binds :=
  repeat progress (autorewrite with trace);
  repeat match goal with
         | |- context [bind (fmap _ ?m) _] =>
             destruct m; rewrite ?fmap_Ok, ?fmap_Raise; cbn [bind];
             try reflexivity; autorewrite with trace
         | |- context [bind ?m _] =>
             lazymatch m with
             | context [bind] => fail
             | context [fmap] => fail
             | _ => destruct m; rewrite ?fmap_Ok, ?fmap_Raise; cbn [bind];
                    try reflexivity; autorewrite with trace
             end
         end.

(** Equates a stripped template with the pieces that spell it. *)
Ltac spell :=
  cbn [fmap]; f_equal;
  try (rewrite strip_fstring by reflexivity; cbn [rstrip_last lstrip_first]);
  cbn [app];
  repeat (rewrite ?flatten_cons, ?flatten_app, ?append_assoc);
  reflexivity.

Lemma paragraphs_trace (items : list value) :
  paragraphs items = fmap (map flatten) (Trace.paragraphs items).
Proof.
  induction items as [|p rest IH]; [reflexivity|].
  cbn [paragraphs Trace.paragraphs].
  destruct (String.eqb (Py.strip (str p)) ""); [exact IH|].
  destruct (strip p) as [stripped|e]; [|reflexivity].
  cbn [bind]. rewrite IH.
  destruct (Trace.paragraphs rest); reflexivity.
Qed.
#[local] Hint Rewrite paragraphs_trace : trace.

Lemma to_paragraphs_trace (body : value) :
  to_paragraphs body = fmap flatten (Trace.to_paragraphs body).
Proof.
  unfold to_paragraphs, Trace.to_paragraphs.
  destruct body; try reflexivity; rewrite paragraphs_trace;
    match goal with
    | |- context [Trace.paragraphs ?l] => destruct (Trace.paragraphs l)
    end; cbn [bind fmap]; try reflexivity;
    now rewrite flatten_join.
Qed.
#[local] Hint Rewrite to_paragraphs_trace : trace.

Lemma subtitle_line_trace (data : value) :
  subtitle_line data = fmap flatten (Trace.subtitle_line data).
Proof.
  unfold subtitle_line, Trace.subtitle_line.
  destruct (get data "subtitle" VNone) as [subtitle|e]; [|reflexivity].
  cbn [bind]. destruct (truthy subtitle); [|reflexivity].
  destruct (getitem data "subtitle"); [|reflexivity].
  cbn [bind fmap flatten fold_right text]. now rewrite append_nil_r.
Qed.
#[local] Hint Rewrite subtitle_line_trace : trace.

Lemma render_classic_header_trace (data : value) :
  render_classic_header data = fmap flatten (Trace.render_classic_header data).
Proof.
  unfold render_classic_header, Trace.render_classic_header.
  step_binds. spell.
Qed.

Lemma acs_badge_trace (label : string) (value : value) :
  acs_badge label value = fmap flatten (Trace.acs_badge label value).
Proof.
  unfold acs_badge, Trace.acs_badge.
  destruct (acs_icon_url value) as [[icon|]|e]; try reflexivity.
  cbn [bind]. destruct (String.eqb icon ""); [reflexivity|].
  unfold esc, Trace.badge. destruct value; spell.
Qed.
#[local] Hint Rewrite acs_badge_trace : trace.

Lemma memo_markup_trace (memo_url : value) :
  memo_markup memo_url = flatten (Trace.memo_markup memo_url).
Proof.
  unfold memo_markup, Trace.memo_markup.
  destruct (truthy memo_url); reflexivity.
Qed.
#[local] Hint Rewrite memo_markup_trace : trace.

Lemma render_acs_header_trace (data : value) :
  render_acs_header data = fmap flatten (Trace.render_acs_header data).
Proof.
  unfold render_acs_header, Trace.render_acs_header.
  step_binds.
  unfold Trace.acs_before, Trace.acs_after. spell.
Qed.

Lemma render_section_trace (sec : value) :
  render_section sec = fmap flatten (Trace.render_section sec).
Proof.
  unfold render_section, Trace.render_section.
  step_binds. destruct (eq_str _ "log"); spell.
Qed.
#[local] Hint Rewrite render_section_trace : trace.

Lemma render_each_trace (secs : list value) :
  render_each secs = fmap (map flatten) (Trace.render_each secs).
Proof.
  induction secs as [|sec rest IH]; [reflexivity|].
  cbn [render_each Trace.render_each].
  rewrite IH. step_binds.
Qed.
#[local] Hint Rewrite render_each_trace : trace.

Lemma render_sections_trace (data : value) :
  render_sections data = fmap flatten (Trace.render_sections data).
Proof.
  unfold render_sections, Trace.render_sections.
  step_binds. now rewrite fmap_Ok, flatten_join.
Qed.
#[local] Hint Rewrite render_sections_trace : trace.

Lemma render_footer_trace (data : value) :
  render_footer data = fmap flatten (Trace.render_footer data).
Proof.
  unfold render_footer, Trace.render_footer. step_binds. spell.
Qed.
#[local] Hint Rewrite render_footer_trace : trace.

Lemma header_of_trace (data : value) :
  header_of data = fmap flatten (Trace.header_of data).
Proof.
  unfold header_of, Trace.header_of. step_binds.
  destruct (eq_str _ "acs");
    [apply render_acs_header_trace | apply render_classic_header_trace].
Qed.
#[local] Hint Rewrite header_of_trace : trace.

Lemma build_html_trace (data : value) :
  build_html data = fmap flatten (Trace.build_html data).
Proof.
  unfold build_html, Trace.build_html.
  step_binds. unfold Trace.page_before, Trace.page_after. spell.
Qed.

(** ** Escaping *)

Lemma html_escape_well_escaped (s : string) :
  well_escaped (Py.html_escape s) = true.
Proof.
  induction s as [|c s IH]; [reflexivity|].
  cbn [Py.html_escape]. unfold Py.escape_char.
  destruct (Ascii.eqb c "&") eqn:E1; [simpl; exact IH|].
  destruct (Ascii.eqb c "<") eqn:E2; [simpl; exact IH|].
  destruct (Ascii.eqb c ">") eqn:E3; [simpl; exact IH|].
  destruct (Ascii.eqb c Py.dquote) eqn:E4; [simpl; exact IH|].
  destruct (Ascii.eqb c "'") eqn:E5; [simpl; exact IH|].
  simpl. now rewrite E1, E2, E3, E4, E5, IH.
Qed.

Lemma existsb_eqb_In (s : string) (l : list string) :
  existsb (String.eqb s) l = true <-> In s l.
Proof.
  rewrite existsb_exists. split.
  - intros (t & Ht & E). apply String.eqb_eq in E. now subst.
  - intros H. exists s. split; [exact H | apply String.eqb_refl].
Qed.

Lemma drawn_from_safe (ps : list piece) :
  forallb (drawn_from template_text) ps = true -> Forall piece_safe ps.
Proof.
  rewrite forallb_forall. intros H. apply Forall_forall. intros [s|s] Hin.
  - specialize (H _ Hin). now apply existsb_eqb_In in H.
  - apply html_escape_well_escaped.
Qed.

Lemma drawn_from_subset (chunks chunks' : list string) (ps : list piece) :
  subset chunks chunks' = true ->
  forallb (drawn_from chunks) ps = true ->
  forallb (drawn_from chunks') ps = true.
Proof.
  unfold subset. rewrite !forallb_forall. intros Hsub H [s|s] Hin; [|reflexivity].
  specialize (H _ Hin). cbn [drawn_from] in *.
  apply existsb_eqb_In in H. exact (Hsub _ H).
Qed.

(** ** Pieces are template text or escaped text *)

Lemma lookup_In {A : Type} (k : string) (l : list (string * A)) (v : A) :
  lookup k l = Some v -> In v (map snd l).
Proof.
  induction l as [|[k' v'] l IH]; simpl; [discriminate|].
  destruct (String.eqb k k'); intros H.
  - injection H as ->. now left.
  - right. now apply IH.
Qed.

Lemma acs_icon_url_table (value : value) (icon : string) :
  acs_icon_url value = Ok (Some icon) -> In icon Chunk.icons.
Proof.
  unfold acs_icon_url. destruct (lower value) as [k|e]; [|discriminate].
  cbn [bind]. destruct (lookup k ACS_ICON_MAP) as [filename|] eqn:E; [|discriminate].
  destruct (String.eqb filename ""); [discriminate|].
  intros H.
  assert (Hi : icon = fstring [ACS_ICON_BASE; "/"; filename]) by congruence.
  rewrite Hi. clear H Hi.
  apply lookup_In, in_map_iff in E as (kv & <- & Hkv).
  unfold Chunk.icons. apply in_map_iff. now exists kv.
Qed.

Lemma icon_drawn (value : value) (icon : string) :
  acs_icon_url value = Ok (Some icon) -> drawn_from badge_text (Lit icon) = true.
Proof.
  intros H. apply existsb_eqb_In. unfold badge_text. apply in_or_app. right.
  exact (acs_icon_url_table _ _ H).
Qed.

(** Takes a successful run apart, bind by bind. *)
Ltac run H :=
  repeat match type of H with
         | bind ?m _ = Ok _ =>
             let E := fresh "E" in
             destruct m eqn:E; cbn [bind] in H; [|discriminate H]
         | (if ?b then _ else _) = Ok _ =>
             let E := fresh "E" in destruct b eqn:E
         | Ok _ = Ok _ => injection H as <-
         end.

Lemma join_pieces_drawn (chunks : list string) (ls : list (list piece)) :
  existsb (String.eqb Chunk.nl) chunks = true ->
  Forall (fun ps => forallb (drawn_from chunks) ps = true) ls ->
  forallb (drawn_from chunks) (join_pieces Chunk.nl ls) = true.
Proof.
  intros Hnl. induction 1 as [|x ls Hx Hls IH]; [reflexivity|].
  destruct ls as [|y ls]; [exact Hx|].
  change (join_pieces Chunk.nl (x :: y :: ls))
    with (x ++ Lit Chunk.nl :: join_pieces Chunk.nl (y :: ls))%list.
  rewrite forallb_app, Hx. cbn [forallb andb drawn_from]. now rewrite Hnl, IH.
Qed.

Lemma paragraphs_drawn (items : list value) (ps : list (list piece)) :
  Trace.paragraphs items = Ok ps ->
  Forall (fun ps => forallb (drawn_from paragraph_text) ps = true) ps.
Proof.
  revert ps. induction items as [|p rest IH]; intros ps H.
  - injection H as <-. constructor.
  - cbn [Trace.paragraphs] in H.
    destruct (String.eqb (Py.strip (str p)) ""); [now apply IH|].
    run H. constructor; [reflexivity | now apply IH].
Qed.

Lemma to_paragraphs_drawn (body : value) (ps : list piece) :
  Trace.to_paragraphs body = Ok ps -> forallb (drawn_from paragraph_text) ps = true.
Proof.
  unfold Trace.to_paragraphs. intros H.
  destruct body; try (injection H as <-; reflexivity); run H;
    (apply join_pieces_drawn; [reflexivity | eauto using paragraphs_drawn]).
Qed.

Lemma subtitle_line_drawn (data : value) (ps : list piece) :
  Trace.subtitle_line data = Ok ps -> forallb (drawn_from subtitle_text) ps = true.
Proof. unfold Trace.subtitle_line. intros H. run H; reflexivity. Qed.

Lemma acs_badge_drawn (label : string) (value : value) (ps : list piece) :
  Trace.acs_badge label value = Ok ps -> forallb (drawn_from badge_text) ps = true.
Proof.
  unfold Trace.acs_badge. intros H.
  destruct (acs_icon_url value) as [[icon|]|e] eqn:E; cbn [bind] in H;
    try discriminate; run H; try reflexivity.
  unfold Trace.badge. cbn [forallb]. now rewrite (icon_drawn _ _ E).
Qed.

Lemma memo_markup_drawn (memo_url : value) :
  forallb (drawn_from memo_text) (Trace.memo_markup memo_url) = true.
Proof. unfold Trace.memo_markup. destruct (truthy memo_url); reflexivity. Qed.

(** Splits a goal on a list of pieces along its appends; what a fragment
    contributes is drawn from that fragment's own chunks. *)
Ltac pieces :=
  repeat (rewrite forallb_app || cbn [forallb drawn_from app]);
  repeat match goal with
         | |- (_ && _)%bool = true => apply andb_true_intro; split
         end;
  try reflexivity;
  match goal with
  | H : Trace.to_paragraphs _ = Ok ?ps |- forallb _ ?ps = true =>
      apply (drawn_from_subset paragraph_text);
      [reflexivity | exact (to_paragraphs_drawn _ _ H)]
  | H : Trace.subtitle_line _ = Ok ?ps |- forallb _ ?ps = true =>
      apply (drawn_from_subset subtitle_text);
      [reflexivity | exact (subtitle_line_drawn _ _ H)]
  | H : Trace.acs_badge _ _ = Ok ?ps |- forallb _ ?ps = true =>
      apply (drawn_from_subset badge_text);
      [reflexivity | exact (acs_badge_drawn _ _ _ H)]
  | |- forallb _ (Trace.memo_markup _) = true =>
      apply (drawn_from_subset memo_text);
      [reflexivity | apply memo_markup_drawn]
  end.

Lemma render_classic_header_drawn (data : value) (ps : list piece) :
  Trace.render_classic_header data = Ok ps ->
  forallb (drawn_from classic_text) ps = true.
Proof. unfold Trace.render_classic_header. intros H. run H. pieces. Qed.

Lemma render_acs_header_drawn (data : value) (ps : list piece) :
  Trace.render_acs_header data = Ok ps ->
  forallb (drawn_from acs_text) ps = true.
Proof.
  unfold Trace.render_acs_header, Trace.acs_before, Trace.acs_after.
  intros H. run H. pieces.
Qed.

Lemma render_section_drawn (sec : value) (ps : list piece) :
  Trace.render_section sec = Ok ps ->
  forallb (drawn_from section_text) ps = true.
Proof.
  unfold Trace.render_section. intros H. run H.
  destruct (eq_str _ "log"); pieces.
Qed.

Lemma render_each_drawn (secs : list value) (out : list (list piece)) :
  Trace.render_each secs = Ok out ->
  Forall (fun ps => forallb (drawn_from section_text) ps = true) out.
Proof.
  revert out. induction secs as [|sec rest IH]; intros out H.
  - injection H as <-. constructor.
  - cbn [Trace.render_each] in H. run H.
    constructor; eauto using render_section_drawn.
Qed.

Lemma render_sections_drawn (data : value) (ps : list piece) :
  Trace.render_sections data = Ok ps ->
  forallb (drawn_from section_text) ps = true.
Proof.
  unfold Trace.render_sections. intros H. run H.
  apply join_pieces_drawn; [reflexivity | eauto using render_each_drawn].
Qed.

Lemma render_footer_drawn (data : value) (ps : list piece) :
  Trace.render_footer data = Ok ps ->
  forallb (drawn_from footer_text) ps = true.
Proof. unfold Trace.render_footer. intros H. run H. reflexivity. Qed.

Lemma header_of_drawn (data : value) (ps : list piece) :
  Trace.header_of data = Ok ps ->
  forallb (drawn_from (classic_text ++ acs_text)) ps = true.
Proof.
  unfold Trace.header_of. intros H. run H.
  - apply (drawn_from_subset acs_text);
      [reflexivity | exact (render_acs_header_drawn _ _ H)].
  - apply (drawn_from_subset classic_text);
      [reflexivity | exact (render_classic_header_drawn _ _ H)].
Qed.

Lemma build_html_drawn (data : value) (ps : list piece) :
  Trace.build_html data = Ok ps ->
  forallb (drawn_from template_text) ps = true.
Proof.
  unfold Trace.build_html, Trace.page_before, Trace.page_after.
  intros H. run H; repeat (rewrite forallb_app || cbn [forallb app]);
    repeat match goal with
           | |- (_ && _)%bool = true => apply andb_true_intro; split
           end; try reflexivity;
    match goal with
    | H : Trace.header_of _ = Ok ?ps |- forallb _ ?ps = true =>
        apply (drawn_from_subset (classic_text ++ acs_text));
        [reflexivity | exact (header_of_drawn _ _ H)]
    | H : Trace.render_sections _ = Ok ?ps |- forallb _ ?ps = true =>
        apply (drawn_from_subset section_text);
        [reflexivity | exact (render_sections_drawn _ _ H)]
    | H : Trace.render_footer _ = Ok ?ps |- forallb _ ?ps = true =>
        apply (drawn_from_subset footer_text);
        [reflexivity | exact (render_footer_drawn _ _ H)]
    end.
Qed.

(** ** Counting markup in the output *)

Lemma startswith_append (m t r : string) :
  startswith m t = true -> startswith m (t ++ r) = true.
Proof.
  revert t. induction m as [|a m IH]; intros t H; [reflexivity|].
  destruct t as [|b t]; [discriminate|]. simpl in *.
  apply andb_prop in H as [-> H]. now apply IH.
Qed.

Lemma differ_startswith (m t r : string) :
  differ m t = true -> startswith m (t ++ r) = false.
Proof.
  revert t. induction m as [|a m IH]; intros t H; [discriminate|].
  destruct t as [|b t]; [discriminate|]. simpl in *.
  destruct (Ascii.eqb a b); [now apply IH | reflexivity].
Qed.

Lemma tight_startswith (m x r : string) (c : ascii) :
  (startswith m (String c x) || differ m (String c x))%bool = true ->
  startswith m (String c x ++ r) = startswith m (String c x).
Proof.
  intros H. destruct (startswith m (String c x)) eqn:E.
  - now apply startswith_append.
  - simpl in H. rewrite <- (append_nil_r (String c x)) in E.
    now apply differ_startswith.
Qed.

Lemma tight_occurrences (m x r : string) :
  tight m x = true ->
  occurrences m (x ++ r) = occurrences m x + occurrences m r.
Proof.
  induction x as [|c x IH]; intros H; [reflexivity|].
  cbn [tight] in H. apply andb_prop in H as [Hc Hx].
  change (String c x ++ r) with (String c (x ++ r)).
  cbn [occurrences].
  change (String c (x ++ r)) with (String c x ++ r).
  rewrite (tight_startswith _ _ _ _ Hc), (IH Hx). lia.
Qed.

Lemma absent_char_tight (c : ascii) (m x : string) :
  Py.contains_char c x = false ->
  tight (String c m) x = true /\ occurrences (String c m) x = 0.
Proof.
  induction x as [|d x IH]; intros H; [split; reflexivity|].
  simpl in H. apply orb_false_elim in H as [Hd Hx].
  destruct (IH Hx) as [Ht Ho]. cbn [tight occurrences startswith differ].
  now rewrite Hd, Ht, Ho.
Qed.

Lemma markup_head_cases (c : ascii) (m : string) :
  markup_head (String c m) = true ->
  c = "<"%char \/ c = ">"%char \/ c = Py.dquote \/ c = "'"%char.
Proof.
  unfold markup_head. rewrite !orb_true_iff, !Ascii.eqb_eq. tauto.
Qed.

Lemma html_escape_no_markup (c : ascii) (m s : string) :
  markup_head (String c m) = true ->
  Py.contains_char c (Py.html_escape s) = false.
Proof.
  intros Hc. apply markup_head_cases in Hc.
  induction s as [|d s IH]; [reflexivity|].
  cbn [Py.html_escape]. unfold Py.escape_char.
  repeat match goal with
         | |- context [if Ascii.eqb d ?k then _ else _] =>
             destruct (Ascii.eqb_spec d k) as [->|]
         end;
    cbn [append Py.contains_char]; rewrite IH, ?orb_false_r;
    try (destruct Hc as [-> | [-> | [-> | ->]]]; reflexivity).
  apply Ascii.eqb_neq. destruct Hc as [-> | [-> | [-> | ->]]]; congruence.
Qed.

Lemma lit_occurrences_app (m : string) (xs ys : list piece) :
  lit_occurrences m (xs ++ ys) = lit_occurrences m xs + lit_occurrences m ys.
Proof. unfold lit_occurrences. now rewrite map_app, list_sum_app. Qed.

Lemma lit_occurrences_cons (m : string) (p : piece) (ps : list piece) :
  lit_occurrences m (p :: ps)
  = match p with Lit s => occurrences m s | Dat _ => 0 end + lit_occurrences m ps.
Proof. reflexivity. Qed.

(** Markup is counted in the template text alone: escaped text holds none,
    and no occurrence runs over the end of a chunk. *)
Lemma occurrences_flatten (m : string) (chunks : list string) (ps : list piece) :
  markup_head m = true ->
  forallb (tight m) chunks = true ->
  forallb (drawn_from chunks) ps = true ->
  occurrences m (flatten ps) = lit_occurrences m ps.
Proof.
  intros Hm Ht. induction ps as [|p ps IH]; intros Hps; [reflexivity|].
  cbn [forallb] in Hps. apply andb_prop in Hps as [Hp Hps].
  rewrite flatten_cons, lit_occurrences_cons, <- (IH Hps).
  destruct p as [s|s]; cbn [text].
  - rewrite tight_occurrences; [reflexivity|].
    cbn [drawn_from] in Hp. apply existsb_eqb_In in Hp.
    rewrite forallb_forall in Ht. now apply Ht.
  - destruct m as [|c m]; [discriminate|].
    destruct (absent_char_tight c m (Py.html_escape s)) as [Htight Hzero].
    { apply (html_escape_no_markup c m). exact Hm. }
    now rewrite tight_occurrences, Hzero.
Qed.

Lemma lit_occurrences_free (m : string) (chunks : list string) (ps : list piece) :
  free_of m chunks = true ->
  forallb (drawn_from chunks) ps = true ->
  lit_occurrences m ps = 0.
Proof.
  unfold free_of. rewrite forallb_forall. intros Hfree.
  induction ps as [|p ps IH]; intros Hps; [reflexivity|].
  cbn [forallb] in Hps. apply andb_prop in Hps as [Hp Hps].
  rewrite lit_occurrences_cons, (IH Hps). destruct p as [s|s]; [|reflexivity].
  cbn [drawn_from] in Hp. apply existsb_eqb_In in Hp.
  specialize (Hfree _ Hp). apply Nat.eqb_eq in Hfree. lia.
Qed.

(** * The claims *)

(** ** C1: what comes from the record is escaped *)

(** C1.  Every output of [build_html] is spelled by pieces each of which is
    either a chunk of the fixed template text or a value passed through the
    escape function, whose text holds no angle bracket and no quote, and no
    ampersand but at the start of a character reference.  So no such
    character of the output comes from the record. *)
Theorem build_html_escapes (data : value) (out : string) :
  build_html data = Ok out ->
  exists ps : list piece, out = flatten ps /\ Forall piece_safe ps.
Proof.
  rewrite build_html_trace. destruct (Trace.build_html data) as [ps|e] eqn:E;
    [|discriminate].
  intros H. injection H as <-. exists ps. split; [reflexivity|].
  apply drawn_from_safe, (build_html_drawn _ _ E).
Qed.

Lemma build_html_escapes_witness :
  build_html hostile_record = Ok (text_of (build_html hostile_record))
  /\ exists ps : list piece,
       text_of (build_html hostile_record) = flatten ps /\ Forall piece_safe ps.
Proof.
  assert (H : build_html hostile_record = Ok (text_of (build_html hostile_record)))
    by (vm_compute; reflexivity).
  split; [exact H | exact (build_html_escapes _ _ H)].
Defined.

(** Markup that the templates do not hold is not in the output, whatever the
    record holds. *)
Lemma build_html_only_template_markup (m : string) (data : value) (out : string) :
  markup_head m = true ->
  forallb (tight m) template_text = true ->
  free_of m template_text = true ->
  build_html data = Ok out ->
  occurrences m out = 0.
Proof.
  intros Hm Ht Hf. rewrite build_html_trace.
  destruct (Trace.build_html data) as [ps|e] eqn:E; [|discriminate].
  intros H. injection H as <-. apply build_html_drawn in E.
  rewrite (occurrences_flatten m template_text) by assumption.
  exact (lit_occurrences_free _ _ _ Hf E).
Qed.

Example no_script_element (data : value) (out : string) :
  build_html data = Ok out -> occurrences "<script" out = 0.
Proof. apply build_html_only_template_markup; vm_compute; reflexivity. Qed.

Example hostile_record_output :
  occurrences "<script" (text_of (build_html hostile_record)) = 0
  /\ occurrences "&lt;script&gt;" (text_of (build_html hostile_record)) = 4.
Proof. vm_compute. split; reflexivity. Qed.

(** ** C2: when rendering returns *)

Lemma get_dict (entries : list (string * value)) (k : string) (default : value) :
  get (VDict entries) k default
  = Ok (match lookup k entries with Some v => v | None => default end).
Proof. reflexivity. Qed.

Lemma absent_or_default (ok : value -> bool) (k : string)
    (entries : list (string * value)) (default : value) :
  absent_or ok k entries = true -> ok default = true ->
  ok (match lookup k entries with Some v => v | None => default end) = true.
Proof. unfold absent_or. destruct (lookup k entries); auto. Qed.

Lemma is_str_inv (v : value) : is_str v = true -> exists s, v = VStr s.
Proof. destruct v; try discriminate. intros _. now eexists. Qed.

Lemma is_dict_inv (v : value) : is_dict v = true -> exists entries, v = VDict entries.
Proof. destruct v; try discriminate. intros _. now eexists. Qed.

Lemma paragraphs_strings (items : list value) :
  forallb is_str items = true -> exists ps, paragraphs items = Ok ps.
Proof.
  induction items as [|p rest IH]; intros H; [now eexists|].
  cbn [forallb] in H. apply andb_prop in H as [Hp Hrest].
  destruct (IH Hrest) as [ps Hps]. apply is_str_inv in Hp as [s ->].
  cbn [paragraphs strip bind]. rewrite Hps.
  destruct (String.eqb _ ""); now eexists.
Qed.

Lemma to_paragraphs_shaped (body : value) :
  body_shaped body = true -> exists out, to_paragraphs body = Ok out.
Proof.
  intros H. destruct body; try (now eexists); unfold to_paragraphs.
  - (* any other value: one entry, its [str] *)
    cbn [paragraphs str strip bind]. destruct (String.eqb _ ""); now eexists.
  - cbn [paragraphs str strip bind]. destruct (String.eqb _ ""); now eexists.
  - cbn [paragraphs str strip bind]. destruct (String.eqb _ ""); now eexists.
  - cbn [paragraphs str strip bind]. destruct (String.eqb _ ""); now eexists.
  - destruct (paragraphs_strings items H) as [ps ->]. now eexists.
  - cbn [paragraphs str strip bind]. destruct (String.eqb _ ""); now eexists.
Qed.

Lemma subtitle_line_dict (entries : list (string * value)) :
  exists out, subtitle_line (VDict entries) = Ok out.
Proof.
  unfold subtitle_line. cbn [get getitem bind].
  destruct (lookup "subtitle" entries) as [v|]; [|now eexists].
  destruct (truthy v); now eexists.
Qed.

Lemma acs_badge_str (label s : string) :
  exists out, acs_badge label (VStr s) = Ok out.
Proof.
  unfold acs_badge, acs_icon_url. cbn [lower bind].
  destruct (lookup (Py.lower s) ACS_ICON_MAP) as [filename|]; [|now eexists].
  destruct (String.eqb filename ""); cbn [bind]; [now eexists|].
  destruct (String.eqb _ ""); now eexists.
Qed.

Lemma render_classic_header_shaped (entries : list (string * value)) :
  absent_or is_dict "classic" entries = true ->
  exists out, render_classic_header (VDict entries) = Ok out.
Proof.
  intros H. apply (absent_or_default _ _ _ (VDict [])) in H; [|reflexivity].
  apply is_dict_inv in H as [classic Hc].
  unfold render_classic_header. rewrite !get_dict, Hc. cbn [bind get].
  destruct (subtitle_line_dict entries) as [subtitle ->]. now eexists.
Qed.

Lemma render_acs_header_shaped (entries : list (string * value)) :
  absent_or acs_shaped "acs" entries = true ->
  exists out, render_acs_header (VDict entries) = Ok out.
Proof.
  intros H. apply (absent_or_default _ _ _ (VDict [])) in H; [|reflexivity].
  unfold render_acs_header. rewrite !get_dict. cbn [bind].
  destruct (match lookup "acs" entries with Some v => v | None => VDict [] end)
    as [| | | | | |acs]; try discriminate.
  cbn [acs_shaped] in H.
  apply andb_prop in H as [H H4]. apply andb_prop in H as [H H3].
  apply andb_prop in H as [H1 H2].
  apply (absent_or_default _ _ _ (VStr "euclid")) in H1; [|reflexivity].
  apply (absent_or_default _ _ _ (VStr "none")) in H2; [|reflexivity].
  apply (absent_or_default _ _ _ (VStr "none")) in H3; [|reflexivity].
  apply (absent_or_default _ _ _ (VStr "notice")) in H4; [|reflexivity].
  apply is_str_inv in H1 as [v1 E1], H2 as [v2 E2], H3 as [v3 E3], H4 as [v4 E4].
  rewrite !get_dict, E1, E2, E3, E4. cbn [bind].
  destruct (subtitle_line_dict entries) as [subtitle ->]. cbn [bind].
  destruct (acs_badge_str "Containment" v1) as [b1 ->].
  destruct (acs_badge_str "Secondary" v2) as [b2 ->].
  destruct (acs_badge_str "Disruption" v3) as [b3 ->].
  destruct (acs_badge_str "Risk" v4) as [b4 ->].
  now eexists.
Qed.

Lemma render_section_shaped (sec : value) :
  section_shaped sec = true -> exists out, render_section sec = Ok out.
Proof.
  destruct sec as [| | | | | |entries]; try discriminate.
  cbn [section_shaped]. intros H.
  apply (absent_or_default _ _ _ VNone) in H; [|reflexivity].
  unfold render_section. rewrite !get_dict. cbn [bind].
  destruct (to_paragraphs_shaped _ H) as [body ->]. now eexists.
Qed.

Lemma render_each_shaped (secs : list value) :
  forallb section_shaped secs = true -> exists out, render_each secs = Ok out.
Proof.
  induction secs as [|sec rest IH]; intros H; [now eexists|].
  cbn [forallb] in H. apply andb_prop in H as [Hsec Hrest].
  destruct (render_section_shaped _ Hsec) as [block Hb].
  destruct (IH Hrest) as [out Hout].
  cbn [render_each]. rewrite Hb, Hout. now eexists.
Qed.

Lemma render_sections_shaped (entries : list (string * value)) :
  absent_or sections_shaped "sections" entries = true ->
  exists out, render_sections (VDict entries) = Ok out.
Proof.
  intros H. apply (absent_or_default _ _ _ (VList [])) in H; [|reflexivity].
  unfold render_sections. rewrite get_dict. cbn [bind].
  destruct (match lookup "sections" entries with Some v => v | None => VList [] end)
    as [| | | | |secs|]; try discriminate.
  cbn [iter bind]. destruct (render_each_shaped _ H) as [out ->]. now eexists.
Qed.

Lemma render_footer_shaped (entries : list (string * value)) :
  absent_or is_dict "footer" entries = true ->
  exists out, render_footer (VDict entries) = Ok out.
Proof.
  intros H. apply (absent_or_default _ _ _ (VDict [])) in H; [|reflexivity].
  apply is_dict_inv in H as [foot Hf].
  unfold render_footer. rewrite !get_dict, Hf. now eexists.
Qed.

(** C2 as stated fails: a sub-record that the render reads and that is
    not a dict makes it raise, be it the classic one, the ACS one or the
    footer. *)
Lemma build_html_raises :
  build_html classic_not_a_dict = Raise AttributeError
  /\ build_html acs_not_a_dict = Raise AttributeError
  /\ build_html footer_not_a_dict = Raise AttributeError.
Proof. repeat split; vm_compute; reflexivity. Qed.

(** ** Badges *)

Lemma table_filenames (k filename : string) :
  lookup k ACS_ICON_MAP = Some filename -> String.eqb filename "" = false.
Proof.
  intros H. apply lookup_In in H.
  assert (Hall : forallb (fun f => negb (String.eqb f "")) (map snd ACS_ICON_MAP) = true)
    by reflexivity.
  rewrite forallb_forall in Hall. apply Hall in H. now apply negb_true_iff in H.
Qed.

Lemma acs_icon_url_known (v filename : string) :
  lookup (Py.lower v) ACS_ICON_MAP = Some filename ->
  acs_icon_url (VStr v) = Ok (Some (icon_url filename)).
Proof.
  intros H. unfold acs_icon_url. cbn [lower bind].
  now rewrite H, (table_filenames _ _ H).
Qed.

Lemma acs_icon_url_unknown (v : string) :
  lookup (Py.lower v) ACS_ICON_MAP = None -> acs_icon_url (VStr v) = Ok None.
Proof. intros H. unfold acs_icon_url. cbn [lower bind]. now rewrite H. Qed.

Lemma icon_url_nonempty (filename : string) : String.eqb (icon_url filename) "" = false.
Proof. reflexivity. Qed.

Lemma acs_icon_url_nonempty (value : value) (icon : string) :
  acs_icon_url value = Ok (Some icon) -> String.eqb icon "" = false.
Proof.
  unfold acs_icon_url. destruct (lower value) as [k|e]; [|discriminate].
  cbn [bind]. destruct (lookup k ACS_ICON_MAP) as [filename|]; [|discriminate].
  destruct (String.eqb filename ""); [discriminate|].
  intros H. assert (Hi : icon = icon_url filename) by (unfold icon_url; congruence).
  rewrite Hi. apply icon_url_nonempty.
Qed.

(** The pieces of a badge: those of [Trace.badge] when the value has an icon,
    none otherwise. *)
Lemma acs_badge_pieces (label : string) (value : value) (ps : list piece) :
  Trace.acs_badge label value = Ok ps ->
  (resolves value = true
   /\ exists icon, acs_icon_url value = Ok (Some icon)
                   /\ ps = Trace.badge icon label (str value))
  \/ (resolves value = false /\ ps = []).
Proof.
  unfold Trace.acs_badge, resolves.
  destruct (acs_icon_url value) as [[icon|]|e] eqn:E; cbn [bind];
    [|intros H; injection H as <-; now right | discriminate].
  rewrite (acs_icon_url_nonempty _ _ E). intros H. injection H as <-.
  left. split; [reflexivity|]. now exists icon.
Qed.

Lemma acs_badge_count (label : string) (value : value) (ps : list piece) :
  Trace.acs_badge label value = Ok ps ->
  lit_occurrences badge_marker ps = if resolves value then 1 else 0.
Proof.
  intros H. apply acs_badge_pieces in H as [(-> & icon & E & ->)|(-> & ->)];
    [|reflexivity].
  apply acs_icon_url_table in E.
  assert (Hfree : free_of badge_marker Chunk.icons = true) by (vm_compute; reflexivity).
  unfold free_of in Hfree. rewrite forallb_forall in Hfree.
  apply Hfree, Nat.eqb_eq in E.
  unfold Trace.badge. rewrite !lit_occurrences_cons, E. reflexivity.
Qed.

(** The pieces of the ACS header, by the fields the record resolves to. *)
Lemma render_acs_header_pieces (entries acs : list (string * value))
    (ps : list piece) :
  field "acs" (VDict []) entries = VDict acs ->
  Trace.render_acs_header (VDict entries) = Ok ps ->
  exists subtitle badge1 badge2 badge3 badge4,
    Trace.subtitle_line (VDict entries) = Ok subtitle
    /\ Trace.acs_badge "Containment" (nth 0 (axes acs) VNone) = Ok badge1
    /\ Trace.acs_badge "Secondary" (nth 1 (axes acs) VNone) = Ok badge2
    /\ Trace.acs_badge "Disruption" (nth 2 (axes acs) VNone) = Ok badge3
    /\ Trace.acs_badge "Risk" (nth 3 (axes acs) VNone) = Ok badge4
    /\ ps = (Trace.acs_before (field "title" (VStr "SCP-XXXX") entries) subtitle
               (field "item_number" (field "title" (VStr "SCP-XXXX") entries) acs)
               (clearance_text (field "clearance_level" (VInt 2) acs)
                               (field "clearance_label" (VStr "") acs))
             ++ Lit Chunk.comment_open
                :: Trace.memo_markup (field "memo_url" VNone acs)
             ++ Lit Chunk.comment_close
                :: Trace.acs_after badge1 badge2 badge3 badge4)%list.
Proof.
  intros Hacs. unfold Trace.render_acs_header.
  rewrite get_dict. fold (field "acs" (VDict []) entries). rewrite Hacs.
  cbn [bind get]. intros H. run H.
  do 5 eexists. unfold axes, field. cbn [nth].
  repeat split; eassumption.
Qed.

(** Splits a count over the template text along the appends of the list. *)
Ltac split_count :=
  repeat (rewrite lit_occurrences_app || rewrite lit_occurrences_cons
          || cbn [app]).

Lemma subtitle_line_free (m : string) (data : value) (ps : list piece) :
  free_of m subtitle_text = true ->
  Trace.subtitle_line data = Ok ps -> lit_occurrences m ps = 0.
Proof. intros Hm H. exact (lit_occurrences_free _ _ _ Hm (subtitle_line_drawn _ _ H)). Qed.

Lemma memo_markup_free (m : string) (memo_url : value) :
  free_of m memo_text = true ->
  lit_occurrences m (Trace.memo_markup memo_url) = 0.
Proof. intros Hm. exact (lit_occurrences_free _ _ _ Hm (memo_markup_drawn _)). Qed.

Lemma acs_badge_free (m label : string) (value : value) (ps : list piece) :
  free_of m badge_text = true ->
  Trace.acs_badge label value = Ok ps -> lit_occurrences m ps = 0.
Proof. intros Hm H. exact (lit_occurrences_free _ _ _ Hm (acs_badge_drawn _ _ _ H)). Qed.

(** The ACS header holds one badge for each axis value that has an icon. *)
Lemma render_acs_header_badge_lits (entries acs : list (string * value))
    (ps : list piece) :
  field "acs" (VDict []) entries = VDict acs ->
  Trace.render_acs_header (VDict entries) = Ok ps ->
  lit_occurrences badge_marker ps = length (filter resolves (axes acs)).
Proof.
  intros Hacs E.
  destruct (render_acs_header_pieces _ _ _ Hacs E)
    as (subtitle & b1 & b2 & b3 & b4 & Hs & H1 & H2 & H3 & H4 & ->).
  unfold Trace.acs_before, Trace.acs_after. split_count.
  rewrite (subtitle_line_free badge_marker _ _ eq_refl Hs),
    (memo_markup_free badge_marker _ eq_refl).
  rewrite (acs_badge_count _ _ _ H1), (acs_badge_count _ _ _ H2),
    (acs_badge_count _ _ _ H3), (acs_badge_count _ _ _ H4).
  cbn [axes nth filter].
  repeat match goal with
         | |- context [resolves ?v] => destruct (resolves v)
         end; reflexivity.
Qed.

Lemma render_acs_header_badges (entries acs : list (string * value))
    (out : string) :
  field "acs" (VDict []) entries = VDict acs ->
  render_acs_header (VDict entries) = Ok out ->
  occurrences badge_marker out = length (filter resolves (axes acs)).
Proof.
  intros Hacs. rewrite render_acs_header_trace.
  destruct (Trace.render_acs_header (VDict entries)) as [ps|e] eqn:E; [|discriminate].
  intros H. injection H as <-.
  rewrite (occurrences_flatten badge_marker acs_text);
    [|reflexivity | vm_compute; reflexivity | exact (render_acs_header_drawn _ _ E)].
  exact (render_acs_header_badge_lits _ _ _ Hacs E).
Qed.

(** ** C4: the header *)

Lemma eq_str_true (v : value) (s : string) : eq_str v s = true <-> v = VStr s.
Proof.
  destruct v; cbn [eq_str]; try (split; [discriminate | congruence]).
  rewrite String.eqb_eq. split; congruence.
Qed.

Lemma render_acs_header_marks (data : value) (ps : list piece) :
  Trace.render_acs_header data = Ok ps ->
  lit_occurrences acs_marker ps = 1 /\ lit_occurrences classic_marker ps = 0.
Proof.
  intros H. split.
  - unfold Trace.render_acs_header in H. run H.
    unfold Trace.acs_before, Trace.acs_after. split_count.
    repeat match goal with
           | H : Trace.subtitle_line _ = Ok ?ps |- context [lit_occurrences ?m ?ps] =>
               rewrite (subtitle_line_free m _ _ eq_refl H)
           | H : Trace.acs_badge _ _ = Ok ?ps |- context [lit_occurrences ?m ?ps] =>
               rewrite (acs_badge_free m _ _ _ eq_refl H)
           | |- context [lit_occurrences ?m (Trace.memo_markup ?u)] =>
               rewrite (memo_markup_free m u eq_refl)
           end.
    reflexivity.
  - apply (lit_occurrences_free _ acs_text);
      [vm_compute; reflexivity | exact (render_acs_header_drawn _ _ H)].
Qed.

Lemma render_classic_header_marks (data : value) (ps : list piece) :
  Trace.render_classic_header data = Ok ps ->
  lit_occurrences acs_marker ps = 0 /\ lit_occurrences classic_marker ps = 1.
Proof.
  intros H. split.
  - apply (lit_occurrences_free _ classic_text);
      [vm_compute; reflexivity | exact (render_classic_header_drawn _ _ H)].
  - unfold Trace.render_classic_header in H. run H. split_count.
    repeat match goal with
           | H : Trace.subtitle_line _ = Ok ?ps |- context [lit_occurrences ?m ?ps] =>
               rewrite (subtitle_line_free m _ _ eq_refl H)
           end.
    reflexivity.
Qed.

(** What stands around the header holds neither mark. *)
Lemma page_marks (m : string) (title : value) (sections footer : list piece)
    (data : value) :
  free_of m (page_text ++ section_text ++ footer_text) = true ->
  Trace.render_sections data = Ok sections ->
  Trace.render_footer data = Ok footer ->
  lit_occurrences m (Trace.page_before title) = 0
  /\ lit_occurrences m (Trace.page_after sections footer) = 0.
Proof.
  intros Hm Hs Hf. split.
  - apply (lit_occurrences_free _ _ _ Hm). reflexivity.
  - apply (lit_occurrences_free _ _ _ Hm).
    unfold Trace.page_after. cbn [forallb]. rewrite forallb_app. cbn [forallb].
    rewrite forallb_app. cbn [forallb].
    rewrite (drawn_from_subset section_text
               (page_text ++ section_text ++ footer_text) _ eq_refl
               (render_sections_drawn _ _ Hs)).
    rewrite (drawn_from_subset footer_text
               (page_text ++ section_text ++ footer_text) _ eq_refl
               (render_footer_drawn _ _ Hf)).
    reflexivity.
Qed.

(** C4.  The output of [build_html] holds, between the page's opening and
    the sections, the header [build_html] selected: the ACS header when the
    value of header_mode is exactly the string acs, and the classic header for
    any other value and when the key is missing.  The two are told apart in
    the output: the classification bar is there once and the classic meta
    lines are not, or the other way round. *)
Theorem header_selection (data : value) (out : string) :
  build_html data = Ok out ->
  exists (mode : value) (header pre post : string),
    get data "header_mode" VNone = Ok mode
    /\ out = pre ++ header ++ post
    /\ ((mode = VStr "acs"
         /\ render_acs_header data = Ok header
         /\ occurrences acs_marker out = 1
         /\ occurrences classic_marker out = 0)
        \/ ((mode = VStr "acs" -> False)
            /\ render_classic_header data = Ok header
            /\ occurrences acs_marker out = 0
            /\ occurrences classic_marker out = 1)).
Proof.
  intros Hout. pose proof Hout as Hb. rewrite build_html_trace in Hb.
  destruct (Trace.build_html data) as [ps|e] eqn:E; [|discriminate].
  injection Hb as Hb. pose proof (build_html_drawn _ _ E) as Hdrawn.
  assert (Hacs : occurrences acs_marker out = lit_occurrences acs_marker ps).
  { rewrite <- Hb. apply (occurrences_flatten _ template_text);
      [reflexivity | vm_compute; reflexivity | exact Hdrawn]. }
  assert (Hcl : occurrences classic_marker out = lit_occurrences classic_marker ps).
  { rewrite <- Hb. apply (occurrences_flatten _ template_text);
      [reflexivity | vm_compute; reflexivity | exact Hdrawn]. }
  rewrite Hacs, Hcl. clear Hacs Hcl Hdrawn.
  unfold Trace.build_html, Trace.header_of in E.
  destruct (get data "header_mode" VNone) as [mode|e] eqn:Emode; [|discriminate].
  cbn [bind] in E.
  destruct (eq_str mode "acs") eqn:Eacs.
  - destruct (Trace.render_acs_header data) as [hps|e] eqn:Eh; [|discriminate].
    cbn [bind] in E.
    destruct (get data "title" (VStr "SCP Document")) as [title|e]; [|discriminate].
    destruct (Trace.render_sections data) as [sections|e] eqn:Es; [|discriminate].
    destruct (Trace.render_footer data) as [footer|e] eqn:Ef; [|discriminate].
    cbn [bind] in E. assert (Hps : ps = (Trace.page_before title ++ hps
                                         ++ Trace.page_after sections footer)%list)
      by congruence.
    destruct (page_marks acs_marker title _ _ data eq_refl Es Ef) as [Ha1 Ha2].
    destruct (page_marks classic_marker title _ _ data eq_refl Es Ef) as [Hc1 Hc2].
    destruct (render_acs_header_marks _ _ Eh) as [Hh1 Hh2].
    exists mode, (flatten hps), (flatten (Trace.page_before title)),
      (flatten (Trace.page_after sections footer)).
    split; [reflexivity|]. split.
    { now rewrite <- Hb, Hps, !flatten_app. }
    left. rewrite Hps, !lit_occurrences_app, Ha1, Ha2, Hc1, Hc2, Hh1, Hh2.
    repeat split.
    + now apply eq_str_true.
    + rewrite render_acs_header_trace, Eh. reflexivity.
  - destruct (Trace.render_classic_header data) as [hps|e] eqn:Eh; [|discriminate].
    cbn [bind] in E.
    destruct (get data "title" (VStr "SCP Document")) as [title|e]; [|discriminate].
    destruct (Trace.render_sections data) as [sections|e] eqn:Es; [|discriminate].
    destruct (Trace.render_footer data) as [footer|e] eqn:Ef; [|discriminate].
    cbn [bind] in E. assert (Hps : ps = (Trace.page_before title ++ hps
                                         ++ Trace.page_after sections footer)%list)
      by congruence.
    destruct (page_marks acs_marker title _ _ data eq_refl Es Ef) as [Ha1 Ha2].
    destruct (page_marks classic_marker title _ _ data eq_refl Es Ef) as [Hc1 Hc2].
    destruct (render_classic_header_marks _ _ Eh) as [Hh1 Hh2].
    exists mode, (flatten hps), (flatten (Trace.page_before title)),
      (flatten (Trace.page_after sections footer)).
    split; [reflexivity|]. split.
    { now rewrite <- Hb, Hps, !flatten_app. }
    right. rewrite Hps, !lit_occurrences_app, Ha1, Ha2, Hc1, Hc2, Hh1, Hh2.
    repeat split.
    + intros Hm. apply eq_str_true in Hm. congruence.
    + rewrite render_classic_header_trace, Eh. reflexivity.
Qed.

Lemma header_selection_witness :
  build_html no_axes = Ok (text_of (build_html no_axes))
  /\ exists (mode : value) (header pre post : string),
       get no_axes "header_mode" VNone = Ok mode
       /\ text_of (build_html no_axes) = pre ++ header ++ post
       /\ ((mode = VStr "acs"
            /\ render_acs_header no_axes = Ok header
            /\ occurrences acs_marker (text_of (build_html no_axes)) = 1
            /\ occurrences classic_marker (text_of (build_html no_axes)) = 0)
           \/ ((mode = VStr "acs" -> False)
               /\ render_classic_header no_axes = Ok header
               /\ occurrences acs_marker (text_of (build_html no_axes)) = 0
               /\ occurrences classic_marker (text_of (build_html no_axes)) = 1)).
Proof.
  assert (H : build_html no_axes = Ok (text_of (build_html no_axes)))
    by (vm_compute; reflexivity).
  split; [exact H | exact (header_selection _ _ H)].
Defined.

(** ** C3, C7 and C10: badges in the output *)

(** The page with the ACS header holds as many badges as its header. *)
Lemma build_html_badges (entries acs : list (string * value)) (out : string) :
  field "header_mode" VNone entries = VStr "acs" ->
  field "acs" (VDict []) entries = VDict acs ->
  build_html (VDict entries) = Ok out ->
  occurrences badge_marker out = length (filter resolves (axes acs)).
Proof.
  intros Hmode Hacs Hout. pose proof Hout as Hb. rewrite build_html_trace in Hb.
  destruct (Trace.build_html (VDict entries)) as [ps|e] eqn:E; [|discriminate].
  apply (f_equal text_of) in Hb. cbn [fmap text_of] in Hb. rewrite <- Hb.
  rewrite (occurrences_flatten _ template_text);
    [|reflexivity | vm_compute; reflexivity | exact (build_html_drawn _ _ E)].
  unfold Trace.build_html, Trace.header_of in E. rewrite get_dict in E.
  fold (field "header_mode" VNone entries) in E. rewrite Hmode in E.
  cbn [bind eq_str String.eqb Ascii.eqb Bool.eqb] in E.
  destruct (Trace.render_acs_header (VDict entries)) as [hps|e] eqn:Eh;
    [|discriminate].
  cbn [bind get] in E.
  destruct (Trace.render_sections (VDict entries)) as [sections|e] eqn:Es;
    [|discriminate].
  destruct (Trace.render_footer (VDict entries)) as [footer|e] eqn:Ef;
    [|discriminate].
  cbn [bind] in E.
  assert (Hps : ps = (Trace.page_before
                        (field "title" (VStr "SCP Document") entries)
                      ++ hps ++ Trace.page_after sections footer)%list)
    by (unfold field; congruence).
  destruct (page_marks badge_marker
              (field "title" (VStr "SCP Document") entries) _ _ _ eq_refl Es Ef)
    as [H1 H2].
  rewrite Hps, !lit_occurrences_app, H1, H2,
    (render_acs_header_badge_lits _ _ _ Hacs Eh).
  lia.
Qed.

Lemma acs_badge_unknown (label v : string) :
  lookup (Py.lower v) ACS_ICON_MAP = None -> acs_badge label (VStr v) = Ok "".
Proof.
  intros H. unfold acs_badge. now rewrite (acs_icon_url_unknown _ H).
Qed.

Lemma acs_badge_known (label v filename : string) :
  lookup (Py.lower v) ACS_ICON_MAP = Some filename ->
  acs_badge label (VStr v) = Ok (flatten (Trace.badge (icon_url filename) label v)).
Proof.
  intros H. rewrite acs_badge_trace. unfold Trace.acs_badge.
  rewrite (acs_icon_url_known _ _ H). cbn [bind].
  now rewrite icon_url_nonempty.
Qed.

Lemma axes_length (acs : list (string * value)) : length (axes acs) = 4.
Proof. reflexivity. Qed.

Lemma filter_split {A : Type} (f : A -> bool) (l : list A) :
  length (filter f l) + length (filter (fun x => negb (f x)) l) = length l.
Proof.
  induction l as [|x l IH]; [reflexivity|].
  cbn [filter]. destruct (f x); cbn [negb length]; lia.
Qed.

(** C3.  A value whose lower-cased form is not a key of the icon table gives
    the empty badge, under any label.  In the ACS header, the number of badges
    is the number of axis values that have an icon: with one unknown value
    and three known ones there are exactly three, as in the record whose
    containment class is unknown-value, where no image and no trace of the
    value is written for that axis. *)
Theorem unknown_axis_omitted :
  (forall label v : string,
      lookup (Py.lower v) ACS_ICON_MAP = None ->
      acs_badge label (VStr v) = Ok "")
  /\ (forall (entries acs : list (string * value)) (out : string),
        field "acs" (VDict []) entries = VDict acs ->
        render_acs_header (VDict entries) = Ok out ->
        length (filter (fun v => negb (resolves v)) (axes acs)) = 1 ->
        occurrences badge_marker out = 3)
  /\ (forall (entries acs : list (string * value)) (out : string),
        field "header_mode" VNone entries = VStr "acs" ->
        field "acs" (VDict []) entries = VDict acs ->
        build_html (VDict entries) = Ok out ->
        length (filter (fun v => negb (resolves v)) (axes acs)) = 1 ->
        occurrences badge_marker out = 3)
  /\ (exists out : string,
        build_html unknown_containment = Ok out
        /\ occurrences badge_marker out = 3
        /\ occurrences "<img" out = 3
        /\ occurrences "unknown-value" out = 0).
Proof.
  split; [exact acs_badge_unknown|]. split.
  - intros entries acs out Hacs Hout Hone.
    rewrite (render_acs_header_badges _ _ _ Hacs Hout).
    pose proof (filter_split resolves (axes acs)) as Hsplit.
    rewrite axes_length in Hsplit. lia.
  - split.
    { intros entries acs out Hmode Hacs Hout Hone.
      rewrite (build_html_badges _ _ _ Hmode Hacs Hout).
      pose proof (filter_split resolves (axes acs)) as Hsplit.
      rewrite axes_length in Hsplit. lia. }
    eexists. split; [vm_compute; reflexivity|]. vm_compute. repeat split.
Qed.

Lemma unknown_axis_omitted_witness :
  lookup (Py.lower "unknown-value") ACS_ICON_MAP = None
  /\ acs_badge "Containment" (VStr "unknown-value") = Ok ""
  /\ occurrences badge_marker
       (text_of (render_acs_header unknown_containment)) = 3.
Proof.
  split; [reflexivity|]. split.
  - apply (proj1 unknown_axis_omitted). reflexivity.
  - apply (proj1 (proj2 unknown_axis_omitted)
             [("header_mode", VStr "acs");
              ("acs", VDict [("containment_class", VStr "unknown-value");
                             ("secondary_class", VStr "Thaumiel");
                             ("disruption_class", VStr "vlam");
                             ("risk_class", VStr "DANGER")])]
             [("containment_class", VStr "unknown-value");
              ("secondary_class", VStr "Thaumiel");
              ("disruption_class", VStr "vlam");
              ("risk_class", VStr "DANGER")]);
      vm_compute; reflexivity.
Defined.

(** C10.  When the acs sub-record has none of the four axis keys, the
    header renders and holds four badges, and so does the page when the
    header mode is acs: the default keywords euclid, none, none and notice
    are all keys of the icon table.  The keyword none has an icon, the one
    of the keyword notice. *)
Theorem default_axes_all_rendered :
  (forall (entries acs : list (string * value)),
      field "acs" (VDict []) entries = VDict acs ->
      lookup "containment_class" acs = None ->
      lookup "secondary_class" acs = None ->
      lookup "disruption_class" acs = None ->
      lookup "risk_class" acs = None ->
      (exists header : string,
          render_acs_header (VDict entries) = Ok header
          /\ occurrences badge_marker header = 4)
      /\ (forall out : string,
            field "header_mode" VNone entries = VStr "acs" ->
            build_html (VDict entries) = Ok out ->
            occurrences badge_marker out = 4))
  /\ map resolves [VStr "euclid"; VStr "none"; VStr "none"; VStr "notice"]
     = [true; true; true; true]
  /\ acs_icon_url (VStr "none") = Ok (Some (icon_url "notice-icon.svg"))
  /\ acs_icon_url (VStr "none") = acs_icon_url (VStr "notice")
  /\ acs_badge "Secondary" (VStr "none")
     = Ok (flatten (Trace.badge (icon_url "notice-icon.svg") "Secondary" "none")).
Proof.
  split; [|repeat split; vm_compute; reflexivity].
  intros entries acs Hacs H1 H2 H3 H4.
  destruct (render_acs_header_shaped entries) as [out Hout].
  { unfold absent_or. fold (field "acs" (VDict []) entries).
    unfold field in Hacs. destruct (lookup "acs" entries); [|reflexivity].
    rewrite Hacs. cbn [acs_shaped]. unfold absent_or. now rewrite H1, H2, H3, H4. }
  assert (Hall : length (filter resolves (axes acs)) = 4)
    by (unfold axes, field; now rewrite H1, H2, H3, H4).
  split.
  - exists out. split; [exact Hout|].
    now rewrite (render_acs_header_badges _ _ _ Hacs Hout).
  - intros page Hmode Hpage. now rewrite (build_html_badges _ _ _ Hmode Hacs Hpage).
Qed.

Lemma default_axes_all_rendered_witness :
  (exists header : string,
      render_acs_header no_axes = Ok header
      /\ occurrences badge_marker header = 4)
  /\ occurrences badge_marker (text_of (build_html no_axes)) = 4.
Proof.
  destruct (proj1 default_axes_all_rendered
              [("title", VStr "SCP-173"); ("header_mode", VStr "acs");
               ("acs", VDict [("clearance_level", VInt 4)])]
              [("clearance_level", VInt 4)]
              eq_refl eq_refl eq_refl eq_refl eq_refl) as [Hheader Hpage].
  split; [exact Hheader|].
  apply Hpage; [reflexivity | vm_compute; reflexivity].
Defined.

Example default_axes_page :
  occurrences badge_marker (text_of (build_html no_axes)) = 4
  /\ occurrences "notice-icon.svg" (text_of (build_html no_axes)) = 3
  /\ occurrences "euclid-icon.svg" (text_of (build_html no_axes)) = 1.
Proof. vm_compute. repeat split. Qed.

(** C7 as stated fails: Safe and SAFE resolve to the same icon, but their
    badges differ, since each shows the value as it was typed. *)
Lemma badge_differs_with_casing :
  acs_icon_url (VStr "Safe") = acs_icon_url (VStr "SAFE")
  /\ acs_badge "Containment" (VStr "Safe") <> acs_badge "Containment" (VStr "SAFE").
Proof.
  split; [reflexivity|]. intros H.
  assert (E : String.eqb (text_of (acs_badge "Containment" (VStr "Safe")))
                         (text_of (acs_badge "Containment" (VStr "SAFE"))) = true)
    by (rewrite H; apply String.eqb_refl).
  vm_compute in E. discriminate E.
Qed.

(** C7, as the code has it.  Two values with the same lower-cased form, a
    key of the icon table, resolve to the same icon address, whatever their
    casing; the badge of each is the badge markup around that address, the
    label, and the value as typed (escaped), in the alternative text and in
    the value line. *)
Theorem icon_ignores_casing (label v1 v2 filename : string) :
  lookup (Py.lower v1) ACS_ICON_MAP = Some filename ->
  Py.lower v2 = Py.lower v1 ->
  acs_icon_url (VStr v1) = Ok (Some (icon_url filename))
  /\ acs_icon_url (VStr v2) = acs_icon_url (VStr v1)
  /\ acs_badge label (VStr v1)
     = Ok (flatten (Trace.badge (icon_url filename) label v1))
  /\ acs_badge label (VStr v2)
     = Ok (flatten (Trace.badge (icon_url filename) label v2)).
Proof.
  intros H1 E. assert (H2 := H1). rewrite <- E in H2.
  rewrite (acs_icon_url_known _ _ H1), (acs_icon_url_known _ _ H2).
  rewrite (acs_badge_known _ _ _ H1), (acs_badge_known _ _ _ H2).
  repeat split.
Qed.

Lemma icon_ignores_casing_witness :
  acs_icon_url (VStr "safe") = Ok (Some (icon_url "safe-icon.svg"))
  /\ acs_icon_url (VStr "SAFE") = acs_icon_url (VStr "safe")
  /\ acs_badge "Containment" (VStr "safe")
     = Ok (flatten (Trace.badge (icon_url "safe-icon.svg") "Containment" "safe"))
  /\ acs_badge "Containment" (VStr "SAFE")
     = Ok (flatten (Trace.badge (icon_url "safe-icon.svg") "Containment" "SAFE")).
Proof.
  apply (icon_ignores_casing "Containment" "safe" "SAFE" "safe-icon.svg");
    reflexivity.
Defined.

(** ** C9: the memo link *)

Lemma contains_char_append (c : ascii) (a b : string) :
  Py.contains_char c (a ++ b) = (Py.contains_char c a || Py.contains_char c b)%bool.
Proof.
  induction a as [|d a IH]; [reflexivity|].
  cbn [append Py.contains_char]. now rewrite IH, orb_assoc.
Qed.

(** A closing bracket right after [a] is not found in text that has no
    closing bracket, nor at its end when what follows does not start with
    one. *)
Lemma bracket_after_skip (a : ascii) (x r : string) :
  Py.contains_char ">" x = false ->
  startswith ">" r = false ->
  occurrences (String a ">") (x ++ r) = occurrences (String a ">") r.
Proof.
  intros Hx Hr. induction x as [|c x IH]; [reflexivity|].
  cbn [Py.contains_char] in Hx. apply orb_false_elim in Hx as [Hc Hx].
  change (String c x ++ r) with (String c (x ++ r)).
  cbn [occurrences]. rewrite (IH Hx).
  replace (startswith (String a ">") (String c (x ++ r))) with false; [reflexivity|].
  cbn [startswith]. destruct (Ascii.eqb a c); [|reflexivity].
  destruct x as [|d x].
  - cbn [append]. cbn [startswith] in Hr. destruct r; [reflexivity|].
    now rewrite andb_true_r in Hr |- *.
  - cbn [append]. cbn [Py.contains_char] in Hx.
    apply orb_false_elim in Hx as [Hd _]. now rewrite Hd.
Qed.

(** Up to its last character, the comment holds no closing bracket that
    follows a dash or an exclamation mark: it ends where the template ends
    it. *)
Lemma comment_not_closed (a : ascii) (memo_url : value) :
  a = "-"%char \/ a = "!"%char ->
  occurrences (String a ">")
    (Chunk.comment_open ++ memo_markup memo_url ++ " --") = 0.
Proof.
  intros Ha. unfold memo_markup. destruct (truthy memo_url).
  2:{ destruct Ha as [-> | ->]; reflexivity. }
  unfold esc.
  replace (Chunk.comment_open
           ++ fstring ["<a class='memo-link' href='"; Py.html_escape (str memo_url);
                       "'>Link to memo</a>"] ++ " --")
    with ((Chunk.comment_open ++ Chunk.memo_open ++ Py.html_escape (str memo_url))
          ++ Chunk.memo_close ++ " --").
  2:{ unfold fstring. cbn [fold_right]. now rewrite !append_assoc. }
  rewrite bracket_after_skip.
  - destruct Ha as [-> | ->]; reflexivity.
  - rewrite !contains_char_append, (html_escape_no_markup ">" ""); reflexivity.
  - reflexivity.
Qed.

Lemma acs_before_drawn (title item_number : value) (clearance : string)
    (data : value) (subtitle : list piece) :
  Trace.subtitle_line data = Ok subtitle ->
  forallb (drawn_from around_comment_text)
    (Trace.acs_before title subtitle item_number clearance) = true.
Proof.
  intros H. unfold Trace.acs_before.
  repeat (rewrite forallb_app || cbn [forallb app]).
  rewrite (drawn_from_subset subtitle_text around_comment_text _ eq_refl
             (subtitle_line_drawn _ _ H)).
  reflexivity.
Qed.

Lemma acs_after_drawn (l1 l2 l3 l4 : string) (v1 v2 v3 v4 : value)
    (b1 b2 b3 b4 : list piece) :
  Trace.acs_badge l1 v1 = Ok b1 -> Trace.acs_badge l2 v2 = Ok b2 ->
  Trace.acs_badge l3 v3 = Ok b3 -> Trace.acs_badge l4 v4 = Ok b4 ->
  forallb (drawn_from around_comment_text) (Trace.acs_after b1 b2 b3 b4) = true.
Proof.
  intros H1 H2 H3 H4. unfold Trace.acs_after.
  repeat (rewrite forallb_app || cbn [forallb app]).
  rewrite (drawn_from_subset badge_text around_comment_text _ eq_refl
             (acs_badge_drawn _ _ _ H1)),
    (drawn_from_subset badge_text around_comment_text _ eq_refl
       (acs_badge_drawn _ _ _ H2)),
    (drawn_from_subset badge_text around_comment_text _ eq_refl
       (acs_badge_drawn _ _ _ H3)),
    (drawn_from_subset badge_text around_comment_text _ eq_refl
       (acs_badge_drawn _ _ _ H4)).
  reflexivity.
Qed.

Lemma page_drawn (title : value) (sections footer : list piece) (data : value) :
  Trace.render_sections data = Ok sections ->
  Trace.render_footer data = Ok footer ->
  forallb (drawn_from around_comment_text) (Trace.page_before title) = true
  /\ forallb (drawn_from around_comment_text)
       (Trace.page_after sections footer) = true.
Proof.
  intros Hs Hf. split; [reflexivity|].
  unfold Trace.page_after. cbn [forallb]. rewrite forallb_app. cbn [forallb].
  rewrite forallb_app. cbn [forallb].
  rewrite (drawn_from_subset section_text around_comment_text _ eq_refl
             (render_sections_drawn _ _ Hs)),
    (drawn_from_subset footer_text around_comment_text _ eq_refl
       (render_footer_drawn _ _ Hf)).
  reflexivity.
Qed.

(** The page with the ACS header, cut at the comment of the header. *)
Lemma build_html_acs_cut (entries acs : list (string * value)) (out : string) :
  field "header_mode" VNone entries = VStr "acs" ->
  field "acs" (VDict []) entries = VDict acs ->
  build_html (VDict entries) = Ok out ->
  exists before after : list piece,
    forallb (drawn_from around_comment_text) before = true
    /\ forallb (drawn_from around_comment_text) after = true
    /\ out = flatten before ++ Chunk.comment_open
             ++ memo_markup (field "memo_url" VNone acs)
             ++ Chunk.comment_close ++ flatten after.
Proof.
  intros Hmode Hacs. rewrite build_html_trace.
  unfold Trace.build_html, Trace.header_of. rewrite get_dict.
  fold (field "header_mode" VNone entries). rewrite Hmode.
  cbn [bind eq_str String.eqb Ascii.eqb Bool.eqb].
  destruct (Trace.render_acs_header (VDict entries)) as [hps|e] eqn:Eh;
    [|discriminate].
  cbn [bind get].
  destruct (Trace.render_sections (VDict entries)) as [sections|e] eqn:Es;
    [|discriminate].
  destruct (Trace.render_footer (VDict entries)) as [footer|e] eqn:Ef;
    [|discriminate].
  cbn [bind fmap]. intros H. apply (f_equal text_of) in H. cbn [text_of] in H.
  rewrite <- H. clear H out.
  destruct (render_acs_header_pieces _ _ _ Hacs Eh)
    as (subtitle & b1 & b2 & b3 & b4 & Hs & H1 & H2 & H3 & H4 & ->).
  destruct (page_drawn (field "title" (VStr "SCP Document") entries) _ _ _ Es Ef)
    as [Hbefore Hafter].
  pose proof (acs_before_drawn (field "title" (VStr "SCP-XXXX") entries)
                (field "item_number" (field "title" (VStr "SCP-XXXX") entries) acs)
                (clearance_text (field "clearance_level" (VInt 2) acs)
                                (field "clearance_label" (VStr "") acs))
                _ _ Hs) as Hab.
  pose proof (acs_after_drawn _ _ _ _ _ _ _ _ _ _ _ _ H1 H2 H3 H4) as Haa.
  match type of Hab with
  | forallb _ ?b = true =>
      exists (Trace.page_before (field "title" (VStr "SCP Document") entries) ++ b)%list
  end.
  exists (Trace.acs_after b1 b2 b3 b4 ++ Trace.page_after sections footer)%list.
  rewrite !forallb_app, Hbefore, Hafter, Hab, Haa.
  repeat split.
  rewrite memo_markup_trace.
  repeat (rewrite ?flatten_app, ?flatten_cons, ?append_assoc).
  reflexivity.
Qed.

(** C9.  In a page with the ACS header, the memo link stands between the
    opening and the closing of one comment of the template and nowhere else:
    the text before and the text after hold no memo link, the text before
    opens no comment, and nothing up to the closing ends the comment early,
    whatever the address holds.  Without a memo_url (or with an empty one)
    the comment is empty and no link is written. *)
Theorem memo_only_in_comment (entries acs : list (string * value)) (out : string) :
  field "header_mode" VNone entries = VStr "acs" ->
  field "acs" (VDict []) entries = VDict acs ->
  build_html (VDict entries) = Ok out ->
  exists pre post : string,
    out = pre ++ Chunk.comment_open
          ++ memo_markup (field "memo_url" VNone acs)
          ++ Chunk.comment_close ++ post
    /\ occurrences memo_marker pre = 0
    /\ occurrences memo_marker post = 0
    /\ occurrences comment_marker pre = 0
    /\ occurrences "->" (Chunk.comment_open
                         ++ memo_markup (field "memo_url" VNone acs) ++ " --") = 0
    /\ occurrences "!>" (Chunk.comment_open
                         ++ memo_markup (field "memo_url" VNone acs) ++ " --") = 0
    /\ memo_markup (field "memo_url" VNone acs)
       = (if truthy (field "memo_url" VNone acs)
          then "<a class='memo-link' href='"
               ++ esc (field "memo_url" VNone acs) ++ "'>Link to memo</a>"
          else "")
    /\ (lookup "memo_url" acs = None ->
        memo_markup (field "memo_url" VNone acs) = "").
Proof.
  intros Hmode Hacs Hout.
  destruct (build_html_acs_cut _ _ _ Hmode Hacs Hout)
    as (before & after & Hb & Ha & ->).
  exists (flatten before), (flatten after).
  split; [reflexivity|].
  rewrite !(occurrences_flatten _ around_comment_text)
    by (assumption || (vm_compute; reflexivity)).
  rewrite !(lit_occurrences_free _ around_comment_text)
    by (assumption || (vm_compute; reflexivity)).
  repeat split.
  - apply comment_not_closed. now left.
  - apply comment_not_closed. now right.
  - intros Hnone. unfold field. rewrite Hnone. reflexivity.
Qed.

Lemma memo_only_in_comment_witness :
  build_html with_memo = Ok (text_of (build_html with_memo))
  /\ exists pre post : string,
       text_of (build_html with_memo)
       = pre ++ Chunk.comment_open
         ++ memo_markup (VStr "https://example.org/memo?id=49&x='-->")
         ++ Chunk.comment_close ++ post
       /\ occurrences memo_marker pre = 0
       /\ occurrences memo_marker post = 0
       /\ occurrences comment_marker pre = 0.
Proof.
  assert (H : build_html with_memo = Ok (text_of (build_html with_memo)))
    by (vm_compute; reflexivity).
  split; [exact H|].
  destruct (memo_only_in_comment
              [("title", VStr "SCP-049"); ("header_mode", VStr "acs");
               ("acs", VDict [("memo_url",
                               VStr "https://example.org/memo?id=49&x='-->")])]
              [("memo_url", VStr "https://example.org/memo?id=49&x='-->")]
              _ eq_refl eq_refl H)
    as (pre & post & H1 & H2 & H3 & H4 & _).
  exists pre, post. repeat split; assumption.
Defined.

Example memo_in_output :
  occurrences "<!-- <a class='memo-link' href='https://example.org/memo?id=49&amp;x=&#x27;--&gt;'>Link to memo</a> -->"
    (text_of (build_html with_memo)) = 1
  /\ occurrences memo_marker (text_of (build_html with_memo)) = 1
  /\ occurrences "-->" (text_of (build_html with_memo)) = 1
  /\ occurrences "<!-- " (text_of (build_html no_axes)) = 1
  /\ occurrences "<!--  -->" (text_of (build_html no_axes)) = 1
  /\ occurrences memo_marker (text_of (build_html no_axes)) = 0.
Proof. vm_compute. repeat split. Qed.

(** ** C5: paragraphs *)

Lemma strings_map (items : list value) (ss : list string) :
  strings items = Some ss -> items = map VStr ss.
Proof.
  revert ss. induction items as [|v rest IH]; intros ss H.
  - injection H as <-. reflexivity.
  - destruct v; try discriminate. cbn [strings] in H.
    destruct (strings rest) as [ss'|]; [|discriminate].
    injection H as <-. cbn [map]. now rewrite (IH ss').
Qed.

Lemma paragraph_pieces (s : string) :
  flatten [Lit Chunk.p_open; Dat s; Lit Chunk.p_close] = paragraph s.
Proof. unfold paragraph. cbn [flatten fold_right text]. now rewrite append_nil_r. Qed.

Lemma paragraphs_of_strings (ss : list string) :
  Trace.paragraphs (map VStr ss)
  = Ok (map (fun s => [Lit Chunk.p_open; Dat s; Lit Chunk.p_close])
          (filter (fun s => negb (String.eqb s "")) (map Py.strip ss))).
Proof.
  induction ss as [|s ss IH]; [reflexivity|].
  cbn [map Trace.paragraphs str strip bind filter]. rewrite IH.
  destruct (String.eqb (Py.strip s) ""); reflexivity.
Qed.

Lemma to_paragraphs_of_strings (ss : list string) :
  Ok (Py.join Chunk.nl (map flatten
        (map (fun s => [Lit Chunk.p_open; Dat s; Lit Chunk.p_close])
           (filter (fun s => negb (String.eqb s "")) (map Py.strip ss)))))
  = Ok (spec_paragraphs ss).
Proof.
  unfold spec_paragraphs. rewrite map_map. reflexivity.
Qed.

Lemma paragraph_count (l : list string) :
  lit_occurrences paragraph_marker
    (join_pieces Chunk.nl
       (map (fun s => [Lit Chunk.p_open; Dat s; Lit Chunk.p_close]) l))
  = length l.
Proof.
  induction l as [|s [|t l] IH]; try reflexivity.
  change (lit_occurrences paragraph_marker
            ([Lit Chunk.p_open; Dat s; Lit Chunk.p_close]
             ++ Lit Chunk.nl
             :: join_pieces Chunk.nl
                  (map (fun s => [Lit Chunk.p_open; Dat s; Lit Chunk.p_close])
                     (t :: l)))%list = length (s :: t :: l)).
  rewrite lit_occurrences_app, (lit_occurrences_cons _ (Lit Chunk.nl)), IH.
  reflexivity.
Qed.

Lemma paragraphs_drawn_of_strings (l : list string) :
  forallb (drawn_from paragraph_text)
    (join_pieces Chunk.nl
       (map (fun s => [Lit Chunk.p_open; Dat s; Lit Chunk.p_close]) l)) = true.
Proof.
  apply join_pieces_drawn; [reflexivity|].
  apply Forall_forall. intros ps Hin. apply in_map_iff in Hin as (s & <- & _).
  reflexivity.
Qed.

(** For a body that is missing, a string, a list of strings, or any
    other value that is not a list, [to_paragraphs] gives what the
    specification says of the body's sequence of strings: each entry
    stripped, the blank ones dropped, each of the others in its own escaped
    paragraph, in the order of the input, joined by line breaks.  The output
    holds one paragraph for each entry that is not blank. *)
Theorem to_paragraphs_spec (body : value) (entries : list string) :
  body_sequence body = Some entries ->
  to_paragraphs body = Ok (spec_paragraphs entries)
  /\ occurrences paragraph_marker (spec_paragraphs entries)
     = length (filter (fun s => negb (String.eqb (Py.strip s) "")) entries).
Proof.
  intros Hseq. split.
  - rewrite to_paragraphs_trace. unfold Trace.to_paragraphs.
    destruct body; cbn [body_sequence] in Hseq;
      try (injection Hseq as <-; try reflexivity;
           match goal with
           | |- context [Trace.paragraphs [VStr ?s]] =>
               change [VStr s] with (map VStr [s])
           end;
           rewrite paragraphs_of_strings; cbn [bind fmap];
           rewrite flatten_join; apply to_paragraphs_of_strings).
    apply strings_map in Hseq. rewrite Hseq, paragraphs_of_strings.
    cbn [bind fmap]. rewrite flatten_join. apply to_paragraphs_of_strings.
  - assert (E : spec_paragraphs entries
                = flatten (join_pieces Chunk.nl
                    (map (fun s => [Lit Chunk.p_open; Dat s; Lit Chunk.p_close])
                       (filter (fun s => negb (String.eqb s ""))
                          (map Py.strip entries))))).
    { rewrite flatten_join.
      pose proof (to_paragraphs_of_strings entries) as H. congruence. }
    rewrite E, (occurrences_flatten _ paragraph_text);
      [|reflexivity | reflexivity | apply paragraphs_drawn_of_strings].
    rewrite paragraph_count. clear.
    induction entries as [|s entries IH]; [reflexivity|].
    cbn [map filter]. destruct (String.eqb (Py.strip s) ""); cbn [negb length];
      now rewrite IH.
Qed.

Lemma to_paragraphs_spec_witness :
  body_sequence (VList [VStr "Line one."; VStr ""; VStr " "; VStr "Line two."])
  = Some ["Line one."; ""; " "; "Line two."]
  /\ to_paragraphs (VList [VStr "Line one."; VStr ""; VStr " "; VStr "Line two."])
     = Ok (spec_paragraphs ["Line one."; ""; " "; "Line two."])
  /\ occurrences paragraph_marker
       (spec_paragraphs ["Line one."; ""; " "; "Line two."])
     = length (filter (fun s => negb (String.eqb (Py.strip s) ""))
                 ["Line one."; ""; " "; "Line two."]).
Proof.
  split; [reflexivity|].
  apply (to_paragraphs_spec
           (VList [VStr "Line one."; VStr ""; VStr " "; VStr "Line two."])).
  reflexivity.
Defined.

Example to_paragraphs_examples :
  to_paragraphs (VList [VStr "Line one."; VStr ""; VStr " "; VStr "Line two."])
  = Ok "<p>Line one.</p>
<p>Line two.</p>"
  /\ to_paragraphs (VStr "  a < b  ") = Ok "<p>a &lt; b</p>"
  /\ to_paragraphs (VInt 5) = Ok "<p>5</p>"
  /\ to_paragraphs VNone = Ok ""
  /\ to_paragraphs (VList []) = Ok ""
  /\ to_paragraphs (VStr "   ") = Ok "".
Proof. vm_compute. repeat split. Qed.

(** C5 fails on the code at a list body with an entry that is not a
    string.  The test of the generator converts the entry, so the number is
    an entry that is not blank, which the claim gives a paragraph of its own;
    the paragraph then calls the strip method of the entry itself, which an
    int has not, and the render of the section and of the page raises. *)
Lemma to_paragraphs_non_string_entry :
  to_paragraphs (VList [VStr "one"; VInt 2]) = Raise AttributeError
  /\ String.eqb (Py.strip (str (VInt 2))) "" = false
  /\ spec_paragraphs ["one"; str (VInt 2)] = "<p>one</p>
<p>2</p>"
  /\ render_sections body_with_a_number = Raise AttributeError
  /\ build_html body_with_a_number = Raise AttributeError.
Proof. repeat split; vm_compute; reflexivity. Qed.

(** ** C6 and C8: fields *)

Lemma field_present (k : string) (default v : value)
    (entries : list (string * value)) :
  lookup k entries = Some v -> field k default entries = v.
Proof. unfold field. now intros ->. Qed.

Lemma field_absent (k : string) (default : value)
    (entries : list (string * value)) :
  lookup k entries = None -> field k default entries = default.
Proof. unfold field. now intros ->. Qed.

(** Brings a stripped template to the text of its chunks. *)
Ltac chunks :=
  f_equal; rewrite strip_fstring by reflexivity;
  cbn [rstrip_last lstrip_first]; unfold fstring; cbn [fold_right];
  rewrite ?append_nil_r; reflexivity.

Lemma render_footer_fields (entries foot : list (string * value)) :
  field "footer" (VDict []) entries = VDict foot ->
  render_footer (VDict entries)
  = Ok (Chunk.footer_open
        ++ esc (field "left" (VStr "«") foot) ++ Chunk.footer_next
        ++ esc (field "center" (field "title" (VStr "SCP") entries) foot)
        ++ Chunk.footer_next
        ++ esc (field "right" (VStr "»") foot) ++ Chunk.footer_close).
Proof.
  intros Hfoot. unfold render_footer. rewrite get_dict.
  fold (field "footer" (VDict []) entries). rewrite Hfoot.
  cbn [bind get]. unfold field. chunks.
Qed.

Lemma render_classic_header_fields (entries classic : list (string * value))
    (subtitle : string) :
  field "classic" (VDict []) entries = VDict classic ->
  subtitle_line (VDict entries) = Ok subtitle ->
  render_classic_header (VDict entries)
  = Ok (Chunk.header_open
        ++ esc (field "title"
                  (field "item_number" (field "title" (VStr "SCP-XXXX") entries)
                     classic) entries)
        ++ Chunk.header_title_close ++ subtitle ++ Chunk.classic_item
        ++ esc (field "item_number" (field "title" (VStr "SCP-XXXX") entries)
                  classic)
        ++ Chunk.classic_class
        ++ esc (field "object_class" (VStr "Euclid") classic)
        ++ Chunk.classic_close).
Proof.
  intros Hclassic Hsub. unfold render_classic_header. rewrite get_dict.
  fold (field "classic" (VDict []) entries). rewrite Hclassic.
  cbn [bind get]. rewrite Hsub. cbn [bind]. unfold field. chunks.
Qed.

Lemma render_acs_header_fields (entries acs : list (string * value))
    (subtitle badge1 badge2 badge3 badge4 : string) :
  field "acs" (VDict []) entries = VDict acs ->
  subtitle_line (VDict entries) = Ok subtitle ->
  acs_badge "Containment" (field "containment_class" (VStr "euclid") acs)
  = Ok badge1 ->
  acs_badge "Secondary" (field "secondary_class" (VStr "none") acs) = Ok badge2 ->
  acs_badge "Disruption" (field "disruption_class" (VStr "none") acs)
  = Ok badge3 ->
  acs_badge "Risk" (field "risk_class" (VStr "notice") acs) = Ok badge4 ->
  render_acs_header (VDict entries)
  = Ok (Chunk.header_open
        ++ esc (field "title" (VStr "SCP-XXXX") entries)
        ++ Chunk.header_title_close ++ subtitle ++ Chunk.acs_item
        ++ esc (field "item_number" (field "title" (VStr "SCP-XXXX") entries) acs)
        ++ Chunk.acs_clearance
        ++ esc (VStr (clearance_text (field "clearance_level" (VInt 2) acs)
                                     (field "clearance_label" (VStr "") acs)))
        ++ Chunk.acs_clearance_close ++ Chunk.comment_open
        ++ memo_markup (field "memo_url" VNone acs)
        ++ Chunk.comment_close ++ Chunk.acs_badges
        ++ badge1 ++ Chunk.acs_next_badge ++ badge2 ++ Chunk.acs_next_badge
        ++ badge3 ++ Chunk.acs_next_badge ++ badge4 ++ Chunk.acs_close).
Proof.
  intros Hacs Hsub H1 H2 H3 H4. unfold render_acs_header. rewrite get_dict.
  fold (field "acs" (VDict []) entries). rewrite Hacs.
  cbn [bind get]. rewrite Hsub. cbn [bind]. unfold field in *.
  rewrite H1, H2, H3, H4. cbn [bind]. chunks.
Qed.



(** A title, an object class and a footer slot that are present and empty stay
    empty; the slot that is missing takes its default. *)
Example empty_fields_stay_empty :
  render_classic_header empty_object_class
  = Ok (Py.lit "<section class=`doc-header`>
  <div class=`doc-title`></div>
  
  <div class=`meta-lines`>
    <div><span class=`meta-key`>Item #:</span> </div>
    <div><span class=`meta-key`>Object Class:</span> </div>
  </div>
</section>")
  /\ render_footer empty_object_class
     = Ok (Py.lit "<footer class=`doc-footer`>
  <span></span>
  <span>0</span>
  <span>»</span>
</footer>").
Proof. vm_compute. split; reflexivity. Qed.

(** C8.  The clearance line of the ACS header is Level and the level, and,
    when there is a label (one that is not empty), a colon and the label
    after it; the header writes it, escaped, in the clearance item.  For
    the record of the specification's example the line reads Level 3: Site
    Director, and the Description section holds the two paragraphs Line one.
    and Line two. and no other. *)
Theorem clearance_line :
  (forall (level : value) (acs : list (string * value)),
      lookup "clearance_label" acs = None ->
      clearance_text level (field "clearance_label" (VStr "") acs)
      = "Level " ++ str level)
  /\ (forall level label : value,
        truthy label = false ->
        clearance_text level label = "Level " ++ str level)
  /\ (forall level label : value,
        truthy label = true ->
        clearance_text level label = "Level " ++ str level ++ ": " ++ str label)
  /\ (forall (entries acs : list (string * value)) (out : string),
        field "acs" (VDict []) entries = VDict acs ->
        render_acs_header (VDict entries) = Ok out ->
        exists pre post : string,
          out = pre ++ Chunk.acs_clearance
                ++ esc (VStr (clearance_text
                                (field "clearance_level" (VInt 2) acs)
                                (field "clearance_label" (VStr "") acs)))
                ++ Chunk.acs_clearance_close ++ post)
  /\ (exists out : string,
        build_html scp_999 = Ok out
        /\ occurrences
             (Py.lit "<span class=`acs-k`>Clearance</span>Level 3: Site Director</div>")
             out = 1
        /\ occurrences "<section class=" out = 2
        /\ occurrences paragraph_marker out = 2
        /\ occurrences (Py.lit "<section class=`section`>
  <h2>Description</h2>
  <p>Line one.</p>
<p>Line two.</p>
</section>") out = 1).
Proof.
  split.
  { intros level acs H. unfold field, clearance_text, fstring. rewrite H.
    cbn [truthy String.eqb negb fold_right]. now rewrite !append_nil_r. }
  split.
  { intros level label H. unfold clearance_text, fstring. rewrite H.
    cbn [fold_right]. now rewrite !append_nil_r. }
  split.
  { intros level label H. unfold clearance_text, fstring. rewrite H.
    cbn [fold_right]. now rewrite !append_nil_r, append_assoc. }
  split.
  { intros entries acs out Hacs Hout.
    pose proof Hout as Ht. rewrite render_acs_header_trace in Ht.
    destruct (Trace.render_acs_header (VDict entries)) as [ps|e] eqn:E;
      [|discriminate].
    destruct (render_acs_header_pieces _ _ _ Hacs E)
      as (subtitle & b1 & b2 & b3 & b4 & Hs & H1 & H2 & H3 & H4 & Hps).
    pose proof (f_equal (fmap flatten) Hs) as Hs'.
    pose proof (f_equal (fmap flatten) H1) as H1'.
    pose proof (f_equal (fmap flatten) H2) as H2'.
    pose proof (f_equal (fmap flatten) H3) as H3'.
    pose proof (f_equal (fmap flatten) H4) as H4'.
    rewrite <- subtitle_line_trace in Hs'.
    rewrite <- acs_badge_trace in H1', H2', H3', H4'.
    cbn [fmap axes nth] in Hs', H1', H2', H3', H4'.
    pose proof (render_acs_header_fields _ _ _ _ _ _ _ Hacs Hs' H1' H2' H3' H4')
      as Hfields.
    rewrite Hfields in Hout.
    exists (Chunk.header_open ++ esc (field "title" (VStr "SCP-XXXX") entries)
            ++ Chunk.header_title_close ++ flatten subtitle ++ Chunk.acs_item
            ++ esc (field "item_number"
                      (field "title" (VStr "SCP-XXXX") entries) acs)).
    exists (Chunk.comment_open ++ memo_markup (field "memo_url" VNone acs)
            ++ Chunk.comment_close ++ Chunk.acs_badges
            ++ flatten b1 ++ Chunk.acs_next_badge ++ flatten b2
            ++ Chunk.acs_next_badge ++ flatten b3 ++ Chunk.acs_next_badge
            ++ flatten b4 ++ Chunk.acs_close).
    apply (f_equal text_of) in Hout. cbn [text_of] in Hout. rewrite <- Hout.
    now rewrite !append_assoc. }
  eexists. split; [vm_compute; reflexivity|]. vm_compute. repeat split.
Qed.

Lemma clearance_line_witness :
  clearance_text (VInt 3) (VStr "Site Director") = "Level 3: Site Director"
  /\ clearance_text (VInt 2) (VStr "") = "Level 2"
  /\ exists pre post : string,
       text_of (render_acs_header scp_999)
       = pre ++ Chunk.acs_clearance ++ "Level 3: Site Director"
         ++ Chunk.acs_clearance_close ++ post.
Proof.
  split; [|split].
  - apply (proj1 (proj2 (proj2 clearance_line)) (VInt 3) (VStr "Site Director")).
    reflexivity.
  - apply (proj1 (proj2 clearance_line) (VInt 2) (VStr "")). reflexivity.
  - apply (proj1 (proj2 (proj2 (proj2 clearance_line)))
             [("title", VStr "SCP-999"); ("header_mode", VStr "acs");
              ("acs", VDict [("clearance_level", VInt 3);
                             ("clearance_label", VStr "Site Director")]);
              ("sections",
               VList [VDict [("heading", VStr "Description");
                             ("body", VList [VStr "Line one."; VStr "";
                                             VStr " "; VStr "Line two."])]])]
             [("clearance_level", VInt 3);
              ("clearance_label", VStr "Site Director")]);
      [reflexivity | vm_compute; reflexivity].
Defined.

(** * More of the program *)

(** ** When a render returns *)

Lemma is_ok_bind {A B : Type} (m : result A) (k : A -> result B) :
  is_ok (bind m k) = match m with Ok a => is_ok (k a) | Raise _ => false end.
Proof. destruct m; reflexivity. Qed.

Lemma is_ok_true {A : Type} (r : result A) :
  is_ok r = true <-> exists a, r = Ok a.
Proof.
  destruct r as [a|e]; cbn [is_ok]; split; try discriminate.
  - intros _. now exists a.
  - reflexivity.
  - intros [a H]. discriminate.
Qed.

Lemma paragraphs_ok (items : list value) :
  is_ok (paragraphs items) = forallb element_ok items.
Proof.
  induction items as [|p rest IH]; [reflexivity|].
  cbn [paragraphs forallb]. unfold element_ok at 1.
  destruct (String.eqb (Py.strip (str p)) "").
  - now rewrite orb_true_r.
  - rewrite orb_false_r, !is_ok_bind.
    destruct p; cbn [strip is_str]; try reflexivity.
    rewrite <- IH. destruct (paragraphs rest); reflexivity.
Qed.

Lemma paragraphs_one (s : string) : is_ok (paragraphs [VStr s]) = true.
Proof. rewrite paragraphs_ok. reflexivity. Qed.

Lemma to_paragraphs_ok (body : value) :
  is_ok (to_paragraphs body) = body_ok body.
Proof.
  unfold to_paragraphs.
  destruct body; cbn [body_ok]; try reflexivity; rewrite is_ok_bind;
    try (match goal with
         | |- context [paragraphs [VStr ?s]] =>
             pose proof (paragraphs_one s) as H;
             destruct (paragraphs [VStr s]); [reflexivity | discriminate H]
         end).
  rewrite <- paragraphs_ok. destruct (paragraphs items); reflexivity.
Qed.

Lemma render_section_ok (sec : value) :
  is_ok (render_section sec) = section_ok sec.
Proof.
  unfold render_section.
  destruct sec; try reflexivity.
  cbn [get bind section_ok]. fold (field "body" VNone entries).
  rewrite is_ok_bind, <- to_paragraphs_ok.
  destruct (to_paragraphs _); reflexivity.
Qed.

Lemma render_each_ok (secs : list value) :
  is_ok (render_each secs) = forallb section_ok secs.
Proof.
  induction secs as [|sec rest IH]; [reflexivity|].
  cbn [render_each forallb]. rewrite is_ok_bind, <- render_section_ok, <- IH.
  destruct (render_section sec); [|reflexivity].
  rewrite is_ok_bind. destruct (render_each rest); reflexivity.
Qed.

Lemma render_sections_ok (entries : list (string * value)) :
  is_ok (render_sections (VDict entries))
  = sections_ok (field "sections" (VList []) entries).
Proof.
  unfold render_sections, sections_ok. cbn [get bind].
  fold (field "sections" (VList []) entries).
  rewrite is_ok_bind. destruct (iter _) as [secs|e]; [|reflexivity].
  rewrite is_ok_bind, <- render_each_ok. destruct (render_each secs); reflexivity.
Qed.

Lemma subtitle_line_ok (entries : list (string * value)) :
  is_ok (subtitle_line (VDict entries)) = true.
Proof.
  destruct (subtitle_line_dict entries) as [out ->]. reflexivity.
Qed.

Lemma acs_badge_ok (label : string) (value : value) :
  is_ok (acs_badge label value) = is_str value.
Proof.
  destruct value; try reflexivity.
  destruct (acs_badge_str label s) as [out ->]. reflexivity.
Qed.

Lemma render_classic_header_ok (entries : list (string * value)) :
  is_ok (render_classic_header (VDict entries))
  = is_dict (field "classic" (VDict []) entries).
Proof.
  unfold render_classic_header. cbn [get bind].
  fold (field "classic" (VDict []) entries).
  destruct (field "classic" (VDict []) entries); try reflexivity.
  cbn [get bind is_dict].
  destruct (subtitle_line_dict entries) as [out ->]. reflexivity.
Qed.

Lemma render_footer_ok (entries : list (string * value)) :
  is_ok (render_footer (VDict entries))
  = is_dict (field "footer" (VDict []) entries).
Proof.
  unfold render_footer. cbn [get bind].
  fold (field "footer" (VDict []) entries).
  destruct (field "footer" (VDict []) entries); reflexivity.
Qed.

Lemma render_acs_header_ok (entries : list (string * value)) :
  is_ok (render_acs_header (VDict entries))
  = acs_ok (field "acs" (VDict []) entries).
Proof.
  unfold render_acs_header. cbn [get bind].
  fold (field "acs" (VDict []) entries).
  destruct (field "acs" (VDict []) entries) as [| | | | | |acs]; try reflexivity.
  cbn [get bind acs_ok axes forallb].
  destruct (subtitle_line_dict entries) as [out ->]. cbn [bind].
  fold (field "containment_class" (VStr "euclid") acs).
  fold (field "secondary_class" (VStr "none") acs).
  fold (field "disruption_class" (VStr "none") acs).
  fold (field "risk_class" (VStr "notice") acs).
  rewrite andb_true_r.
  repeat (rewrite is_ok_bind;
          match goal with
          | |- context [acs_badge ?l ?v] =>
              rewrite <- (acs_badge_ok l v); destruct (acs_badge l v);
              cbn [is_ok andb]; [|reflexivity]
          end).
  reflexivity.
Qed.

Lemma build_html_ok (data : value) : is_ok (build_html data) = renderable data.
Proof.
  destruct data as [| | | | | |entries]; try reflexivity.
  unfold build_html, header_of, renderable, acs_mode. cbn [get bind].
  fold (field "header_mode" VNone entries).
  rewrite <- render_acs_header_ok, <- render_classic_header_ok,
    <- render_sections_ok, <- render_footer_ok.
  destruct (eq_str (field "header_mode" VNone entries) "acs").
  - rewrite is_ok_bind. destruct (render_acs_header _); [|reflexivity].
    rewrite is_ok_bind. destruct (render_sections _); [|reflexivity].
    rewrite is_ok_bind. destruct (render_footer _); reflexivity.
  - rewrite is_ok_bind. destruct (render_classic_header _); [|reflexivity].
    rewrite is_ok_bind. destruct (render_sections _); [|reflexivity].
    rewrite is_ok_bind. destruct (render_footer _); reflexivity.
Qed.

(** What a render raises. *)
Definition attribute_only {A : Type} (r : result A) : Prop :=
  forall e, r = Raise e -> e = AttributeError.

Lemma attribute_only_Ok {A : Type} (a : A) : attribute_only (Ok a).
Proof. intros e H. discriminate. Qed.

Lemma attribute_only_bind {A B : Type} (m : result A) (k : A -> result B) :
  attribute_only m -> (forall a, attribute_only (k a)) ->
  attribute_only (bind m k).
Proof.
  intros Hm Hk e. destruct m as [a|e']; cbn [bind].
  - apply Hk.
  - intros H. apply Hm. congruence.
Qed.

Lemma attribute_only_get (d : value) (k : string) (default : value) :
  attribute_only (get d k default).
Proof. intros e. destruct d; cbn [get]; congruence. Qed.

Lemma attribute_only_strip (p : value) : attribute_only (strip p).
Proof. intros e. destruct p; cbn [strip]; congruence. Qed.

Lemma attribute_only_lower (p : value) : attribute_only (lower p).
Proof. intros e. destruct p; cbn [lower]; congruence. Qed.

Ltac attribute_only :=
  repeat first
    [ apply attribute_only_Ok
    | apply attribute_only_get
    | apply attribute_only_strip
    | apply attribute_only_lower
    | assumption
    | apply attribute_only_bind; [|intros ?]
    | match goal with
      | |- attribute_only (if ?b then _ else _) => destruct b
      | |- attribute_only (match ?x with _ => _ end) => destruct x
      end ].

Lemma paragraphs_raises (items : list value) : attribute_only (paragraphs items).
Proof.
  induction items as [|p rest IH]; cbn [paragraphs]; attribute_only.
Qed.

Lemma to_paragraphs_raises_only (body : value) : attribute_only (to_paragraphs body).
Proof.
  unfold to_paragraphs.
  destruct body; try apply attribute_only_Ok;
    (apply attribute_only_bind; [apply paragraphs_raises | intros ?; attribute_only]).
Qed.

Lemma render_section_raises (sec : value) : attribute_only (render_section sec).
Proof.
  unfold render_section. pose proof to_paragraphs_raises_only.
  repeat (apply attribute_only_bind; [first [apply attribute_only_get | auto]|intros ?]).
  attribute_only.
Qed.

Lemma render_each_raises (secs : list value) : attribute_only (render_each secs).
Proof.
  induction secs as [|sec rest IH]; cbn [render_each]; [attribute_only|].
  pose proof (render_section_raises sec). attribute_only.
Qed.

Lemma subtitle_line_raises (data : value) : attribute_only (subtitle_line data).
Proof.
  destruct data; try (intros e; cbn; congruence).
  destruct (subtitle_line_dict entries) as [out ->]. attribute_only.
Qed.

Lemma acs_badge_raises (label : string) (value : value) :
  attribute_only (acs_badge label value).
Proof. unfold acs_badge, acs_icon_url. attribute_only. Qed.

Lemma render_classic_header_raises (data : value) :
  attribute_only (render_classic_header data).
Proof.
  unfold render_classic_header. pose proof (subtitle_line_raises data).
  attribute_only.
Qed.

Lemma render_acs_header_raises (data : value) :
  attribute_only (render_acs_header data).
Proof.
  unfold render_acs_header. pose proof (subtitle_line_raises data).
  pose proof acs_badge_raises.
  repeat (apply attribute_only_bind;
          [first [apply attribute_only_get | assumption | auto]|intros ?]).
  attribute_only.
Qed.

Lemma render_footer_raises (data : value) : attribute_only (render_footer data).
Proof. unfold render_footer. attribute_only. Qed.

Lemma body_ok_false (body : value) :
  body_ok body = false <->
  exists items p,
    body = VList items /\ In p items /\ is_str p = false
    /\ String.eqb (Py.strip (str p)) "" = false.
Proof.
  split.
  - destruct body; try discriminate. cbn [body_ok]. intros H.
    assert (Hex : existsb (fun p => negb (element_ok p)) items = true).
    { clear -H. induction items as [|p rest IH]; [discriminate|].
      cbn [forallb existsb] in *. destruct (element_ok p); cbn [negb orb andb] in *;
        [now apply IH | reflexivity]. }
    apply existsb_exists in Hex as (p & Hin & Hp).
    exists items, p. unfold element_ok in Hp.
    apply negb_true_iff, orb_false_elim in Hp as [H1 H2]. auto.
  - intros (items & p & -> & Hin & H1 & H2). cbn [body_ok].
    destruct (forallb element_ok items) eqn:E; [|reflexivity].
    rewrite forallb_forall in E. specialize (E p Hin).
    unfold element_ok in E. rewrite H1, H2 in E. discriminate.
Qed.

(** Every exception of the page is an AttributeError, but the TypeError of
    sections that cannot be iterated. *)
Lemma build_html_raises_only (data : value) (e : exn) :
  build_html data = Raise e ->
  e = AttributeError
  \/ (e = TypeError
      /\ exists entries,
           data = VDict entries
           /\ is_ok (iter (field "sections" (VList []) entries)) = false).
Proof.
  unfold build_html. intros H.
  destruct (header_of data) as [header|e'] eqn:Eh; cbn [bind] in H.
  2:{ left. injection H as <-. unfold header_of in Eh.
      destruct (get data "header_mode" VNone) as [mode|e''] eqn:Em;
        cbn [bind] in Eh.
      - destruct (eq_str mode "acs");
          [exact (render_acs_header_raises _ _ Eh)
          | exact (render_classic_header_raises _ _ Eh)].
      - injection Eh as <-. exact (attribute_only_get _ _ _ _ Em). }
  destruct data as [| | | | | |entries]; try discriminate Eh.
  cbn [get bind] in H.
  destruct (render_sections (VDict entries)) as [sections|e'] eqn:Es;
    cbn [bind] in H.
  2:{ injection H as <-. unfold render_sections in Es. cbn [get bind] in Es.
      fold (field "sections" (VList []) entries) in Es.
      destruct (iter (field "sections" (VList []) entries)) as [secs|e''] eqn:Ei;
        cbn [bind] in Es.
      - left. destruct (render_each secs) as [out|e''] eqn:Ee; cbn [bind] in Es;
          [discriminate|].
        injection Es as <-. exact (render_each_raises _ _ Ee).
      - right. injection Es as <-. split.
        + destruct (field "sections" (VList []) entries); cbn [iter] in Ei;
            congruence.
        + exists entries. now rewrite Ei. }
  destruct (render_footer (VDict entries)) as [footer|e'] eqn:Ef;
    cbn [bind] in H; [discriminate|].
  left. injection H as <-. exact (render_footer_raises _ _ Ef).
Qed.

(** C2, as the code has it.  [build_html] returns a string for every record
    of the accepted shape: a dict whose sub-record for the selected header
    and whose footer are missing or dicts, whose axis values are missing or
    strings, and whose sections are missing or a list of dicts, the body of
    each missing, or a list of strings, or any value that is not a list.
    Every key may be missing, and the sub-record of the header that is not
    selected may be anything.  When the sub-record of the selected header is
    there and is not a dict, the render raises AttributeError.  When the
    footer is there and is not a dict, the render raises too: AttributeError,
    or the TypeError of sections that cannot be iterated. *)
Theorem build_html_returns :
  (forall data : value,
      well_shaped data = true -> exists out, build_html data = Ok out)
  /\ (forall (entries : list (string * value)) (v : value),
        lookup (if acs_mode entries then "acs" else "classic") entries = Some v ->
        is_dict v = false ->
        build_html (VDict entries) = Raise AttributeError)
  /\ (forall (entries : list (string * value)) (v : value),
        lookup "footer" entries = Some v ->
        is_dict v = false ->
        exists e,
          build_html (VDict entries) = Raise e
          /\ (e = AttributeError
              \/ (e = TypeError
                  /\ is_ok (iter (field "sections" (VList []) entries)) = false))).
Proof.
  split; [|split].
  - intros data.
    destruct data as [| | | | | |entries]; try discriminate.
    cbn [well_shaped]. intros H.
    apply andb_prop in H as [H Hfooter]. apply andb_prop in H as [Hheader Hsections].
    destruct (render_sections_shaped _ Hsections) as [sections Hs].
    destruct (render_footer_shaped _ Hfooter) as [footer Hf].
    unfold build_html, header_of. rewrite !get_dict. cbn [bind].
    destruct (eq_str _ "acs").
    + destruct (render_acs_header_shaped _ Hheader) as [header ->].
      cbn [bind]. rewrite Hs, Hf. now eexists.
    + destruct (render_classic_header_shaped _ Hheader) as [header ->].
      cbn [bind]. rewrite Hs, Hf. now eexists.
  - intros entries v Hv Hd. unfold acs_mode, field in Hv.
    unfold build_html, header_of. cbn [get bind].
    destruct (eq_str _ "acs").
    + unfold render_acs_header. cbn [get bind]. rewrite Hv.
      destruct v; try discriminate Hd; reflexivity.
    + unfold render_classic_header. cbn [get bind]. rewrite Hv.
      destruct v; try discriminate Hd; reflexivity.
  - intros entries v Hv Hd.
    destruct (build_html (VDict entries)) as [out|e] eqn:E.
    + pose proof (build_html_ok (VDict entries)) as Hok.
      rewrite E in Hok. cbn [is_ok renderable] in Hok. symmetry in Hok.
      apply andb_prop in Hok as [_ Hfoot].
      unfold field in Hfoot. rewrite Hv in Hfoot. congruence.
    + exists e. split; [reflexivity|].
      destruct (build_html_raises_only _ _ E) as [-> | [-> (entries' & Heq & Hi)]];
        [now left | right].
      split; [reflexivity|]. congruence.
Qed.

Lemma build_html_returns_witness :
  well_shaped hostile_record = true
  /\ (exists out, build_html hostile_record = Ok out)
  /\ (exists out,
        build_html (VDict [("header_mode", VStr "acs"); ("classic", VStr "oops")])
        = Ok out)
  /\ build_html (VDict [("classic", VStr "oops")]) = Raise AttributeError
  /\ (exists e,
        build_html (VDict [("sections", VInt 5); ("footer", VInt 7)]) = Raise e
        /\ (e = AttributeError
            \/ (e = TypeError
                /\ is_ok (iter (field "sections" (VList [])
                                  [("sections", VInt 5); ("footer", VInt 7)]))
                   = false))).
Proof.
  split; [reflexivity|].
  split; [apply (proj1 build_html_returns hostile_record); reflexivity|].
  split; [apply (proj1 build_html_returns); reflexivity|].
  split.
  - apply (proj1 (proj2 build_html_returns) _ (VStr "oops")); reflexivity.
  - apply (proj2 (proj2 build_html_returns) _ (VInt 7)); reflexivity.
Defined.

(** The sections are rendered before the footer, and the header that is not
    selected is not rendered at all. *)
Example sections_before_footer :
  build_html (VDict [("sections", VInt 5); ("footer", VInt 7)]) = Raise TypeError
  /\ is_ok (build_html (VDict [("acs", VInt 1)])) = true
  /\ is_ok (build_html (VDict [("header_mode", VStr "acs"); ("classic", VStr "oops")]))
     = true.
Proof. repeat split; vm_compute; reflexivity. Qed.

(** X1.  [to_paragraphs] raises exactly on a list body that holds an element
    which is not a string and whose string conversion is not blank: the test
    of the generator converts the element, the paragraph calls its strip
    method.  It raises nothing but AttributeError, and returns on every other
    body. *)
Theorem to_paragraphs_raises_iff (body : value) :
  (to_paragraphs body = Raise AttributeError <->
   exists items p,
     body = VList items /\ In p items /\ is_str p = false
     /\ String.eqb (Py.strip (str p)) "" = false)
  /\ ((exists out, to_paragraphs body = Ok out)
      \/ to_paragraphs body = Raise AttributeError).
Proof.
  pose proof (to_paragraphs_ok body) as Hok.
  pose proof (to_paragraphs_raises_only body) as Hraise.
  rewrite <- body_ok_false, <- Hok. split.
  - destruct (to_paragraphs body) as [out|e]; cbn [is_ok]; split;
      try discriminate; try reflexivity.
    intros _. now rewrite (Hraise e eq_refl).
  - destruct (to_paragraphs body) as [out|e]; [left; now exists out|].
    right. now rewrite (Hraise e eq_refl).
Qed.

Lemma to_paragraphs_raises_iff_witness :
  to_paragraphs (VList [VStr "one"; VInt 2; VStr "three"]) = Raise AttributeError
  /\ exists out, to_paragraphs (VList [VStr "one"; VFloat " "; VStr "three"]) = Ok out.
Proof.
  split.
  - apply (proj1 (to_paragraphs_raises_iff _)).
    exists [VStr "one"; VInt 2; VStr "three"], (VInt 2).
    repeat split. cbn [In]. auto.
  - destruct (proj2 (to_paragraphs_raises_iff
                       (VList [VStr "one"; VFloat " "; VStr "three"])))
      as [H|H]; [exact H | discriminate H].
Defined.

(** X2.  [build_html] returns exactly on the records that are dicts, whose
    sub-record for the selected header is a dict (or missing), with axis
    values that are strings in the ACS case, whose footer is a dict (or
    missing), and whose sections can be iterated and are dicts with a body
    [to_paragraphs] returns on.  Otherwise it raises AttributeError, or
    TypeError when the value of sections cannot be iterated; it never
    raises KeyError. *)
Theorem build_html_returns_iff (data : value) :
  ((exists out, build_html data = Ok out) <-> renderable data = true)
  /\ (forall e, build_html data = Raise e ->
        e = AttributeError
        \/ (e = TypeError
            /\ exists entries,
                 data = VDict entries
                 /\ is_ok (iter (field "sections" (VList []) entries)) = false)).
Proof.
  split.
  - rewrite <- build_html_ok. symmetry. apply is_ok_true.
  - exact (build_html_raises_only data).
Qed.

Lemma build_html_returns_iff_witness :
  (exists out, build_html no_axes = Ok out)
  /\ renderable body_with_a_number = false
  /\ renderable (VDict [("sections", VDict []); ("acs", VInt 1)]) = true.
Proof.
  split; [|split; reflexivity].
  apply (proj2 (proj1 (build_html_returns_iff no_axes))). reflexivity.
Defined.

(** ** What a render reads *)

Lemma subtitle_line_reads (entries entries' : list (string * value)) :
  lookup "subtitle" entries = lookup "subtitle" entries' ->
  subtitle_line (VDict entries) = subtitle_line (VDict entries').
Proof. intros H. unfold subtitle_line. cbn [get getitem]. now rewrite H. Qed.

Lemma render_sections_reads (entries entries' : list (string * value)) :
  lookup "sections" entries = lookup "sections" entries' ->
  render_sections (VDict entries) = render_sections (VDict entries').
Proof. intros H. unfold render_sections. cbn [get]. now rewrite H. Qed.

Lemma render_footer_reads (entries entries' : list (string * value)) :
  lookup "footer" entries = lookup "footer" entries' ->
  lookup "title" entries = lookup "title" entries' ->
  render_footer (VDict entries) = render_footer (VDict entries').
Proof. intros H1 H2. unfold render_footer. cbn [get]. now rewrite H1, H2. Qed.

Lemma render_classic_header_reads (entries entries' : list (string * value)) :
  lookup "classic" entries = lookup "classic" entries' ->
  lookup "title" entries = lookup "title" entries' ->
  lookup "subtitle" entries = lookup "subtitle" entries' ->
  render_classic_header (VDict entries) = render_classic_header (VDict entries').
Proof.
  intros H1 H2 H3. unfold render_classic_header.
  rewrite (subtitle_line_reads _ _ H3). cbn [get]. now rewrite H1, H2.
Qed.

Lemma render_acs_header_reads (entries entries' : list (string * value)) :
  lookup "acs" entries = lookup "acs" entries' ->
  lookup "title" entries = lookup "title" entries' ->
  lookup "subtitle" entries = lookup "subtitle" entries' ->
  render_acs_header (VDict entries) = render_acs_header (VDict entries').
Proof.
  intros H1 H2 H3. unfold render_acs_header.
  rewrite (subtitle_line_reads _ _ H3). cbn [get]. now rewrite H1, H2.
Qed.

(** X3.  The page is a function of the values of six keys of the record:
    header_mode, title, subtitle, sections, footer, and acs or classic,
    whichever the header mode selects.  Two records that agree on them render
    alike, returning the same page or raising the same exception: other keys
    are ignored, and so is the sub-record of the header that is not
    selected, whatever its shape. *)
Theorem build_html_reads (entries entries' : list (string * value)) :
  (forall k, In k (keys_read entries) -> lookup k entries = lookup k entries') ->
  build_html (VDict entries) = build_html (VDict entries').
Proof.
  intros H. unfold keys_read in H.
  assert (Hmode : lookup "header_mode" entries = lookup "header_mode" entries')
    by (apply H; cbn [In]; auto).
  assert (Htitle : lookup "title" entries = lookup "title" entries')
    by (apply H; cbn [In]; auto).
  assert (Hsub : lookup "subtitle" entries = lookup "subtitle" entries')
    by (apply H; cbn [In]; auto).
  assert (Hsec : lookup "sections" entries = lookup "sections" entries')
    by (apply H; cbn [In]; auto).
  assert (Hfoot : lookup "footer" entries = lookup "footer" entries')
    by (apply H; cbn [In]; auto 6).
  assert (Hhead : lookup (if acs_mode entries then "acs" else "classic") entries
                  = lookup (if acs_mode entries then "acs" else "classic") entries')
    by (apply H; cbn [In]; auto 7).
  unfold build_html, header_of.
  rewrite (render_sections_reads _ _ Hsec), (render_footer_reads _ _ Hfoot Htitle).
  unfold acs_mode, field in Hhead. cbn [get bind]. rewrite <- Hmode, <- Htitle.
  destruct (eq_str _ "acs").
  - now rewrite (render_acs_header_reads _ _ Hhead Htitle Hsub).
  - now rewrite (render_classic_header_reads _ _ Hhead Htitle Hsub).
Qed.

Lemma build_html_reads_witness :
  build_html (VDict [("title", VStr "SCP-173"); ("author", VStr "nobody");
                     ("acs", VStr "not a dict")])
  = build_html (VDict [("title", VStr "SCP-173")]).
Proof.
  apply build_html_reads. intros k Hk. cbn in Hk.
  repeat (destruct Hk as [<-|Hk]; [reflexivity|]). destruct Hk.
Defined.

(** ** The blocks of the page *)

(** Markup of the page is counted in its three parts. *)
Lemma build_html_count (m : string) (data : value) (out : string) :
  markup_head m = true ->
  forallb (tight m) template_text = true ->
  build_html data = Ok out ->
  exists (title : value) (header sections footer : list piece),
    Trace.header_of data = Ok header
    /\ Trace.render_sections data = Ok sections
    /\ Trace.render_footer data = Ok footer
    /\ occurrences m out
       = lit_occurrences m (Trace.page_before title)
         + lit_occurrences m header
         + lit_occurrences m (Trace.page_after sections footer).
Proof.
  intros Hm Ht Hout. pose proof Hout as Hb. rewrite build_html_trace in Hb.
  destruct (Trace.build_html data) as [ps|e] eqn:E; [|discriminate].
  apply (f_equal text_of) in Hb. cbn [fmap text_of] in Hb. rewrite <- Hb.
  rewrite (occurrences_flatten m template_text _ Hm Ht (build_html_drawn _ _ E)).
  unfold Trace.build_html in E.
  destruct (Trace.header_of data) as [header|e]; [|discriminate].
  cbn [bind] in E.
  destruct (get data "title" (VStr "SCP Document")) as [title|e]; [|discriminate].
  destruct (Trace.render_sections data) as [sections|e]; [|discriminate].
  destruct (Trace.render_footer data) as [footer|e]; [|discriminate].
  cbn [bind] in E.
  assert (Hps : ps = (Trace.page_before title ++ header
                      ++ Trace.page_after sections footer)%list) by congruence.
  exists title, header, sections, footer.
  rewrite Hps, !lit_occurrences_app. repeat split. lia.
Qed.

Lemma header_of_cases (data : value) (ps : list piece) :
  Trace.header_of data = Ok ps ->
  Trace.render_acs_header data = Ok ps \/ Trace.render_classic_header data = Ok ps.
Proof.
  unfold Trace.header_of. intros H.
  destruct (get data "header_mode" VNone) as [mode|e]; [|discriminate].
  cbn [bind] in H. destruct (eq_str mode "acs"); auto.
Qed.

Lemma subtitle_line_count (entries : list (string * value)) (ps : list piece) :
  Trace.subtitle_line (VDict entries) = Ok ps ->
  lit_occurrences subtitle_marker ps
  = if truthy (field "subtitle" VNone entries) then 1 else 0.
Proof.
  unfold Trace.subtitle_line. cbn [get bind].
  fold (field "subtitle" VNone entries).
  destruct (truthy (field "subtitle" VNone entries)).
  - destruct (getitem (VDict entries) "subtitle"); [|discriminate].
    cbn [bind]. intros H. injection H as <-. reflexivity.
  - intros H. injection H as <-. reflexivity.
Qed.

Lemma header_subtitle_count (entries : list (string * value)) (ps : list piece) :
  Trace.header_of (VDict entries) = Ok ps ->
  lit_occurrences subtitle_marker ps
  = if truthy (field "subtitle" VNone entries) then 1 else 0.
Proof.
  intros H. apply header_of_cases in H as [H|H].
  - unfold Trace.render_acs_header in H. run H.
    unfold Trace.acs_before, Trace.acs_after. split_count.
    repeat match goal with
           | H : Trace.acs_badge _ _ = Ok ?ps |- context [lit_occurrences ?m ?ps] =>
               rewrite (acs_badge_free m _ _ _ eq_refl H)
           | |- context [lit_occurrences ?m (Trace.memo_markup ?u)] =>
               rewrite (memo_markup_free m u eq_refl)
           | H : Trace.subtitle_line _ = Ok ?ps |- context [lit_occurrences _ ?ps] =>
               rewrite (subtitle_line_count _ _ H)
           end.
    cbn. lia.
  - unfold Trace.render_classic_header in H. run H. split_count.
    match goal with
    | H : Trace.subtitle_line _ = Ok ?ps |- context [lit_occurrences _ ?ps] =>
        rewrite (subtitle_line_count _ _ H)
    end.
    cbn. lia.
Qed.

(** X4.  In either header mode the page holds the subtitle block once when
    the subtitle of the record is true (a string that is not empty, say), and
    not at all when the key is missing or its value is false (empty, null,
    zero): no data can add or remove one. *)
Theorem subtitle_block (entries : list (string * value)) (out : string) :
  build_html (VDict entries) = Ok out ->
  occurrences subtitle_marker out
  = if truthy (field "subtitle" VNone entries) then 1 else 0.
Proof.
  intros Hout.
  destruct (build_html_count subtitle_marker _ _ eq_refl ltac:(vm_compute; reflexivity) Hout)
    as (title & header & sections & footer & Hh & Hs & Hf & ->).
  destruct (page_marks subtitle_marker title _ _ _ eq_refl Hs Hf) as [-> ->].
  rewrite (header_subtitle_count _ _ Hh). lia.
Qed.

Lemma subtitle_block_witness :
  occurrences subtitle_marker (text_of (build_html hostile_record)) = 1
  /\ occurrences subtitle_marker
       (text_of (build_html (VDict [("subtitle", VStr "")]))) = 0.
Proof.
  split.
  - apply (subtitle_block
             [("title", VStr "<script>alert('x')</script>");
              ("subtitle", VStr (Py.lit "`><img src=x onerror=alert(1)>"));
              ("header_mode", VStr "acs");
              ("acs", VDict [("item_number", VStr "A&B");
                             ("clearance_label", VStr "<b>O5</b>");
                             ("memo_url",
                              VStr "x' --><script>alert(2)</script><!--");
                             ("containment_class", VStr "Keter")]);
              ("sections", VList [VDict [("heading", VStr "<h1>");
                                         ("kind", VStr "log");
                                         ("body", VList [VStr "1 < 2 && 3 > 2"])]]);
              ("footer", VDict [("left", VStr "'")])]).
    vm_compute. reflexivity.
  - apply (subtitle_block [("subtitle", VStr "")]). vm_compute. reflexivity.
Defined.

Lemma lit_occurrences_join (m : string) (ls : list (list piece)) :
  occurrences m Chunk.nl = 0 ->
  lit_occurrences m (join_pieces Chunk.nl ls)
  = list_sum (map (lit_occurrences m) ls).
Proof.
  intros Hnl. induction ls as [|x [|y ls] IH]; [reflexivity| |].
  - unfold list_sum. cbn [join_pieces map fold_right]. lia.
  - change (join_pieces Chunk.nl (x :: y :: ls))
      with (x ++ Lit Chunk.nl :: join_pieces Chunk.nl (y :: ls))%list.
    rewrite lit_occurrences_app, (lit_occurrences_cons _ (Lit Chunk.nl)), IH, Hnl.
    unfold list_sum. cbn [map fold_right]. lia.
Qed.

Lemma to_paragraphs_free (m : string) (body : value) (ps : list piece) :
  free_of m paragraph_text = true ->
  Trace.to_paragraphs body = Ok ps -> lit_occurrences m ps = 0.
Proof.
  intros Hm H. exact (lit_occurrences_free _ _ _ Hm (to_paragraphs_drawn _ _ H)).
Qed.

(** Each section block opens one section and holds one heading. *)
Lemma render_section_count (sec : value) (ps : list piece) :
  Trace.render_section sec = Ok ps ->
  lit_occurrences section_marker ps = 1 /\ lit_occurrences heading_marker ps = 1.
Proof.
  unfold Trace.render_section. intros H. run H.
  split; split_count;
    match goal with
    | H : Trace.to_paragraphs _ = Ok ?ps |- context [lit_occurrences ?m ?ps] =>
        rewrite (to_paragraphs_free m _ _ eq_refl H)
    end;
    destruct (eq_str _ "log"); reflexivity.
Qed.

Lemma render_each_count (secs : list value) (blocks : list (list piece)) :
  Trace.render_each secs = Ok blocks ->
  list_sum (map (lit_occurrences section_marker) blocks) = length secs
  /\ list_sum (map (lit_occurrences heading_marker) blocks) = length secs.
Proof.
  revert blocks. induction secs as [|sec rest IH]; intros blocks H.
  - injection H as <-. split; reflexivity.
  - cbn [Trace.render_each] in H. run H.
    destruct (render_section_count _ _ E) as [H1 H2].
    destruct (IH _ eq_refl) as [H3 H4].
    unfold list_sum in *. cbn [map fold_right length].
    rewrite H1, H2, H3, H4. split; reflexivity.
Qed.

Lemma render_sections_count (entries : list (string * value))
    (secs : list value) (ps : list piece) :
  iter (field "sections" (VList []) entries) = Ok secs ->
  Trace.render_sections (VDict entries) = Ok ps ->
  lit_occurrences section_marker ps = length secs
  /\ lit_occurrences heading_marker ps = length secs.
Proof.
  unfold Trace.render_sections. cbn [get bind].
  fold (field "sections" (VList []) entries). intros ->. cbn [bind].
  intros H. run H.
  rewrite !lit_occurrences_join by reflexivity.
  exact (render_each_count _ _ E).
Qed.

Lemma header_section_count (data : value) (ps : list piece) :
  Trace.header_of data = Ok ps ->
  lit_occurrences section_marker ps = 1 /\ lit_occurrences heading_marker ps = 0
  /\ lit_occurrences footer_marker ps = 0.
Proof.
  intros H. apply header_of_cases in H as [H|H].
  - split; [|split;
             apply (lit_occurrences_free _ acs_text);
             solve [vm_compute; reflexivity
                   | exact (render_acs_header_drawn _ _ H)]].
    unfold Trace.render_acs_header in H. run H.
    unfold Trace.acs_before, Trace.acs_after. split_count.
    repeat match goal with
           | H : Trace.acs_badge _ _ = Ok ?ps |- context [lit_occurrences ?m ?ps] =>
               rewrite (acs_badge_free m _ _ _ eq_refl H)
           | |- context [lit_occurrences ?m (Trace.memo_markup ?u)] =>
               rewrite (memo_markup_free m u eq_refl)
           | H : Trace.subtitle_line _ = Ok ?ps |- context [lit_occurrences ?m ?ps] =>
               rewrite (subtitle_line_free m _ _ eq_refl H)
           end.
    reflexivity.
  - split; [|split;
             apply (lit_occurrences_free _ classic_text);
             solve [vm_compute; reflexivity
                   | exact (render_classic_header_drawn _ _ H)]].
    unfold Trace.render_classic_header in H. run H. split_count.
    match goal with
    | H : Trace.subtitle_line _ = Ok ?ps |- context [lit_occurrences ?m ?ps] =>
        rewrite (subtitle_line_free m _ _ eq_refl H)
    end.
    reflexivity.
Qed.

(** X5.  The page holds one section element for the header and one for each
    section of the record, one heading for each section, and one footer: the
    number of blocks is that of the record, whatever text the fields
    hold. *)
Theorem page_blocks (entries : list (string * value)) (secs : list value)
    (out : string) :
  iter (field "sections" (VList []) entries) = Ok secs ->
  build_html (VDict entries) = Ok out ->
  occurrences section_marker out = 1 + length secs
  /\ occurrences heading_marker out = length secs
  /\ occurrences footer_marker out = 1.
Proof.
  intros Hsecs Hout.
  destruct (build_html_count section_marker _ _ eq_refl
              ltac:(vm_compute; reflexivity) Hout)
    as (title & header & sections & footer & Hh & Hs & Hf & ->).
  destruct (build_html_count heading_marker _ _ eq_refl
              ltac:(vm_compute; reflexivity) Hout)
    as (title2 & header2 & sections2 & footer2 & Hh2 & Hs2 & Hf2 & ->).
  destruct (build_html_count footer_marker _ _ eq_refl
              ltac:(vm_compute; reflexivity) Hout)
    as (title3 & header3 & sections3 & footer3 & Hh3 & Hs3 & Hf3 & ->).
  assert (header2 = header) by congruence.
  assert (header3 = header) by congruence.
  assert (sections2 = sections) by congruence.
  assert (sections3 = sections) by congruence.
  assert (footer2 = footer) by congruence.
  assert (footer3 = footer) by congruence. subst.
  destruct (header_section_count _ _ Hh) as (-> & -> & ->).
  destruct (render_sections_count _ _ _ Hsecs Hs) as [Hc1 Hc2].
  pose proof (lit_occurrences_free section_marker footer_text _ eq_refl
                (render_footer_drawn _ _ Hf)) as Hf1.
  pose proof (lit_occurrences_free heading_marker footer_text _ eq_refl
                (render_footer_drawn _ _ Hf)) as Hf2'.
  pose proof (lit_occurrences_free footer_marker section_text _ eq_refl
                (render_sections_drawn _ _ Hs)) as Hs3'.
  assert (Hfc : lit_occurrences footer_marker footer = 1).
  { unfold Trace.render_footer in Hf. run Hf. reflexivity. }
  unfold Trace.page_after, Trace.page_before. split_count.
  rewrite Hc1, Hc2, Hf1, Hf2', Hs3', Hfc. cbn. repeat split; lia.
Qed.

Lemma page_blocks_witness :
  occurrences section_marker (text_of (build_html scp_999)) = 2
  /\ occurrences heading_marker (text_of (build_html scp_999)) = 1
  /\ occurrences footer_marker (text_of (build_html scp_999)) = 1.
Proof.
  apply (page_blocks
           [("title", VStr "SCP-999"); ("header_mode", VStr "acs");
            ("acs", VDict [("clearance_level", VInt 3);
                           ("clearance_label", VStr "Site Director")]);
            ("sections",
             VList [VDict [("heading", VStr "Description");
                           ("body", VList [VStr "Line one."; VStr ""; VStr " ";
                                           VStr "Line two."])]])]
           [VDict [("heading", VStr "Description");
                   ("body", VList [VStr "Line one."; VStr ""; VStr " ";
                                   VStr "Line two."])]]);
    [reflexivity | vm_compute; reflexivity].
Defined.

(** ** Log sections *)

Lemma differ_append (m t r : string) :
  differ m t = true -> differ m (t ++ r) = true.
Proof.
  revert t. induction m as [|a m IH]; intros t H; [discriminate|].
  destruct t as [|b t]; [discriminate|]. cbn [append differ] in *.
  destruct (Ascii.eqb a b); cbn [negb orb] in *; [now apply IH | reflexivity].
Qed.

Lemma tight_append (m a b : string) :
  tight m a = true -> tight m b = true -> tight m (a ++ b) = true.
Proof.
  intros Ha Hb. induction a as [|c a IH]; [exact Hb|].
  cbn [tight] in Ha. apply andb_prop in Ha as [Hc Ha].
  change (String c a ++ b) with (String c (a ++ b)). cbn [tight].
  rewrite (IH Ha), andb_true_r.
  change (String c (a ++ b)) with (String c a ++ b).
  apply orb_prop in Hc as [Hc|Hc].
  - now rewrite (startswith_append _ _ _ Hc).
  - now rewrite (differ_append _ _ _ Hc), orb_true_r.
Qed.

Lemma tight_flatten (m : string) (chunks : list string) (ps : list piece) :
  markup_head m = true ->
  forallb (tight m) chunks = true ->
  forallb (drawn_from chunks) ps = true ->
  tight m (flatten ps) = true.
Proof.
  intros Hm Ht. induction ps as [|p ps IH]; intros Hps; [reflexivity|].
  cbn [forallb] in Hps. apply andb_prop in Hps as [Hp Hps].
  rewrite flatten_cons. apply tight_append; [|exact (IH Hps)].
  destruct p as [s|s]; cbn [text].
  - cbn [drawn_from] in Hp. apply existsb_eqb_In in Hp.
    rewrite forallb_forall in Ht. now apply Ht.
  - destruct m as [|c m]; [discriminate|].
    apply absent_char_tight, (html_escape_no_markup c m). exact Hm.
Qed.

(** The block of a section, by its fields. *)
Lemma render_section_fields (entries : list (string * value)) (body : string) :
  to_paragraphs (field "body" VNone entries) = Ok body ->
  render_section (VDict entries)
  = Ok (Chunk.section_open
        ++ (if eq_str (field "kind" VNone entries) "log"
            then Chunk.section_log else Chunk.section_plain)
        ++ Chunk.section_heading
        ++ esc (field "heading" (VStr "Section") entries)
        ++ Chunk.section_body ++ body ++ Chunk.section_close).
Proof.
  intros Hbody. unfold render_section. cbn [get bind]. unfold field in *.
  rewrite Hbody. cbn [bind].
  destruct (eq_str _ "log"); chunks.
Qed.

Lemma to_paragraphs_log_free (body : value) (out : string) :
  to_paragraphs body = Ok out ->
  tight log_marker out = true /\ occurrences log_marker out = 0.
Proof.
  rewrite to_paragraphs_trace.
  destruct (Trace.to_paragraphs body) as [ps|e] eqn:E; [|discriminate].
  intros H. apply (f_equal text_of) in H. cbn [fmap text_of] in H. rewrite <- H.
  pose proof (to_paragraphs_drawn _ _ E) as Hd. split.
  - now apply (tight_flatten _ paragraph_text).
  - rewrite (occurrences_flatten _ paragraph_text) by (assumption || reflexivity).
    now apply (lit_occurrences_free _ paragraph_text).
Qed.

Lemma esc_log_free (v : value) :
  tight log_marker (esc v) = true /\ occurrences log_marker (esc v) = 0.
Proof.
  apply absent_char_tight, (html_escape_no_markup "<" ""). reflexivity.
Qed.

(** One section block: it opens as a log exactly when the kind is log. *)
Lemma render_section_log (sec : value) (block : string) :
  render_section sec = Ok block ->
  tight log_marker block = true
  /\ occurrences log_marker block = if is_log sec then 1 else 0.
Proof.
  intros H. destruct sec as [| | | | | |entries]; try discriminate.
  destruct (to_paragraphs (field "body" VNone entries)) as [body|e] eqn:Eb.
  2:{ unfold render_section in H. cbn [get bind] in H. unfold field in Eb.
      rewrite Eb in H. discriminate. }
  rewrite (render_section_fields _ _ Eb) in H.
  apply (f_equal text_of) in H. cbn [text_of] in H. rewrite <- H.
  destruct (to_paragraphs_log_free _ _ Eb) as [Tb Ob].
  destruct (esc_log_free (field "heading" (VStr "Section") entries)) as [Te Oe].
  cbn [is_log].
  set (cls := if eq_str (field "kind" VNone entries) "log"
              then Chunk.section_log else Chunk.section_plain).
  assert (Hopen : tight log_marker
                    (Chunk.section_open ++ cls ++ Chunk.section_heading) = true)
    by (unfold cls; destruct (eq_str _ "log"); reflexivity).
  replace (Chunk.section_open ++ cls ++ Chunk.section_heading
           ++ esc (field "heading" (VStr "Section") entries)
           ++ Chunk.section_body ++ body ++ Chunk.section_close)
    with ((Chunk.section_open ++ cls ++ Chunk.section_heading)
          ++ esc (field "heading" (VStr "Section") entries)
          ++ Chunk.section_body ++ body ++ Chunk.section_close)
    by (now rewrite !append_assoc).
  split.
  - apply tight_append; [exact Hopen|].
    apply tight_append; [exact Te|].
    apply tight_append; [reflexivity|].
    apply tight_append; [exact Tb | reflexivity].
  - rewrite (tight_occurrences _ _ _ Hopen).
    rewrite (tight_occurrences _ _ _ Te), Oe.
    rewrite (tight_occurrences log_marker Chunk.section_body) by reflexivity.
    rewrite (tight_occurrences _ _ _ Tb), Ob.
    unfold cls. destruct (eq_str _ "log"); reflexivity.
Qed.

Lemma render_each_log (secs : list value) (blocks : list string) :
  render_each secs = Ok blocks ->
  tight log_marker (Py.join Chunk.nl blocks) = true
  /\ occurrences log_marker (Py.join Chunk.nl blocks)
     = length (filter is_log secs).
Proof.
  revert blocks. induction secs as [|sec rest IH]; intros blocks H.
  - injection H as <-. split; reflexivity.
  - cbn [render_each] in H.
    destruct (render_section sec) as [block|e] eqn:Es; [|discriminate].
    destruct (render_each rest) as [more|e] eqn:Er; [|discriminate].
    cbn [bind] in H. injection H as <-.
    destruct (render_section_log _ _ Es) as [Tb Ob].
    destruct (IH _ eq_refl) as [Tm Om].
    assert (Hlen : length (filter is_log (sec :: rest))
                   = (if is_log sec then 1 else 0) + length (filter is_log rest))
      by (cbn [filter]; destruct (is_log sec); reflexivity).
    rewrite Hlen. clear Hlen.
    destruct more as [|b more].
    + change (occurrences log_marker (Py.join Chunk.nl [])) with 0 in Om.
      change (Py.join Chunk.nl [block]) with block.
      split; [exact Tb | lia].
    + change (Py.join Chunk.nl (block :: b :: more))
        with (block ++ Chunk.nl ++ Py.join Chunk.nl (b :: more)).
      split.
      * apply tight_append; [exact Tb|]. apply tight_append; [reflexivity | exact Tm].
      * rewrite (tight_occurrences _ _ _ Tb), Ob.
        rewrite (tight_occurrences log_marker Chunk.nl) by reflexivity.
        rewrite Om. reflexivity.
Qed.

Lemma render_sections_log (entries : list (string * value)) (secs : list value)
    (out : string) :
  iter (field "sections" (VList []) entries) = Ok secs ->
  render_sections (VDict entries) = Ok out ->
  tight log_marker out = true
  /\ occurrences log_marker out = length (filter is_log secs).
Proof.
  unfold render_sections. cbn [get bind].
  fold (field "sections" (VList []) entries). intros ->. cbn [bind].
  destruct (render_each secs) as [blocks|e] eqn:E; [|discriminate].
  cbn [bind]. intros H. injection H as <-. exact (render_each_log _ _ E).
Qed.

Lemma flatten_log_free (chunks : list string) (ps : list piece) :
  forallb (tight log_marker) chunks = true ->
  free_of log_marker chunks = true ->
  forallb (drawn_from chunks) ps = true ->
  tight log_marker (flatten ps) = true /\ occurrences log_marker (flatten ps) = 0.
Proof.
  intros Ht Hf Hd. split.
  - now apply (tight_flatten _ chunks).
  - rewrite (occurrences_flatten _ chunks) by (assumption || reflexivity).
    now apply (lit_occurrences_free _ chunks).
Qed.

(** X6.  A section is written as a log exactly when its kind is the string
    log: [render_sections], and the page around it, hold as many log
    sections as the record has sections of that kind. *)
Theorem log_sections (entries : list (string * value)) (secs : list value) :
  iter (field "sections" (VList []) entries) = Ok secs ->
  (forall out : string,
      render_sections (VDict entries) = Ok out ->
      occurrences log_marker out = length (filter is_log secs))
  /\ (forall page : string,
        build_html (VDict entries) = Ok page ->
        occurrences log_marker page = length (filter is_log secs)).
Proof.
  intros Hsecs. split.
  - intros out Hout. exact (proj2 (render_sections_log _ _ _ Hsecs Hout)).
  - intros page Hpage. pose proof Hpage as Hb. rewrite build_html_trace in Hb.
    unfold Trace.build_html in Hb.
    destruct (Trace.header_of (VDict entries)) as [header|e] eqn:Eh;
      [|discriminate].
    cbn [bind get] in Hb.
    destruct (Trace.render_sections (VDict entries)) as [sections|e] eqn:Es;
      [|discriminate].
    destruct (Trace.render_footer (VDict entries)) as [footer|e] eqn:Ef;
      [|discriminate].
    cbn [bind fmap] in Hb. apply (f_equal text_of) in Hb. cbn [text_of] in Hb.
    rewrite <- Hb. clear Hb Hpage page.
    assert (Hsec : render_sections (VDict entries) = Ok (flatten sections))
      by (now rewrite render_sections_trace, Es).
    destruct (render_sections_log _ _ _ Hsecs Hsec) as [Ts Os].
    destruct (flatten_log_free (classic_text ++ acs_text) header
                ltac:(vm_compute; reflexivity) ltac:(vm_compute; reflexivity)
                (header_of_drawn _ _ Eh)) as [Th Oh].
    destruct (flatten_log_free footer_text footer
                ltac:(vm_compute; reflexivity) ltac:(vm_compute; reflexivity)
                (render_footer_drawn _ _ Ef)) as [Tf Of].
    destruct (flatten_log_free page_text
                (Trace.page_before
                   match lookup "title" entries with
                   | Some v => v
                   | None => VStr "SCP Document"
                   end)
                ltac:(vm_compute; reflexivity) ltac:(vm_compute; reflexivity)
                eq_refl) as [Tp Op].
    unfold Trace.page_after.
    repeat (rewrite ?flatten_app, ?flatten_cons, ?append_assoc).
    cbn [text].
    rewrite (tight_occurrences _ _ _ Tp), Op.
    rewrite (tight_occurrences _ _ _ Th), Oh.
    rewrite (tight_occurrences log_marker Chunk.nl) by reflexivity.
    rewrite (tight_occurrences _ _ _ Ts), Os.
    rewrite (tight_occurrences log_marker Chunk.nl) by reflexivity.
    rewrite (tight_occurrences _ _ _ Tf), Of.
    change (occurrences log_marker (Chunk.page_close ++ flatten [])) with 0.
    change (occurrences log_marker Chunk.nl) with 0.
    lia.
Qed.

Lemma log_sections_witness :
  occurrences log_marker
    (text_of (render_sections
       (VDict [("sections",
                VList [VDict [("kind", VStr "log"); ("body", VStr "12:00 start")];
                       VDict [("kind", VStr "LOG")];
                       VDict [("heading", VStr "section--log")];
                       VDict [("kind", VStr "log")]])]))) = 2.
Proof.
  apply (proj1 (log_sections
                  [("sections",
                    VList [VDict [("kind", VStr "log"); ("body", VStr "12:00 start")];
                           VDict [("kind", VStr "LOG")];
                           VDict [("heading", VStr "section--log")];
                           VDict [("kind", VStr "log")]])]
                  [VDict [("kind", VStr "log"); ("body", VStr "12:00 start")];
                   VDict [("kind", VStr "LOG")];
                   VDict [("heading", VStr "section--log")];
                   VDict [("kind", VStr "log")]] eq_refl)).
  vm_compute. reflexivity.
Defined.

(** ** A record without a title *)

Lemma build_html_opening (entries : list (string * value)) (out : string) :
  build_html (VDict entries) = Ok out ->
  exists rest : string,
    out = Chunk.page_open
          ++ esc (field "title" (VStr "SCP Document") entries)
          ++ Chunk.page_title_close ++ rest.
Proof.
  rewrite build_html_trace. unfold Trace.build_html.
  destruct (Trace.header_of (VDict entries)) as [header|e]; [|discriminate].
  cbn [bind get].
  destruct (Trace.render_sections (VDict entries)) as [sections|e]; [|discriminate].
  destruct (Trace.render_footer (VDict entries)) as [footer|e]; [|discriminate].
  cbn [bind fmap]. intros H. apply (f_equal text_of) in H. cbn [text_of] in H.
  rewrite <- H. unfold Trace.page_before. cbn [app]. rewrite !flatten_cons.
  eexists. reflexivity.
Qed.

(** X7.  Without a title key, each place that shows the title falls back on
    its own: the title element of the page on SCP Document, the title block
    of the classic header on the item number of the classic sub-record and,
    without one, on SCP-XXXX, the title block of the ACS header on SCP-XXXX
    even when the acs sub-record has an item number, and the centre of the
    footer, when it has none of its own, on SCP. *)
Theorem missing_title_fallbacks (entries : list (string * value)) :
  lookup "title" entries = None ->
  (forall out : string,
      build_html (VDict entries) = Ok out ->
      exists rest : string,
        out = Chunk.page_open ++ "SCP Document" ++ Chunk.page_title_close ++ rest)
  /\ (forall (classic : list (string * value)) (out : string),
        field "classic" (VDict []) entries = VDict classic ->
        render_classic_header (VDict entries) = Ok out ->
        exists rest : string,
          out = Chunk.header_open
                ++ esc (field "item_number" (VStr "SCP-XXXX") classic)
                ++ Chunk.header_title_close ++ rest)
  /\ (forall (acs : list (string * value)) (out : string),
        field "acs" (VDict []) entries = VDict acs ->
        render_acs_header (VDict entries) = Ok out ->
        exists rest : string,
          out = Chunk.header_open ++ "SCP-XXXX" ++ Chunk.header_title_close
                ++ rest)
  /\ (forall (foot : list (string * value)) (out : string),
        field "footer" (VDict []) entries = VDict foot ->
        lookup "center" foot = None ->
        render_footer (VDict entries) = Ok out ->
        out = Chunk.footer_open ++ esc (field "left" (VStr "«") foot)
              ++ Chunk.footer_next ++ "SCP" ++ Chunk.footer_next
              ++ esc (field "right" (VStr "»") foot) ++ Chunk.footer_close).
Proof.
  intros Htitle. repeat split.
  - intros out Hout. destruct (build_html_opening _ _ Hout) as [rest ->].
    exists rest. unfold field. now rewrite Htitle.
  - intros classic out Hclassic Hout.
    destruct (subtitle_line_dict entries) as [subtitle Hs].
    rewrite (render_classic_header_fields _ _ _ Hclassic Hs) in Hout.
    apply (f_equal text_of) in Hout. cbn [text_of] in Hout. rewrite <- Hout.
    eexists. unfold field. rewrite Htitle. reflexivity.
  - intros acs out Hacs Hout. rewrite render_acs_header_trace in Hout.
    destruct (Trace.render_acs_header (VDict entries)) as [ps|e] eqn:E;
      [|discriminate].
    destruct (render_acs_header_pieces _ _ _ Hacs E)
      as (subtitle & b1 & b2 & b3 & b4 & _ & _ & _ & _ & _ & ->).
    apply (f_equal text_of) in Hout. cbn [fmap text_of] in Hout. rewrite <- Hout.
    unfold Trace.acs_before. cbn [app]. rewrite !flatten_cons.
    eexists. unfold field. rewrite Htitle. reflexivity.
  - intros foot out Hfoot Hcenter Hout.
    rewrite (render_footer_fields _ _ Hfoot) in Hout.
    apply (f_equal text_of) in Hout. cbn [text_of] in Hout. rewrite <- Hout.
    unfold field. now rewrite Htitle, Hcenter.
Qed.

Lemma missing_title_fallbacks_witness :
  (exists rest : string,
      text_of (render_classic_header
                 (VDict [("classic", VDict [("item_number", VStr "SCP-173")])]))
      = Chunk.header_open ++ "SCP-173" ++ Chunk.header_title_close ++ rest)
  /\ (exists rest : string,
        text_of (render_acs_header
                   (VDict [("acs", VDict [("item_number", VStr "SCP-173")])]))
        = Chunk.header_open ++ "SCP-XXXX" ++ Chunk.header_title_close ++ rest).
Proof.
  split.
  - apply (proj1 (proj2 (missing_title_fallbacks
                           [("classic", VDict [("item_number", VStr "SCP-173")])]
                           eq_refl))
             [("item_number", VStr "SCP-173")]);
      [reflexivity | vm_compute; reflexivity].
  - apply (proj1 (proj2 (proj2 (missing_title_fallbacks
                                  [("acs", VDict [("item_number", VStr "SCP-173")])]
                                  eq_refl)))
             [("item_number", VStr "SCP-173")]);
      [reflexivity | vm_compute; reflexivity].
Defined.

(** ** The icon table *)

Lemma lookup_In_pair {A : Type} (k : string) (l : list (string * A)) (v : A) :
  lookup k l = Some v -> In (k, v) l.
Proof.
  induction l as [|[k' v'] l IH]; cbn [lookup]; [discriminate|].
  destruct (String.eqb_spec k k') as [->|].
  - intros H. injection H as ->. now left.
  - intros H. right. now apply IH.
Qed.

Lemma In_lookup {A : Type} (k : string) (l : list (string * A)) (v : A) :
  distinct (map fst l) = true -> In (k, v) l -> lookup k l = Some v.
Proof.
  induction l as [|[k' v'] l IH]; [intros _ []|].
  cbn [map fst distinct lookup]. intros Hd Hin.
  apply andb_prop in Hd as [Hk Hd]. destruct Hin as [Hin|Hin].
  - injection Hin as -> ->. now rewrite String.eqb_refl.
  - destruct (String.eqb_spec k k') as [->|]; [|now apply IH].
    apply negb_true_iff in Hk.
    assert (Hex : existsb (String.eqb k') (map fst l) = true).
    { apply existsb_exists. exists k'. split; [|apply String.eqb_refl].
      apply in_map_iff. now exists (k', v). }
    congruence.
Qed.

Lemma table_keys_distinct : distinct (map fst ACS_ICON_MAP) = true.
Proof. reflexivity. Qed.

Lemma table_keys_lower :
  forallb (fun kv => String.eqb (Py.lower (fst kv)) (fst kv)) ACS_ICON_MAP = true.
Proof. reflexivity. Qed.

(** X8.  The icon of a string is the one the table gives its lower-cased
    form: [acs_icon_url] returns the address of a file exactly when the table
    pairs the lower-cased value with that file, and nothing when it pairs it
    with none.  No entry of the table is out of reach: each key resolves to
    its own file.  A badge is empty exactly when the value has no icon. *)
Theorem icon_lookup_is_the_table :
  (forall v u : string,
      acs_icon_url (VStr v) = Ok (Some u) <->
      exists filename, In (Py.lower v, filename) ACS_ICON_MAP /\ u = icon_url filename)
  /\ (forall v : string,
        acs_icon_url (VStr v) = Ok None <->
        forall filename, In (Py.lower v, filename) ACS_ICON_MAP -> False)
  /\ (forall k filename : string,
        In (k, filename) ACS_ICON_MAP ->
        acs_icon_url (VStr k) = Ok (Some (icon_url filename)))
  /\ (forall label v : string,
        acs_badge label (VStr v) = Ok "" <->
        lookup (Py.lower v) ACS_ICON_MAP = None).
Proof.
  split; [|split; [|split]].
  - intros v u. split.
    + intros H. destruct (lookup (Py.lower v) ACS_ICON_MAP) as [f|] eqn:E.
      * rewrite (acs_icon_url_known _ _ E) in H. exists f.
        split; [now apply lookup_In_pair | congruence].
      * rewrite (acs_icon_url_unknown _ E) in H. discriminate.
    + intros (f & Hin & ->). apply acs_icon_url_known.
      now apply In_lookup; [apply table_keys_distinct|].
  - intros v. split.
    + intros H f Hin. apply (In_lookup _ _ _ table_keys_distinct) in Hin.
      rewrite (acs_icon_url_known _ _ Hin) in H. discriminate.
    + intros H. destruct (lookup (Py.lower v) ACS_ICON_MAP) as [f|] eqn:E.
      * destruct (H f). now apply lookup_In_pair.
      * now apply acs_icon_url_unknown.
  - intros k f Hin. apply acs_icon_url_known.
    pose proof table_keys_lower as Hl. rewrite forallb_forall in Hl.
    specialize (Hl _ Hin). cbn [fst] in Hl. apply String.eqb_eq in Hl.
    rewrite Hl. now apply In_lookup; [apply table_keys_distinct|].
  - intros label v. split.
    + intros H. destruct (lookup (Py.lower v) ACS_ICON_MAP) as [f|] eqn:E;
        [|reflexivity].
      rewrite (acs_badge_known _ _ _ E) in H.
      apply (f_equal text_of) in H. cbn [text_of] in H.
      unfold Trace.badge in H. rewrite flatten_cons in H. discriminate H.
    + apply acs_badge_unknown.
Qed.

Lemma icon_lookup_is_the_table_witness :
  acs_icon_url (VStr "KeTeR") = Ok (Some (icon_url "keter-icon.svg"))
  /\ acs_icon_url (VStr "ticonderoga") = Ok (Some (icon_url "ticonderoga-icon.svg")).
Proof.
  split.
  - apply (proj2 (proj1 icon_lookup_is_the_table "KeTeR" _)).
    exists "keter-icon.svg". split; [|reflexivity].
    cbn. tauto.
  - apply (proj1 (proj2 (proj2 icon_lookup_is_the_table))).
    cbn. tauto.
Defined.

(** ** Escaping loses nothing *)

Lemma escape_char_cases (c : ascii) :
  (Py.escape_char c = String c "" /\ c <> "&"%char)
  \/ (c = "&"%char /\ Py.escape_char c = "&amp;")
  \/ (c = "<"%char /\ Py.escape_char c = "&lt;")
  \/ (c = ">"%char /\ Py.escape_char c = "&gt;")
  \/ (c = Py.dquote /\ Py.escape_char c = "&quot;")
  \/ (c = "'"%char /\ Py.escape_char c = "&#x27;").
Proof.
  unfold Py.escape_char.
  destruct (Ascii.eqb_spec c "&") as [->|Hn]; [tauto|].
  destruct (Ascii.eqb_spec c "<") as [->|]; [tauto|].
  destruct (Ascii.eqb_spec c ">") as [->|]; [tauto|].
  destruct (Ascii.eqb_spec c Py.dquote) as [->|]; [tauto|].
  destruct (Ascii.eqb_spec c "'") as [->|]; tauto.
Qed.

Lemma html_escape_empty (s : string) : Py.html_escape s = "" -> s = "".
Proof.
  destruct s as [|c s]; [reflexivity|]. cbn [Py.html_escape].
  destruct (escape_char_cases c) as [[-> _]|[[_ ->]|[[_ ->]|[[_ ->]|[[_ ->]|[_ ->]]]]]];
    discriminate.
Qed.

Lemma html_escape_injective (a b : string) :
  Py.html_escape a = Py.html_escape b -> a = b.
Proof.
  revert b. induction a as [|c a IH]; intros b H.
  - symmetry. apply html_escape_empty. now rewrite <- H.
  - destruct b as [|d b]; [now apply html_escape_empty in H|].
    cbn [Py.html_escape] in H.
    destruct (escape_char_cases c)
      as [[Ec Hc]|[[-> Ec]|[[-> Ec]|[[-> Ec]|[[-> Ec]|[-> Ec]]]]]];
    destruct (escape_char_cases d)
      as [[Ed Hd]|[[-> Ed]|[[-> Ed]|[[-> Ed]|[[-> Ed]|[-> Ed]]]]]];
    rewrite ?Ec, ?Ed in H; cbn [append] in H;
      try (injection H as H; try congruence; f_equal; try congruence;
           now apply IH);
      try discriminate H.
Qed.

Lemma html_escape_plain (s : string) : plain s = true -> Py.html_escape s = s.
Proof.
  induction s as [|c s IH]; [reflexivity|].
  cbn [plain Py.html_escape]. intros H. apply andb_prop in H as [Hc Hs].
  rewrite (IH Hs). unfold Py.escape_char.
  apply negb_true_iff in Hc. repeat (apply orb_false_elim in Hc as [Hc ?]).
  now rewrite Hc, H2, H1, H0, H.
Qed.

(** X9.  [esc] loses nothing: two strings with the same escaped text are the
    same string, and so two different field values are never written
    alike.  A string with none of the five characters is written as it
    is. *)
Theorem esc_is_lossless :
  (forall a b : string, esc (VStr a) = esc (VStr b) -> a = b)
  /\ (forall s : string, plain s = true -> esc (VStr s) = s).
Proof.
  split.
  - intros a b. apply html_escape_injective.
  - intros s. apply html_escape_plain.
Qed.

Lemma esc_is_lossless_witness :
  esc (VStr "Site Director, level 3") = "Site Director, level 3".
Proof. apply (proj2 esc_is_lossless). reflexivity. Defined.

(** ** The command line *)

Section MainFacts.

Context {fs : Type}.
Variable read_text : fs -> string -> option string.
Variable write_text : fs -> string -> string -> fs * bool.
Variable loads : string -> option value.

Local Notation "'cli'" := (main fs read_text write_text loads).

(** X10.  [main] opens the output only after the page is built.  When it
    ends in an exception that is not of the write (the read, the parse or the
    render failed), no file has changed and nothing was printed on the
    standard output.  It ends in an exception of the render only when
    [build_html] raised it on the parsed input, and that exception is
    AttributeError or TypeError. *)
Theorem main_fails_before_write (argv : list string) (p : process fs)
    (u : uncaught) :
  fst (cli argv p) = Uncaught u ->
  u <> WriteFailed ->
  files (snd (cli argv p)) = files p
  /\ stdout (snd (cli argv p)) = stdout p
  /\ forall e : exn,
       u = RenderFailed e ->
       (e = AttributeError \/ e = TypeError)
       /\ exists prog input output text data,
            argv = [prog; input; output]
            /\ read_text (files p) input = Some text
            /\ loads text = Some data
            /\ build_html data = Raise e.
Proof.
  unfold main. intros Hu Hw.
  destruct argv as [|prog [|input [|output [|extra argv]]]];
    try discriminate Hu.
  destruct (read_text (files p) input) as [text|] eqn:Er.
  2:{ cbn [fst snd] in *. split; [reflexivity | split; [reflexivity|]].
      intros e He. congruence. }
  destruct (loads text) as [data|] eqn:El.
  2:{ cbn [fst snd] in *. split; [reflexivity | split; [reflexivity|]].
      intros e He. congruence. }
  destruct (build_html data) as [html|e'] eqn:Eb.
  - destruct (write_text (files p) output html) as [files' []];
      cbn [fst snd] in Hu; congruence.
  - cbn [fst snd] in *. split; [reflexivity | split; [reflexivity|]].
    intros e He. assert (e' = e) by congruence. subst e'. split.
    + destruct (build_html_raises_only _ _ Eb) as [-> | [-> _]]; auto.
    + exists prog, input, output, text, data. auto.
Qed.


End MainFacts.

Lemma main_fails_before_write_witness :
  files (snd (toy_main ["scpdocgen.py"; "list.json"; "out.html"] toy_process))
  = files toy_process
  /\ stdout (snd (toy_main ["scpdocgen.py"; "list.json"; "out.html"] toy_process))
     = stdout toy_process.
Proof.
  destruct (main_fails_before_write toy_read toy_write toy_loads
              ["scpdocgen.py"; "list.json"; "out.html"] toy_process
              (RenderFailed AttributeError))
    as (Hfiles & Hout & _).
  - vm_compute. reflexivity.
  - discriminate.
  - split; assumption.
Defined.


(** ** Text outside ASCII in [str] of a list *)

(** A field that is a list is written as [repr] has it: the code points
    U+0085, U+00A0, U+00AD, U+200B and U+2028, which are not printable, as
    their escapes, and U+00E9 and U+1F600 as they are. *)
Example str_of_unprintable :
  str (VList [VStr (String "194" (String "133" ""));
              VStr (String "194" (String "160" ""));
              VStr (String "194" (String "173" ""));
              VStr (String "226" (String "128" (String "139" "")));
              VStr (String "226" (String "128" (String "168" "")));
              VStr (String "195" (String "169" ""));
              VStr (String "240" (String "159" (String "152" (String "128" ""))))])
  = "['\x85', '\xa0', '\xad', '\u200b', '\u2028', '"
    ++ String "195" (String "169" "") ++ "', '"
    ++ String "240" (String "159" (String "152" (String "128" ""))) ++ "']".
Proof. vm_compute. reflexivity. Qed.
